(** * pyEvalData.io.palxfel: the resumable PAL-XFEL log parser

    A shallow embedding of [src/pyEvalData/io/palxfel.py]: the regular
    expressions of the module, [PalSpecFile.Parse], [PalSpecFile.parse_folders],
    [PalSpecFile.Update], [PalSpecFile.__init__] and [PalSpecScan.ReadData],
    followed by the properties of the specification that concern them.

    Conventions.
    - A [bytes] object and a [str] are both a [string]: an [ascii] is eight
      bits, so it is a byte; a decoded [str] only holds codes below 128.
    - Python integers are [Z]; [None] is [None].
    - A raised exception is [Raise e]; normal completion is [Ok v].
    - Output by [print] (guarded by [config.VERBOSITY] or [self.debug]) is not
      modelled. *)

From Stdlib Require Import ZArith List String Ascii Bool Lia DecimalString DecimalN.
Import ListNotations.
Open Scope string_scope.
Open Scope Z_scope.

(** ** Exceptions and results *)

Inductive exn : Type :=
| NameError | UnboundLocalError | IndexError | ValueError | TypeError
| FileNotFoundError | ZeroDivisionError.

Inductive result (A : Type) : Type :=
| Ok (a : A)
| Raise (e : exn).
Arguments Ok {A} a.
Arguments Raise {A} e.

Definition bind {A B : Type} (m : result A) (k : A -> result B) : result B :=
  match m with
  | Ok a => k a
  | Raise e => Raise e
  end.

Notation "x <- m ;; k" := (bind m (fun x => k))
  (at level 61, m at next level, right associativity).
Notation "' p <- m ;; k" := (bind m (fun x => let p := x in k))
  (at level 61, p pattern, m at next level, right associativity).

(** Reading a local variable that may not have been assigned yet. *)
Definition local {A : Type} (v : option A) : result A :=
  match v with
  | Some a => Ok a
  | None => Raise UnboundLocalError
  end.

(** [l[i]] on a Python list, for a non-negative literal index. *)
Definition getitem {A : Type} (l : list A) (i : nat) : result A :=
  match nth_error l i with
  | Some a => Ok a
  | None => Raise IndexError
  end.

(** [l[-1]]. *)
Fixpoint last_item {A : Type} (l : list A) : result A :=
  match l with
  | [] => Raise IndexError
  | [a] => Ok a
  | _ :: l' => last_item l'
  end.

(** ** Python strings *)

Module Py.

Definition code (a : ascii) : nat := nat_of_ascii a.

Definition between (lo hi : nat) (a : ascii) : bool :=
  (Nat.leb lo (code a) && Nat.leb (code a) hi)%bool.

(** [str.isspace] on the ASCII range; this is also the class [\s] of [re] for
    a [str] pattern: TAB, LF, VT, FF, CR, FS, GS, RS, US and the blank. *)
Definition is_space (a : ascii) : bool :=
  (between 9 13 a || between 28 32 a)%bool.

Definition is_digit (a : ascii) : bool := between 48 57 a.

Definition is_alpha (a : ascii) : bool :=
  (between 65 90 a || between 97 122 a)%bool.

Definition newline : ascii := ascii_of_nat 10.

Fixpoint lstrip (s : string) : string :=
  match s with
  | String a s' => if is_space a then lstrip s' else s
  | EmptyString => EmptyString
  end.

(** [rstrip]: a character is kept when it is not a blank or when something
    is kept after it. *)
Fixpoint rstrip (s : string) : string :=
  match s with
  | String a s' =>
      match rstrip s' with
      | EmptyString => if is_space a then EmptyString else String a EmptyString
      | r => String a r
      end
  | EmptyString => EmptyString
  end.

(** [str.strip()] *)
Definition strip (s : string) : string := rstrip (lstrip s).

(** [bytes.decode('ascii', 'ignore')]: the bytes above 127 are dropped. *)
Fixpoint decode_ascii_ignore (b : string) : string :=
  match b with
  | String a b' =>
      if Nat.ltb (code a) 128 then String a (decode_ascii_ignore b')
      else decode_ascii_ignore b'
  | EmptyString => EmptyString
  end.

(** [len] of a [bytes] or [str]. *)
Definition len (s : string) : Z := Z.of_nat (String.length s).

(** The bytes from position [n] on (what a file gives after [seek(n, 0)]). *)
Fixpoint drop (n : nat) (s : string) : string :=
  match n, s with
  | O, _ => s
  | S n', String _ s' => drop n' s'
  | S _, EmptyString => EmptyString
  end.

Fixpoint take (n : nat) (s : string) : string :=
  match n, s with
  | O, _ => EmptyString
  | S n', String a s' => String a (take n' s')
  | S _, EmptyString => EmptyString
  end.

(** Iterating over a binary file: the lines, each with its line feed, the
    last one possibly without. *)
Fixpoint iter_lines (s : string) : list string :=
  match s with
  | EmptyString => []
  | String a s' =>
      if Ascii.eqb a newline then String a EmptyString :: iter_lines s'
      else match iter_lines s' with
           | [] => [String a EmptyString]
           | l :: ls => String a l :: ls
           end
  end.

(** [fid.readline()]: the next line and what remains. *)
Fixpoint readline (s : string) : string * string :=
  match s with
  | EmptyString => (EmptyString, EmptyString)
  | String a s' =>
      if Ascii.eqb a newline then (String a EmptyString, s')
      else let (l, r) := readline s' in (String a l, r)
  end.

End Py.

(** ** The builtins [float] and [int] on a [str] *)

Module Num.

(** The value of a decimal literal, kept exact: [FDec neg m e] is
    [(-1)^neg * m * 10^e].  The rounding to a binary64 is not modelled; no
    property below depends on it. *)
Inductive pyfloat : Type :=
| FNan
| FInf (neg : bool)
| FDec (neg : bool) (mant : N) (exp10 : Z).

Definition digit_val (a : ascii) : N := N.of_nat (Py.code a - 48).

(** Underscores are accepted between two digits only; they are removed
    before the literal is read.  [prev] is the previous character. *)
Fixpoint strip_underscores (prev : option ascii) (s : string) : option string :=
  match s with
  | EmptyString =>
      match prev with
      | Some p => if Ascii.eqb p "_" then None else Some EmptyString
      | None => Some EmptyString
      end
  | String a s' =>
      if Ascii.eqb a "_" then
        match prev with
        | Some p => if Py.is_digit p then strip_underscores (Some a) s' else None
        | None => None
        end
      else
        match prev with
        | Some p =>
            if (Ascii.eqb p "_" && negb (Py.is_digit a))%bool then None
            else option_map (String a) (strip_underscores (Some a) s')
        | None => option_map (String a) (strip_underscores (Some a) s')
        end
  end.

(** The longest run of digits at the head of [s], and the rest. *)
Fixpoint span_digits (s : string) : list ascii * string :=
  match s with
  | String a s' =>
      if Py.is_digit a then let (d, r) := span_digits s' in (a :: d, r)
      else ([], s)
  | EmptyString => ([], EmptyString)
  end.

Definition digits_value (d : list ascii) : N :=
  fold_left (fun acc a => (10 * acc + digit_val a)%N) d 0%N.

Definition read_sign (s : string) : bool * string :=
  match s with
  | String "-" s' => (true, s')
  | String "+" s' => (false, s')
  | _ => (false, s)
  end.

Definition lower (a : ascii) : ascii :=
  if Py.between 65 90 a then ascii_of_nat (Py.code a + 32) else a.

Fixpoint lower_string (s : string) : string :=
  match s with
  | String a s' => String (lower a) (lower_string s')
  | EmptyString => EmptyString
  end.

(** The exponent part: nothing, or [e]/[E], an optional sign and at least
    one digit, up to the end of the literal. *)
Definition read_exponent (s : string) : option Z :=
  match s with
  | EmptyString => Some 0
  | String a s' =>
      if (Ascii.eqb a "e" || Ascii.eqb a "E")%bool then
        let (neg, s1) := read_sign s' in
        match span_digits s1 with
        | ((_ :: _) as d, EmptyString) =>
            let v := Z.of_N (digits_value d) in
            Some (if neg then - v else v)
        | _ => None
        end
      else None
  end.

Definition read_decimal (neg : bool) (s : string) : option pyfloat :=
  let (ip, s1) := span_digits s in
  let (fp, s2) :=
    match s1 with
    | String "." s1' => span_digits s1'
    | _ => ([], s1)
    end in
  match (ip ++ fp)%list with
  | [] => None
  | d =>
      match read_exponent s2 with
      | Some e =>
          Some (FDec neg (digits_value d) (e - Z.of_nat (List.length fp)))
      | None => None
      end
  end.

(** [float(s)] for a [str] of ASCII characters; [None] is [ValueError]. *)
Definition parse_float (s : string) : option pyfloat :=
  match strip_underscores None (Py.strip s) with
  | None => None
  | Some t =>
      let (neg, body) := read_sign t in
      let lb := lower_string body in
      if (String.eqb lb "inf" || String.eqb lb "infinity")%bool then Some (FInf neg)
      else if String.eqb lb "nan" then Some FNan
      else read_decimal neg body
  end.

Definition float (s : string) : result pyfloat :=
  match parse_float s with
  | Some f => Ok f
  | None => Raise ValueError
  end.

(** [int(s)] in base ten; [None] is [ValueError]. *)
Definition parse_int (s : string) : option Z :=
  match strip_underscores None (Py.strip s) with
  | None => None
  | Some t =>
      let (neg, body) := read_sign t in
      match span_digits body with
      | ((_ :: _) as d, EmptyString) =>
          let v := Z.of_N (digits_value d) in
          Some (if neg then - v else v)
      | _ => None
      end
  end.

Definition int (s : string) : result Z :=
  match parse_int s with
  | Some z => Ok z
  | None => Raise ValueError
  end.

End Num.

(** ** Regular expressions

    The patterns of the module are alternatives of sequences of character
    classes, each class taken once, optionally, or repeated ([*], [+]).
    The matcher below follows [re]: alternatives in order, quantifiers
    greedy, backtracking into the last choice first. *)

Module Re.

Inductive quant : Type := One | Opt | Star | Plus.

Record atom : Type := Atom { cls : ascii -> bool; qnt : quant }.

Record regex : Type := Regex { anchored : bool; alts : list (list atom) }.

(** [c*] followed by the continuation [k]: as many [c] as possible first. *)
Fixpoint match_star (c : ascii -> bool) (k : string -> option string)
         (s : string) : option string :=
  match s with
  | String a s' =>
      if c a then
        match match_star c k s' with
        | Some r => Some r
        | None => k s
        end
      else k s
  | EmptyString => k s
  end.

(** The text left after the first way of matching the sequence [p] at the
    head of [s]. *)
Fixpoint match_seq (p : list atom) (s : string) : option string :=
  match p with
  | [] => Some s
  | Atom c One :: p' =>
      match s with
      | String a s' => if c a then match_seq p' s' else None
      | EmptyString => None
      end
  | Atom c Opt :: p' =>
      match s with
      | String a s' =>
          if c a then
            match match_seq p' s' with
            | Some r => Some r
            | None => match_seq p' s
            end
          else match_seq p' s
      | EmptyString => match_seq p' s
      end
  | Atom c Star :: p' => match_star c (match_seq p') s
  | Atom c Plus :: p' =>
      match s with
      | String a s' => if c a then match_star c (match_seq p') s' else None
      | EmptyString => None
      end
  end.

Fixpoint match_alts (ps : list (list atom)) (s : string) : option string :=
  match ps with
  | [] => None
  | p :: ps' =>
      match match_seq p s with
      | Some r => Some r
      | None => match_alts ps' s
      end
  end.

(** [r.match(s)]: is there a match at the beginning of [s]. *)
Definition matches (r : regex) (s : string) : bool :=
  match match_alts (alts r) s with
  | Some _ => true
  | None => false
  end.

(** Scanning [s] from left to right for the non-overlapping matches of [r]:
    the list of (text before the match, match), and the text after the last
    match.  [gap] is the text passed over since the previous match.  No
    pattern of the module matches the empty string; an empty match is
    passed over. *)
Fixpoint scan (fuel : nat) (r : regex) (gap s : string)
  : list (string * string) * string :=
  match fuel with
  | O => ([], gap ++ s)
  | S f =>
      let skip :=
        match s with
        | EmptyString => ([], gap)
        | String a s' => scan f r (gap ++ String a EmptyString) s'
        end in
      match match_alts (alts r) s with
      | Some rest =>
          let n := (String.length s - String.length rest)%nat in
          match n with
          | O => skip
          | _ =>
              let (segs, tl) := scan f r EmptyString rest in
              ((gap, Py.take n s) :: segs, tl)
          end
      | None => skip
      end
  end.

Definition segments (r : regex) (s : string) : list (string * string) * string :=
  if anchored r then
    match match_alts (alts r) s with
    | Some rest =>
        let n := (String.length s - String.length rest)%nat in
        match n with
        | O => ([], s)
        | _ => ([(EmptyString, Py.take n s)], rest)
        end
    | None => ([], s)
    end
  else scan (S (String.length s)) r EmptyString s.

(** [r.findall(s)] *)
Definition findall (r : regex) (s : string) : list string :=
  map snd (fst (segments r s)).

(** [r.sub(repl, s)] for a replacement without back-references. *)
Definition sub (r : regex) (repl s : string) : string :=
  let (segs, tl) := segments r s in
  fold_right (fun gm acc => fst gm ++ repl ++ acc) tl segs.

(** [r.split(s)] *)
Definition split (r : regex) (s : string) : list string :=
  let (segs, tl) := segments r s in
  (map fst segs ++ [tl])%list.

(** Building patterns. *)
Definition chr (a : ascii) : atom := Atom (Ascii.eqb a) One.

Fixpoint lit (s : string) : list atom :=
  match s with
  | String a s' => chr a :: lit s'
  | EmptyString => []
  end.

Definition one_of (s : string) (a : ascii) : bool :=
  existsb (Ascii.eqb a) (list_ascii_of_string s).

Definition any_char (a : ascii) : bool := negb (Ascii.eqb a Py.newline).

End Re.

(** ** The patterns of the module (lines 235-261) *)

Import Re.

Definition digit (q : quant) : atom := Atom Py.is_digit q.
Definition blank (q : quant) : atom := Atom Py.is_space q.
Definition among (s : string) (q : quant) : atom := Atom (one_of s) q.

(** [\d\d:\d\d:\d\d] *)
Definition SPEC_time_format : regex :=
  Regex false [[digit One; digit One; chr ":"; digit One; digit One; chr ":";
                digit One; digit One]].
(** [\s+] *)
Definition SPEC_multi_blank : regex := Regex false [[blank Plus]].
(** [\s\s+] *)
Definition SPEC_multi_blank2 : regex := Regex false [[blank One; blank Plus]].
(** [[+-]?\d+] *)
Definition SPEC_int_value : regex := Regex false [[among "+-" Opt; digit Plus]].
(** [([+-]?\d*\.*\d*[eE]*[+-]*\d+|[+-]?[Ii][Nn][Ff]|[Nn][Aa][Nn])] *)
Definition SPEC_num_value : regex :=
  Regex false
    [ [among "+-" Opt; digit Star; among "." Star; digit Star; among "eE" Star;
       among "+-" Star; digit Plus];
      [among "+-" Opt; among "Ii" One; among "Nn" One; among "Ff" One];
      [among "Nn" One; among "Aa" One; among "Nn" One] ].
(** [^[+-]*\d.*] *)
Definition SPEC_dataline : regex :=
  Regex true [[among "+-" Star; digit One; Atom any_char Star]].

Definition SPEC_scan : regex := Regex true [lit "#RUN"].
Definition SPEC_cmd : regex := Regex true [lit "#CMD"].
Definition SPEC_initmoponames : regex := Regex false [lit "#MOT"].
Definition SPEC_initmopopos : regex := Regex false [lit "#VAL"].
Definition SPEC_datetime : regex := Regex true [lit "#TIM"].
Definition SPEC_exptime : regex := Regex true [lit "#T"].
Definition SPEC_nofcols : regex := Regex true [lit "#N"].
Definition SPEC_colnames : regex := Regex true [lit "#COL"].
Definition SPEC_MCAFormat : regex := Regex true [lit "#@MCA"].
Definition SPEC_MCAChannels : regex := Regex true [lit "#@CHANN"].
Definition SPEC_headerline : regex := Regex true [lit "#"].

(** The class [[a-zA-Z0-9: .]] *)
Definition comment_char (a : ascii) : bool :=
  (Py.is_alpha a || Py.is_digit a || one_of ": ." a)%bool.

(** [#C[a-zA-Z0-9: .]*Scan aborted] *)
Definition SPEC_scanbroken : regex :=
  Regex false [(lit "#C" ++ [Atom comment_char Star] ++ lit "Scan aborted")%list].
(** [#C[a-zA-Z0-9: .]*Scan resumed] *)
Definition SPEC_scanresumed : regex :=
  Regex false [(lit "#C" ++ [Atom comment_char Star] ++ lit "Scan resumed")%list].
Definition SPEC_commentline : regex := Regex false [lit "#ATT"].
Definition SPEC_newheader : regex := Regex true [lit "#E"].
Definition SPEC_errorbm20 : regex := Regex true [lit "MI:"].

(** [scan_status_flags] *)
Inductive status : Type := OK | NODATA | ABORTED | CORRUPTED.

Definition status_eqb (a b : status) : bool :=
  match a, b with
  | OK, OK | NODATA, NODATA | ABORTED, ABORTED | CORRUPTED, CORRUPTED => true
  | _, _ => false
  end.

(** ** The scan object

    [PalSpecScan] adds nothing to the attributes of its base class, the
    [SPECScan] of xrayutilities, whose constructor stores its arguments,
    renames the repeated names of the list of column names, and starts a
    scan with [ischanged = True], [has_mca = False], an empty [header] and
    no [data]. *)

(** A cell of a data row: a counter value or the spectrum of the row. *)
Inductive cell : Type :=
| Scalar (v : Num.pyfloat)
| Spectrum (channels : list Z).

Definition row : Type := list cell.

Module Scan.

Record PalSpecScan : Type := MkScan {
  name : string;
  nr : Z;
  command : string;
  date : string;
  time : string;
  itime : Num.pyfloat;
  colnames : list string;
  hoffset : Z;
  doffset : option Z;
  fname : string;
  imopnames : list string;
  imopvalues : list Num.pyfloat;
  scan_status : status;
  ischanged : bool;
  header : list string;
  has_mca : bool;
  mca_column_format : Z;
  mca_channels : Z;
  mca_start_channel : Z;
  mca_stop_channel : Z;
  mca_nof_lines : Z;
  data : option (list row)
}.

Definition set_scan_status (v : status) (x : PalSpecScan) : PalSpecScan :=
  MkScan (name x) (nr x) (command x) (date x) (time x) (itime x)
    (colnames x) (hoffset x) (doffset x) (fname x) (imopnames x)
    (imopvalues x) v (ischanged x) (header x) (has_mca x)
    (mca_column_format x) (mca_channels x) (mca_start_channel x)
    (mca_stop_channel x) (mca_nof_lines x) (data x).

Definition set_ischanged (v : bool) (x : PalSpecScan) : PalSpecScan :=
  MkScan (name x) (nr x) (command x) (date x) (time x) (itime x)
    (colnames x) (hoffset x) (doffset x) (fname x) (imopnames x)
    (imopvalues x) (scan_status x) v (header x) (has_mca x)
    (mca_column_format x) (mca_channels x) (mca_start_channel x)
    (mca_stop_channel x) (mca_nof_lines x) (data x).

Definition set_header (v : list string) (x : PalSpecScan) : PalSpecScan :=
  MkScan (name x) (nr x) (command x) (date x) (time x) (itime x)
    (colnames x) (hoffset x) (doffset x) (fname x) (imopnames x)
    (imopvalues x) (scan_status x) (ischanged x) v (has_mca x)
    (mca_column_format x) (mca_channels x) (mca_start_channel x)
    (mca_stop_channel x) (mca_nof_lines x) (data x).

Definition set_data (v : option (list row)) (x : PalSpecScan) : PalSpecScan :=
  MkScan (name x) (nr x) (command x) (date x) (time x) (itime x)
    (colnames x) (hoffset x) (doffset x) (fname x) (imopnames x)
    (imopvalues x) (scan_status x) (ischanged x) (header x) (has_mca x)
    (mca_column_format x) (mca_channels x) (mca_start_channel x)
    (mca_stop_channel x) (mca_nof_lines x) v.

(** ["scan_%i" % scannr] *)
Definition scan_name (scannr : Z) : string :=
  "scan_" ++ DecimalString.NilEmpty.string_of_int (Z.to_int scannr).

(** The inner loop of the renaming: from the position after the first
    occurrence of [name] on, [cnt] counts the positions, and an element
    equal to [name] becomes [name + "_%d" % cnt]. *)
Fixpoint rename_from (name : string) (cnt : Z) (l : list string) : list string :=
  match l with
  | [] => []
  | x :: l' =>
      (if String.eqb x name
       then name ++ "_" ++ DecimalString.NilEmpty.string_of_int (Z.to_int cnt)
       else x) :: rename_from name (cnt + 1) l'
  end.

(** The elements up to [colnames.index(name)] stay, those after it go
    through the inner loop, [cnt] starting at 1. *)
Fixpoint rename_after_first (name : string) (l : list string) : list string :=
  match l with
  | [] => []
  | x :: l' =>
      if String.eqb x name then x :: rename_from name 1 l'
      else x :: rename_after_first name l'
  end.

(** One round of the outer loop, for the name at position [i]: nothing
    happens unless [colnames.count(name) > 1]. *)
Definition rename_at (i : nat) (l : list string) : list string :=
  match nth_error l i with
  | Some name =>
      if Nat.ltb 1 (count_occ string_dec l name)
      then rename_after_first name l else l
  | None => l
  end.

(** The check for repeated column names at the end of the constructor of
    [SPECScan]: [for i in range(len(self.colnames))], in place. *)
Definition rename_repeated (l : list string) : list string :=
  fold_left (fun acc i => rename_at i acc) (seq 0 (List.length l)) l.

(** [PalSpecScan(name, scannr, command, date, time, itime, colnames, hoffset,
    doffset, fname, imopnames, imopvalues, scan_status)].  [colnames] is the
    list as the constructor leaves it; the list object is the one the caller
    passed, so that the caller sees the renaming too (see [close_scan]).
    A scan object built earlier from the same list object is kept here with
    the names its own constructor left: a later check changes them only if
    the earlier one left repeated names, which takes names that already end
    like the suffixes of the check. *)
Definition init (name : string) (scannr : Z) (command date time : string)
    (itime : Num.pyfloat) (colnames : list string) (hoffset : Z)
    (doffset : option Z) (fname : string) (imopnames : list string)
    (imopvalues : list Num.pyfloat) (scan_status : status) : PalSpecScan :=
  MkScan name scannr command date time itime (rename_repeated colnames)
    hoffset doffset fname imopnames imopvalues scan_status true [] false
    0 0 0 0 0 None.

(** [SPECScan.SetMCAParams]: the four parameters are stored and the number
    of lines of a spectrum is [int(mca_channels / mca_column_format)], plus
    one when the division leaves a remainder. *)
Definition SetMCAParams (mca_column_format mca_channels mca_start mca_stop : Z)
    (x : PalSpecScan) : result PalSpecScan :=
  if mca_column_format =? 0 then Raise ZeroDivisionError
  else
    let q := Z.quot mca_channels mca_column_format in
    let n := if Z.modulo mca_channels mca_column_format =? 0 then q else q + 1 in
    Ok (MkScan (name x) (nr x) (command x) (date x) (time x) (itime x)
          (colnames x) (hoffset x) (doffset x) (fname x) (imopnames x)
          (imopvalues x) (scan_status x) (ischanged x) (header x) true
          mca_column_format mca_channels mca_start mca_stop n (data x)).

End Scan.

Abbreviation PalSpecScan := Scan.PalSpecScan.

(** ** The file object (lines 264-306)

    [file_format] is the function [self.file_format.format]; the directory
    [os.path.abspath(self.path)] is seen through a map from the file names
    in it to their content. *)

Record PalSpecFile : Type := MkFile {
  path : string;
  filename : string;
  full_filename : string;
  scan_list : list PalSpecScan;
  last_offset : option Z;
  scan_in_list : list Z;
  curr_scan_nb : Z;
  file_format : Z -> string;
  init_motor_names_fh : list string;
  init_motor_names_sh : list string;
  init_motor_names : list string
}.

Definition set_full_filename (v : string) (x : PalSpecFile) : PalSpecFile :=
  MkFile (path x) (filename x) v (scan_list x) (last_offset x)
    (scan_in_list x) (curr_scan_nb x) (file_format x)
    (init_motor_names_fh x) (init_motor_names_sh x) (init_motor_names x).

Definition set_scan_list (v : list PalSpecScan) (x : PalSpecFile) : PalSpecFile :=
  MkFile (path x) (filename x) (full_filename x) v (last_offset x)
    (scan_in_list x) (curr_scan_nb x) (file_format x)
    (init_motor_names_fh x) (init_motor_names_sh x) (init_motor_names x).

Definition set_last_offset (v : option Z) (x : PalSpecFile) : PalSpecFile :=
  MkFile (path x) (filename x) (full_filename x) (scan_list x) v
    (scan_in_list x) (curr_scan_nb x) (file_format x)
    (init_motor_names_fh x) (init_motor_names_sh x) (init_motor_names x).

Definition set_curr_scan_nb (v : Z) (x : PalSpecFile) : PalSpecFile :=
  MkFile (path x) (filename x) (full_filename x) (scan_list x)
    (last_offset x) (scan_in_list x) v (file_format x)
    (init_motor_names_fh x) (init_motor_names_sh x) (init_motor_names x).

Definition set_init_motor_names_fh (v : list string) (x : PalSpecFile) : PalSpecFile :=
  MkFile (path x) (filename x) (full_filename x) (scan_list x)
    (last_offset x) (scan_in_list x) (curr_scan_nb x) (file_format x) v
    (init_motor_names_sh x) (init_motor_names x).

Definition set_init_motor_names_sh (v : list string) (x : PalSpecFile) : PalSpecFile :=
  MkFile (path x) (filename x) (full_filename x) (scan_list x)
    (last_offset x) (scan_in_list x) (curr_scan_nb x) (file_format x)
    (init_motor_names_fh x) v (init_motor_names x).

Definition set_init_motor_names (v : list string) (x : PalSpecFile) : PalSpecFile :=
  MkFile (path x) (filename x) (full_filename x) (scan_list x)
    (last_offset x) (scan_in_list x) (curr_scan_nb x) (file_format x)
    (init_motor_names_fh x) (init_motor_names_sh x) v.

Definition directory : Type := string -> option string.

(** ** [PalSpecFile.Parse] (lines 393-614) *)

(** The local variables of one call of [Parse]; [None] is a variable that
    has not been assigned yet. *)
Record frame : Type := MkFrame {
  scan_started : bool;
  scan_has_mca : bool;
  init_motor_values : list Num.pyfloat;
  scannr : option Z;
  scancmd : option string;
  date : option string;
  time : option string;
  itime : option Num.pyfloat;
  col_names : option (list string);
  scan_header_offset : option Z;
  scan_status : option status;
  mca_col_number : option Z;
  mca_channels : option Z;
  mca_start : option Z;
  mca_stop : option Z
}.

Definition set_scan_started (v : bool) (x : frame) : frame :=
  MkFrame v (scan_has_mca x) (init_motor_values x) (scannr x) (scancmd x)
    (date x) (time x) (itime x) (col_names x) (scan_header_offset x)
    (scan_status x) (mca_col_number x) (mca_channels x) (mca_start x)
    (mca_stop x).

Definition set_scan_has_mca (v : bool) (x : frame) : frame :=
  MkFrame (scan_started x) v (init_motor_values x) (scannr x) (scancmd x)
    (date x) (time x) (itime x) (col_names x) (scan_header_offset x)
    (scan_status x) (mca_col_number x) (mca_channels x) (mca_start x)
    (mca_stop x).

Definition set_init_motor_values (v : list Num.pyfloat) (x : frame) : frame :=
  MkFrame (scan_started x) (scan_has_mca x) v (scannr x) (scancmd x)
    (date x) (time x) (itime x) (col_names x) (scan_header_offset x)
    (scan_status x) (mca_col_number x) (mca_channels x) (mca_start x)
    (mca_stop x).

Definition set_scannr (v : option Z) (x : frame) : frame :=
  MkFrame (scan_started x) (scan_has_mca x) (init_motor_values x) v
    (scancmd x) (date x) (time x) (itime x) (col_names x)
    (scan_header_offset x) (scan_status x) (mca_col_number x)
    (mca_channels x) (mca_start x) (mca_stop x).

Definition set_scancmd (v : option string) (x : frame) : frame :=
  MkFrame (scan_started x) (scan_has_mca x) (init_motor_values x) (scannr x)
    v (date x) (time x) (itime x) (col_names x) (scan_header_offset x)
    (scan_status x) (mca_col_number x) (mca_channels x) (mca_start x)
    (mca_stop x).

Definition set_date (v : option string) (x : frame) : frame :=
  MkFrame (scan_started x) (scan_has_mca x) (init_motor_values x) (scannr x)
    (scancmd x) v (time x) (itime x) (col_names x) (scan_header_offset x)
    (scan_status x) (mca_col_number x) (mca_channels x) (mca_start x)
    (mca_stop x).

Definition set_time (v : option string) (x : frame) : frame :=
  MkFrame (scan_started x) (scan_has_mca x) (init_motor_values x) (scannr x)
    (scancmd x) (date x) v (itime x) (col_names x) (scan_header_offset x)
    (scan_status x) (mca_col_number x) (mca_channels x) (mca_start x)
    (mca_stop x).

Definition set_itime (v : option Num.pyfloat) (x : frame) : frame :=
  MkFrame (scan_started x) (scan_has_mca x) (init_motor_values x) (scannr x)
    (scancmd x) (date x) (time x) v (col_names x) (scan_header_offset x)
    (scan_status x) (mca_col_number x) (mca_channels x) (mca_start x)
    (mca_stop x).

Definition set_col_names (v : option (list string)) (x : frame) : frame :=
  MkFrame (scan_started x) (scan_has_mca x) (init_motor_values x) (scannr x)
    (scancmd x) (date x) (time x) (itime x) v (scan_header_offset x)
    (scan_status x) (mca_col_number x) (mca_channels x) (mca_start x)
    (mca_stop x).

Definition set_scan_header_offset (v : option Z) (x : frame) : frame :=
  MkFrame (scan_started x) (scan_has_mca x) (init_motor_values x) (scannr x)
    (scancmd x) (date x) (time x) (itime x) (col_names x) v (scan_status x)
    (mca_col_number x) (mca_channels x) (mca_start x) (mca_stop x).

Definition set_scan_status (v : option status) (x : frame) : frame :=
  MkFrame (scan_started x) (scan_has_mca x) (init_motor_values x) (scannr x)
    (scancmd x) (date x) (time x) (itime x) (col_names x)
    (scan_header_offset x) v (mca_col_number x) (mca_channels x)
    (mca_start x) (mca_stop x).

Definition set_mca_col_number (v : option Z) (x : frame) : frame :=
  MkFrame (scan_started x) (scan_has_mca x) (init_motor_values x) (scannr x)
    (scancmd x) (date x) (time x) (itime x) (col_names x)
    (scan_header_offset x) (scan_status x) v (mca_channels x) (mca_start x)
    (mca_stop x).

Definition set_mca_channels (v : option Z) (x : frame) : frame :=
  MkFrame (scan_started x) (scan_has_mca x) (init_motor_values x) (scannr x)
    (scancmd x) (date x) (time x) (itime x) (col_names x)
    (scan_header_offset x) (scan_status x) (mca_col_number x) v
    (mca_start x) (mca_stop x).

Definition set_mca_start (v : option Z) (x : frame) : frame :=
  MkFrame (scan_started x) (scan_has_mca x) (init_motor_values x) (scannr x)
    (scancmd x) (date x) (time x) (itime x) (col_names x)
    (scan_header_offset x) (scan_status x) (mca_col_number x)
    (mca_channels x) v (mca_stop x).

Definition set_mca_stop (v : option Z) (x : frame) : frame :=
  MkFrame (scan_started x) (scan_has_mca x) (init_motor_values x) (scannr x)
    (scancmd x) (date x) (time x) (itime x) (col_names x)
    (scan_header_offset x) (scan_status x) (mca_col_number x)
    (mca_channels x) (mca_start x) v.

(** The locals at the head of the loop (lines 402-406). *)
Definition frame0 : frame :=
  MkFrame false false [] None None None None None None None None None None
    None None.

(** [r.findall(line) != []] *)
Definition found (r : regex) (line : string) : bool :=
  match findall r line with
  | [] => false
  | _ => true
  end.

(** The branch of the [if]/[elif] chain of the loop body that a stripped
    line takes, the conditions being tried in the order of the source. *)
Inductive branch : Type :=
| B_newheader        (* line 421 *)
| B_motor_names_fh   (* line 424 *)
| B_scan             (* line 434 *)
| B_cmd              (* line 458 *)
| B_datetime         (* line 461 *)
| B_exptime          (* line 471 *)
| B_motor_names_sh   (* line 476 *)
| B_motor_values     (* line 486 *)
| B_colnames         (* line 502 *)
| B_MCAFormat        (* line 515 *)
| B_MCAChannels      (* line 520 *)
| B_scanbroken       (* line 526 *)
| B_dataline         (* line 546 *)
| B_scan_again       (* line 575 *)
| B_none.

Definition branch_of (started : bool) (line : string) : branch :=
  if matches SPEC_newheader line then B_newheader
  else if (matches SPEC_initmoponames line && negb started)%bool
  then B_motor_names_fh
  else if (matches SPEC_scan line && negb started)%bool then B_scan
  else if (matches SPEC_cmd line && started)%bool then B_cmd
  else if (matches SPEC_datetime line && started)%bool then B_datetime
  else if (matches SPEC_exptime line && started)%bool then B_exptime
  else if (matches SPEC_initmoponames line && started)%bool
  then B_motor_names_sh
  else if (matches SPEC_initmopopos line && started)%bool then B_motor_values
  else if (matches SPEC_colnames line && started)%bool then B_colnames
  else if (matches SPEC_MCAFormat line && started)%bool then B_MCAFormat
  else if (matches SPEC_MCAChannels line && started)%bool then B_MCAChannels
  else if (found SPEC_scanbroken line && started)%bool then B_scanbroken
  else if (matches SPEC_dataline line && started)%bool then B_dataline
  else if (matches SPEC_scan line && started)%bool then B_scan_again
  else B_none.

(** Lines 495-499: the values are appended one by one; the first token that
    [float] refuses raises [ValueError], which ends the loop and is
    swallowed. *)
Fixpoint append_motor_values (acc : list Num.pyfloat) (line_list : list string)
  : list Num.pyfloat :=
  match line_list with
  | [] => acc
  | value :: rest =>
      match Num.parse_float value with
      | Some v => append_motor_values (acc ++ [v])%list rest
      | None => acc
      end
  end.

(** [self.last_offset] where an integer is needed. *)
Definition as_offset (o : option Z) : result Z :=
  match o with
  | Some z => Ok z
  | None => Raise TypeError
  end.

(** Lines 440-454 and 600-605: a scan header opens.  Only the first of the
    two places assigns [itime] and [time]. *)
Definition open_scan (first : bool) (n off : Z) (self : PalSpecFile) (fr : frame)
  : PalSpecFile * frame :=
  let fr1 :=
    set_scan_status (Some OK)
      (set_scan_header_offset (Some off)
         (set_scan_has_mca false (set_scan_started true (set_scannr (Some n) fr)))) in
  let fr2 := if first then set_time (Some "") (set_itime (Some Num.FNan) fr1) else fr1 in
  (set_init_motor_names (init_motor_names_fh self)
     (set_init_motor_names_sh [] self), fr2).

(** The locals once a scan object has been built from them and appended:
    the constructor has renamed the repeated names in the list that the
    local [col_names] shares with the scan object, and the control flags
    and the motor values are reset. *)
Definition close_scan (fr : frame) : frame :=
  set_init_motor_values []
    (set_scan_has_mca false
       (set_scan_started false
          (set_col_names (option_map Scan.rename_repeated (col_names fr)) fr))).

(** The scan object built from the locals, with the given data offset and
    status; an unassigned local raises. *)
Definition new_scan (self : PalSpecFile) (fr : frame) (doff : option Z)
    (st : status) : result PalSpecScan :=
  n <- local (scannr fr) ;;
  cmd <- local (scancmd fr) ;;
  d <- local (date fr) ;;
  t <- local (time fr) ;;
  it <- local (itime fr) ;;
  cols <- local (col_names fr) ;;
  hoff <- local (scan_header_offset fr) ;;
  Ok (Scan.init (Scan.scan_name n) n cmd d t it cols hoff doff
        (full_filename self) (init_motor_names self) (init_motor_values fr) st).

Definition append_scan (s : PalSpecScan) (self : PalSpecFile) : PalSpecFile :=
  set_scan_list (scan_list self ++ [s])%list self.

(** The [if]/[elif] chain of the loop body (lines 421-605) on the stripped
    line; [off] is [self.last_offset], which the loop keeps an integer. *)
Definition Parse_branch (self : PalSpecFile) (fr : frame) (line : string)
    (off : Z) : result (PalSpecFile * frame) :=
    match branch_of (scan_started fr) line with
    | B_newheader => Ok (set_init_motor_names_fh [] self, fr)
    | B_motor_names_fh =>
        let line := Py.strip (sub SPEC_initmoponames "" line) in
        Ok (set_init_motor_names_fh
              (init_motor_names_fh self ++ split SPEC_multi_blank2 line)%list self,
            fr)
    | B_scan =>
        let line_list := split SPEC_multi_blank line in
        x <- getitem line_list 1 ;;
        n <- Num.int x ;;
        Ok (open_scan true n off self fr)
    | B_cmd =>
        Ok (self, set_scancmd (Some (Py.strip (sub SPEC_cmd "" line))) fr)
    | B_datetime =>
        t <- getitem (findall SPEC_time_format line) 0 ;;
        let line := sub SPEC_time_format "" line in
        let line := sub SPEC_datetime "" line in
        let d := Py.strip (sub SPEC_multi_blank " " line) in
        Ok (self, set_date (Some d) (set_time (Some t) fr))
    | B_exptime =>
        x <- getitem (findall SPEC_num_value line) 0 ;;
        v <- Num.float x ;;
        Ok (self, set_itime (Some v) fr)
    | B_motor_names_sh =>
        let line := Py.strip (sub SPEC_initmoponames "" line) in
        let sh := (init_motor_names_sh self ++ split SPEC_multi_blank2 line)%list in
        Ok (set_init_motor_names sh (set_init_motor_names_sh sh self), fr)
    | B_motor_values =>
        let line := Py.strip (sub SPEC_initmopopos "" line) in
        let line_list := split SPEC_multi_blank line in
        Ok (self,
            set_init_motor_values
              (append_motor_values (init_motor_values fr) line_list) fr)
    | B_colnames =>
        let line := Py.strip (sub SPEC_colnames "" line) in
        let cols := split SPEC_multi_blank line in
        let nofcols := List.length cols in
        let cols :=
          if Nat.ltb nofcols (List.length cols)
          then split SPEC_multi_blank2 line else cols in
        Ok (self, set_col_names (Some cols) fr)
    | B_MCAFormat =>
        x <- getitem (findall SPEC_num_value line) 0 ;;
        n <- Num.int x ;;
        Ok (self, set_scan_has_mca true (set_mca_col_number (Some n) fr))
    | B_MCAChannels =>
        let line_list := findall SPEC_num_value line in
        x0 <- getitem line_list 0 ;;
        c <- Num.int x0 ;;
        x1 <- getitem line_list 1 ;;
        a <- Num.int x1 ;;
        x2 <- getitem line_list 2 ;;
        b <- Num.int x2 ;;
        Ok (self,
            set_mca_stop (Some b) (set_mca_start (Some a)
              (set_mca_channels (Some c) fr)))
    | B_scanbroken =>
        let scan_data_offset := off in
        s <- new_scan self fr (Some scan_data_offset) NODATA ;;
        Ok (append_scan s self, close_scan fr)
    | B_dataline =>
        let scan_data_offset := off in
        st <- local (scan_status fr) ;;
        s <- new_scan self fr (Some scan_data_offset) st ;;
        s <- (if scan_has_mca fr then
                f <- local (mca_col_number fr) ;;
                c <- local (mca_channels fr) ;;
                a <- local (mca_start fr) ;;
                b <- local (mca_stop fr) ;;
                Scan.SetMCAParams f c a b s
              else Ok s) ;;
        Ok (append_scan s self, close_scan fr)
    | B_scan_again =>
        s <- new_scan self fr None NODATA ;;
        let self := append_scan s self in
        let fr := close_scan fr in
        let line_list := split SPEC_multi_blank line in
        x <- getitem line_list 1 ;;
        n <- Num.int x ;;
        Ok (open_scan false n off self fr)
    | B_none => Ok (self, fr)
    end.

(** The body of the loop for one line of the file (lines 412-610). *)
Definition Parse_line (self : PalSpecFile) (fr : frame) (raw : string)
  : result (PalSpecFile * frame) :=
  let linelength := Py.len raw in
  let line := Py.strip (Py.decode_ascii_ignore raw) in
  off <- as_offset (last_offset self) ;;
  '(self1, fr1) <- Parse_branch self fr line off ;;
  off1 <- as_offset (last_offset self1) ;;
  Ok (set_last_offset (Some (off1 + linelength)) self1, fr1).

(** The [for] loop over the lines of the file. *)
Fixpoint Parse_lines (self : PalSpecFile) (fr : frame) (lines : list string)
  : result (PalSpecFile * frame) :=
  match lines with
  | [] => Ok (self, fr)
  | raw :: rest =>
      '(self1, fr1) <- Parse_line self fr raw ;;
      Parse_lines self1 fr1 rest
  end.

(** [fid.seek(offset, 0)] on a file opened for reading in binary mode. *)
Definition seek (offset : option Z) (content : string) : result string :=
  match offset with
  | None => Raise TypeError
  | Some z => if z <? 0 then Raise ValueError else Ok (Py.drop (Z.to_nat z) content)
  end.

(** [Parse]: the file [self.full_filename] is read from [self.last_offset];
    at the end [last_offset] becomes the data offset of the last scan of the
    list (line 614). *)
Definition Parse (dir : directory) (self : PalSpecFile) : result PalSpecFile :=
  match dir (full_filename self) with
  | None => Raise FileNotFoundError
  | Some content =>
      rest <- seek (last_offset self) content ;;
      '(self1, _) <- Parse_lines self frame0 (Py.iter_lines rest) ;;
      s <- last_item (scan_list self1) ;;
      Ok (set_last_offset (Scan.doffset s) self1)
  end.

(** ** [parse_folders], [Update] and [__init__] (lines 266-391) *)

(** Lines 341-348 and 372-379: the file of a scan number that exists is
    parsed, then the offset is reset. *)
Definition parse_file (dir : directory) (scan_nb : Z) (self : PalSpecFile)
  : result PalSpecFile :=
  self1 <- Parse dir (set_full_filename (file_format self scan_nb) self) ;;
  Ok (set_last_offset (Some 0) self1).

(** Lines 329-360: the numbers of [scan_in_list] in order; [break] at the
    first missing file. *)
Fixpoint parse_listed (dir : directory) (l : list Z) (self : PalSpecFile)
  : result PalSpecFile :=
  match l with
  | [] => Ok self
  | scan_nb :: rest =>
      if scan_nb >=? curr_scan_nb self then
        let self := set_curr_scan_nb scan_nb self in
        match dir (file_format self scan_nb) with
        | Some _ =>
            self1 <- parse_file dir scan_nb self ;;
            parse_listed dir rest self1
        | None => Ok self
        end
      else parse_listed dir rest self
  end.

(** Lines 362-391: [while True] from [curr_scan_nb] upwards; [None] when the
    loop is still running after [fuel] rounds. *)
Fixpoint parse_sequential (fuel : nat) (dir : directory) (self : PalSpecFile)
  : option (result PalSpecFile) :=
  match fuel with
  | O => None
  | S fuel' =>
      let scan_nb := curr_scan_nb self in
      match dir (file_format self scan_nb) with
      | Some _ =>
          match parse_file dir scan_nb self with
          | Ok self1 =>
              parse_sequential fuel' dir
                (set_curr_scan_nb (curr_scan_nb self1 + 1) self1)
          | Raise e => Some (Raise e)
          end
      | None => Some (Ok self)
      end
  end.

Definition parse_folders (fuel : nat) (dir : directory) (self : PalSpecFile)
  : option (result PalSpecFile) :=
  match scan_in_list self with
  | _ :: _ => Some (parse_listed dir (scan_in_list self) self)
  | [] => parse_sequential fuel dir self
  end.

(** Lines 318-321: [lastscan.ischanged = True]. *)
Fixpoint mark_last_changed (l : list PalSpecScan) : list PalSpecScan :=
  match l with
  | [] => []
  | [s] => [Scan.set_ischanged true s]
  | s :: l' => s :: mark_last_changed l'
  end.

Definition Update (fuel : nat) (dir : directory) (self : PalSpecFile)
  : option (result PalSpecFile) :=
  parse_folders fuel dir
    (set_scan_list (mark_last_changed (scan_list self)) self).

(** Lines 279-304: the attributes before the first call of
    [parse_folders]. *)
Definition new_file (filename path : string) (file_format : Z -> string)
    (scan_in_list : list Z) (start_scan : Z) : PalSpecFile :=
  let curr := match scan_in_list with
              | n :: _ => n
              | [] => start_scan
              end in
  MkFile path filename "" [] (Some 0) scan_in_list curr file_format [] [] [].

(** [PalSpecFile(filename, path, file_format, scan_in_list, start_scan)] *)
Definition PalSpecFile_init (fuel : nat) (dir : directory)
    (filename path : string) (file_format : Z -> string)
    (scan_in_list : list Z) (start_scan : Z) : option (result PalSpecFile) :=
  parse_folders fuel dir
    (new_file filename path file_format scan_in_list start_scan).

(** ['{0:07d}_meta.log'.format(n)], the default [file_format]. *)
Definition zero_pad (width : nat) (s : string) : string :=
  Nat.iter (width - String.length s) (String "0") s.

Definition default_file_format (n : Z) : string :=
  (if n <? 0
   then String "-" (zero_pad 6 (NilEmpty.string_of_uint (N.to_uint (Z.to_N (- n)))))
   else zero_pad 7 (NilEmpty.string_of_uint (N.to_uint (Z.to_N n))))
  ++ "_meta.log".

(** ** [PalSpecScan.ReadData] (lines 45-177) *)

(** The names bound in the module when a method runs: the imports of lines
    25-32, the classes and the constants of lines 236-261. *)
Definition module_globals : list string :=
  [ "os"; "SPECFile"; "SPECScan"; "xu_open"; "config"; "re"; "np"; "Spec";
    "PalSpecScan"; "PalSpec";
    "SPEC_time_format"; "SPEC_multi_blank"; "SPEC_multi_blank2";
    "SPEC_int_value"; "SPEC_num_value"; "SPEC_dataline"; "SPEC_scan";
    "SPEC_cmd"; "SPEC_initmoponames"; "SPEC_initmopopos"; "SPEC_datetime";
    "SPEC_exptime"; "SPEC_nofcols"; "SPEC_colnames"; "SPEC_MCAFormat";
    "SPEC_MCAChannels"; "SPEC_headerline"; "SPEC_scanbroken";
    "SPEC_scanresumed"; "SPEC_commentline"; "SPEC_newheader";
    "SPEC_errorbm20"; "scan_status_flags"; "PalSpecFile" ].

(** The builtins the module uses. *)
Definition builtins : list string :=
  [ "print"; "len"; "map"; "float"; "int"; "tuple"; "list"; "repr"; "super";
    "ValueError" ].

(** Evaluating a name that is not a local of the running function: the
    globals of the module, then the builtins, then [NameError]. *)
Definition resolve (name : string) : result unit :=
  if existsb (String.eqb name) (module_globals ++ builtins)%list then Ok tt
  else Raise NameError.

(** The type descriptor of the record array. *)
Inductive format : Type :=
| float32
| uint32 (shape : Z).

Record dtype : Type := MkDtype { names : list string; formats : list format }.

(** Lines 73-79. *)
Definition type_desc (self : PalSpecScan) : result dtype :=
  if Scan.has_mca self then
    _ <- resolve "len" ;;
    _ <- resolve "numpy" ;;
    _ <- resolve "numpy" ;;
    Ok (MkDtype (Scan.colnames self ++ ["MCA"])
          (repeat float32 (List.length (Scan.colnames self))
           ++ [uint32 (Scan.mca_channels self)]))%list
  else
    _ <- resolve "len" ;;
    _ <- resolve "numpy" ;;
    Ok (MkDtype (Scan.colnames self)
          (repeat float32 (List.length (Scan.colnames self)))).

(** Lines 66-68: the header lines are read until the position reaches the
    data offset; [None] when the loop is still running after [fuel] rounds
    (at the end of a file [readline] returns nothing and the position stays). *)
Fixpoint read_header (fuel : nat) (pos doff : Z) (rest : string)
    (hdr : list string) : option (list string * string) :=
  if pos <? doff then
    match fuel with
    | O => None
    | S fuel' =>
        let (line, rest') := Py.readline rest in
        read_header fuel' (pos + Py.len line) doff rest'
          (hdr ++ [Py.strip (Py.decode_ascii_ignore line)])%list
    end
  else Some (hdr, rest).

(** [tuple(map(float, line_list))] *)
Fixpoint floats (line_list : list string) : result (list cell) :=
  match line_list with
  | [] => Ok []
  | x :: rest =>
      v <- Num.float x ;;
      vs <- floats rest ;;
      Ok (Scalar v :: vs)
  end.

(** [map(int, ...)] forced into a list *)
Fixpoint ints (l : list string) : result (list Z) :=
  match l with
  | [] => Ok []
  | x :: rest =>
      v <- Num.int x ;;
      vs <- ints rest ;;
      Ok (v :: vs)
  end.

(** The variables of the loop over the data lines (lines 85-88, 134, 146). *)
Record reader : Type := MkReader {
  r_status : status;               (* self.scan_status *)
  record_list : list row;
  mca_counter : Z;
  scan_aborted_flag : bool;
  line_list : list string;         (* the tokens [map(float, ...)] waits on *)
  mca_tmp_list : list Z
}.

(** Lines 90-160.  The result is the reader when the loop ends or breaks,
    with the exception, if one was raised, and the status at that time. *)
Fixpoint read_rows (self : PalSpecScan) (rd : reader) (lines : list string)
  : reader * result unit :=
  match lines with
  | [] => (rd, Ok tt)
  | raw :: rest =>
      let line := Py.strip (Py.decode_ascii_ignore raw) in
      if String.eqb line "" then read_rows self rd rest
      else if (found SPEC_scanbroken line || scan_aborted_flag rd)%bool then
        if negb (scan_aborted_flag rd) then
          read_rows self
            (MkReader ABORTED (record_list rd) (mca_counter rd) true
               (line_list rd) (mca_tmp_list rd)) rest
        else if matches SPEC_scanresumed line then
          read_rows self
            (MkReader OK (record_list rd) (mca_counter rd) false
               (line_list rd) (mca_tmp_list rd)) rest
        else if matches SPEC_commentline line then read_rows self rd rest
        else if matches SPEC_errorbm20 line then read_rows self rd rest
        else (rd, Ok tt)
      else if (matches SPEC_headerline line || matches SPEC_commentline line)%bool
      then
        if matches SPEC_scanresumed line then read_rows self rd rest
        else if matches SPEC_commentline line then read_rows self rd rest
        else (rd, Ok tt)
      else if mca_counter rd =? 0 then
        let ll := findall SPEC_num_value line in
        if Scan.has_mca self then
          read_rows self
            (MkReader (r_status rd) (record_list rd) (mca_counter rd + 1)
               (scan_aborted_flag rd) ll []) rest
        else
          match floats ll with
          | Ok t =>
              read_rows self
                (MkReader (r_status rd) (record_list rd ++ [t])%list
                   (mca_counter rd) (scan_aborted_flag rd) ll
                   (mca_tmp_list rd)) rest
          | Raise e =>
              (MkReader (r_status rd) (record_list rd) (mca_counter rd)
                 (scan_aborted_flag rd) ll (mca_tmp_list rd), Raise e)
          end
      else
        match ints (findall SPEC_int_value line) with
        | Raise e => (rd, Raise e)
        | Ok more =>
            let tmp := (mca_tmp_list rd ++ more)%list in
            let counter := mca_counter rd + 1 in
            if counter >? Scan.mca_nof_lines self then
              match floats (line_list rd) with
              | Ok t =>
                  read_rows self
                    (MkReader (r_status rd)
                       (record_list rd ++ [(t ++ [Spectrum tmp])%list])%list
                       0 (scan_aborted_flag rd) [] tmp) rest
              | Raise e =>
                  (MkReader (r_status rd) (record_list rd) counter
                     (scan_aborted_flag rd) [] tmp, Raise e)
              end
            else
              read_rows self
                (MkReader (r_status rd) (record_list rd) counter
                   (scan_aborted_flag rd) (line_list rd) tmp) rest
        end
  end.

Section ReadData.

(** [numpy.rec.fromrecords(record_list, dtype=type_desc)]: the record array
    of the rows, or an exception. *)
Variable fromrecords : list row -> dtype -> result (list row).

(** Lines 162-177. *)
Definition build_table (self : PalSpecScan) (td : dtype) (rl : list row)
  : PalSpecScan * result unit :=
  match getitem rl 0 with
  | Raise e => (self, Raise e)
  | Ok first =>
      let ncol := List.length first in
      if Nat.eqb ncol (List.length (names td)) then
        match resolve "numpy" with
        | Raise e => (self, Raise e)
        | Ok _ =>
            match fromrecords rl td with
            | Ok t => (Scan.set_data (Some t) self, Ok tt)
            | Raise ValueError => (Scan.set_scan_status NODATA self, Ok tt)
            | Raise e => (self, Raise e)
            end
        end
      else (Scan.set_scan_status NODATA self, Ok tt)
  end.

(** [ReadData]: the scan object after the call, and how the call ended;
    [None] when the header loop is still running after [fuel] rounds. *)
Definition ReadData (fuel : nat) (dir : directory) (self : PalSpecScan)
  : option (PalSpecScan * result unit) :=
  if status_eqb (Scan.scan_status self) NODATA then
    Some (Scan.set_data None self, Ok tt)
  else
    match dir (Scan.fname self) with
    | None => Some (self, Raise FileNotFoundError)
    | Some content =>
        match seek (Some (Scan.hoffset self)) content with
        | Raise e => Some (self, Raise e)
        | Ok rest =>
            let self := Scan.set_header [] self in
            match Scan.doffset self with
            | None => Some (self, Raise TypeError)
            | Some doff =>
                match read_header fuel (Scan.hoffset self) doff rest [] with
                | None => None
                | Some (hdr, _) =>
                    let self := Scan.set_header hdr self in
                    match seek (Some doff) content with
                    | Raise e => Some (self, Raise e)
                    | Ok rest =>
                        match type_desc self with
                        | Raise e => Some (self, Raise e)
                        | Ok td =>
                            let rd0 :=
                              MkReader (Scan.scan_status self) [] 0 false [] [] in
                            let (rd, r) :=
                              read_rows self rd0 (Py.iter_lines rest) in
                            let self := Scan.set_scan_status (r_status rd) self in
                            match r with
                            | Raise e => Some (self, Raise e)
                            | Ok _ => Some (build_table self td (record_list rd))
                            end
                        end
                    end
                end
            end
        end
    end.

End ReadData.

(** * Properties *)

(** ** Predicates of the statements *)

(** The fields that [Parse] never assigns. *)
Definition kept (self self' : PalSpecFile) : Prop :=
  path self' = path self /\ filename self' = filename self /\
  full_filename self' = full_filename self /\
  scan_in_list self' = scan_in_list self /\
  curr_scan_nb self' = curr_scan_nb self /\
  file_format self' = file_format self.

(** What is known of a record appended while the running offset was at most
    [bound]. *)
Definition appended_ok (file : string) (bound : Z) (s : PalSpecScan) : Prop :=
  Scan.fname s = file /\ Scan.ischanged s = true /\ Scan.data s = None /\
  0 <= Scan.hoffset s /\
  (Scan.scan_status s <> NODATA ->
   exists d, Scan.doffset s = Some d /\ 0 <= d <= bound).

(** The header offset of the open scan, once assigned, is not negative. *)
Definition header_offset_ok (fr : frame) : Prop :=
  forall h, scan_header_offset fr = Some h -> 0 <= h.

(** The number of bytes of some lines. *)
Definition total_len (lines : list string) : Z :=
  fold_right (fun l acc => Py.len l + acc) 0 lines.

(** A line that the loop passes over when no scan header is open. *)
Definition ignored_when_idle (raw : string) : Prop :=
  branch_of false (Py.strip (Py.decode_ascii_ignore raw)) = B_none.

(** The scan numbers [c], [c+1], ... ([k] of them). *)
Fixpoint scan_numbers (c : Z) (k : nat) : list Z :=
  match k with
  | O => []
  | S k' => c :: scan_numbers (c + 1) k'
  end.

(** One round of the sequential loop on a file that exists: the file of
    scan [n] is parsed and the cursor moves to [n + 1]. *)
Definition parse_and_advance (dir : directory) (acc : result PalSpecFile)
    (n : Z) : result PalSpecFile :=
  self <- acc ;;
  self1 <- parse_file dir n self ;;
  Ok (set_curr_scan_nb (n + 1) self1).

(** [Update] on the object a first discovery returned. *)
Definition then_update (fuel : nat) (dir : directory)
    (r : option (result PalSpecFile)) : option (result PalSpecFile) :=
  match r with
  | Some (Ok self) => Update fuel dir self
  | other => other
  end.

(** ** Sample logs *)

(** A line as the file gives it, with its line feed. *)
Definition ln (s : string) : string := s ++ String Py.newline EmptyString.

(** A file given by its lines, each ended by a line feed. *)
Definition text (ls : list string) : string :=
  fold_right (fun l acc => l ++ String Py.newline acc) EmptyString ls.

(** A directory that holds one file. *)
Definition one_file (name content : string) : directory :=
  fun n => if String.eqb n name then Some content else None.

(** The header of a scan, without data. *)
Definition header1 : list string :=
  [ "#RUN 1"; "#CMD ascan th 0 1 10"; "#TIM Mon Jan 01 12:00:00 2020";
    "#COL th det" ].

Definition abort_notice : string :=
  "#C Mon Jan 01 12:00:05 2020.  Scan aborted after 0 points.".

(** A complete scan of two counters with two rows; the motor positions hold
    a token that is not a number. *)
Definition log1 : string :=
  text (header1 ++ [ "#VAL 1.0 abc 2.0"; "0.0 5"; "0.1 6" ]).

(** Two scan headers in a row, the second one still open at the end of the
    file: the first scan is closed without a data offset. *)
Definition log_two_headers : string :=
  text (header1 ++ [ "#RUN 2"; "#CMD ascan th 0 1 10" ]).

(** A scan of two columns whose only data row has one field. *)
Definition log_short_row : string := text (header1 ++ [ "0.0" ]).

(** The file of scan 1 cut inside its data block; the same file later on
    with rows only added; and with one more row, then a second scan. *)
Definition log_cut : string := text (header1 ++ [ "0.0 5" ]).

Definition log_more_rows : string :=
  text (header1 ++ [ "0.0 5"; "0.1 6"; "0.2 7" ]).

Definition log_grown : string :=
  text (header1 ++ [ "0.0 5"; "0.1 6"; "#RUN 2"; "#CMD ascan th 0 1 10";
                     "#TIM Mon Jan 01 12:05:00 2020"; "#COL th det"; "0.0 7" ]).

(** The files of scans 1 to 5, each holding [log1]. *)
Definition five_files : directory :=
  fun name =>
    if existsb (String.eqb name) (map default_file_format [1; 2; 3; 4; 5])
    then Some log1 else None.

(** The object of a sequential discovery from scan 1, about to parse the
    file of scan 1. *)
Definition at_scan1 : PalSpecFile :=
  set_full_filename "0000001_meta.log"
    (new_file "pal" "data" default_file_format [] 1).

(** The object and the locals once the lines of [header1] have been read. *)
Definition in_header1 : PalSpecFile := set_last_offset (Some 70) at_scan1.

Definition open_frame1 : frame :=
  MkFrame true false [] (Some 1) (Some "ascan th 0 1 10")
    (Some "Mon Jan 01 2020") (Some "12:00:00") (Some Num.FNan)
    (Some ["th"; "det"]) (Some 0) (Some OK) None None None None.

(** The locals once the first data row of that scan has been read. *)
Definition closed_frame1 : frame :=
  MkFrame false false [] (Some 1) (Some "ascan th 0 1 10")
    (Some "Mon Jan 01 2020") (Some "12:00:00") (Some Num.FNan)
    (Some ["th"; "det"]) (Some 0) (Some OK) None None None None.

(** The record [Parse] appends for [log1]. *)
Definition scan1 : PalSpecScan :=
  Scan.init "scan_1" 1 "ascan th 0 1 10" "Mon Jan 01 2020" "12:00:00"
    Num.FNan ["th"; "det"] 0 (Some 87) "0000001_meta.log" []
    [Num.FDec false 10 (-1)] OK.

(** The record [Parse] appends for [log_short_row] and for [log_cut]. *)
Definition scan_short_row : PalSpecScan :=
  Scan.init "scan_1" 1 "ascan th 0 1 10" "Mon Jan 01 2020" "12:00:00"
    Num.FNan ["th"; "det"] 0 (Some 70) "0000001_meta.log" [] [] OK.

(** The object when the loop has read all of [log1], and all of [log_cut]. *)
Definition end_of_log1 : PalSpecFile :=
  set_last_offset (Some 99) (set_scan_list [scan1] at_scan1).

Definition end_of_log_cut : PalSpecFile :=
  set_last_offset (Some 76) (set_scan_list [scan_short_row] at_scan1).

(** A stand-in for [numpy.rec.fromrecords] that accepts every list of rows. *)
Definition accept_all (rl : list row) (td : dtype) : result (list row) := Ok rl.

(** ** What the statements observe *)

(** Of a record: number, status, header offset, data offset. *)
Definition summary (s : PalSpecScan) : Z * status * Z * option Z :=
  (Scan.nr s, Scan.scan_status s, Scan.hoffset s, Scan.doffset s).

(** Of the loop after some lines: the records so far, whether a scan header
    is open, and the running offset. *)
Definition after_lines (lines : list string)
  : result (list (Z * status * Z * option Z) * bool * option Z) :=
  '(self, fr) <- Parse_lines at_scan1 frame0 lines ;;
  Ok (map summary (scan_list self), scan_started fr, last_offset self).

(** Of a parse pass: the records and [last_offset]. *)
Definition after_pass (r : result PalSpecFile)
  : result (list (Z * status * Z * option Z) * option Z) :=
  self <- r ;; Ok (map summary (scan_list self), last_offset self).

(** Of a discovery pass: the file of each record with its summary, and the
    scan cursor. *)
Definition after_discovery (r : option (result PalSpecFile))
  : option (result (list (string * (Z * status * Z * option Z)) * Z)) :=
  option_map
    (fun r => self <- r ;;
              Ok (map (fun s => (Scan.fname s, summary s)) (scan_list self),
                  curr_scan_nb self)) r.

(** Of [ReadData]: the status and the table of the scan after the call, and
    how the call ended. *)
Definition after_read (r : option (PalSpecScan * result unit))
  : option (status * option (list row) * result unit) :=
  option_map (fun p => (Scan.scan_status (fst p), Scan.data (fst p), snd p)) r.

(** ** Further properties of the parser *)
(** While a scan header is open its status is OK and its header offset
    lies in [[lo, off)], [off] being the running offset. *)
Definition open_inv (lo off : Z) (fr : frame) : Prop :=
  scan_started fr = true ->
  scan_status fr = Some OK /\
  exists h, scan_header_offset fr = Some h /\ lo <= h < off.

(** A record appended by a pass that started at offset [lo], when the
    running offset was at most [hi]. *)
Definition record_ok (file : string) (lo hi : Z) (s : PalSpecScan) : Prop :=
  Scan.fname s = file /\
  Scan.name s = Scan.scan_name (Scan.nr s) /\
  (Scan.scan_status s = OK \/ Scan.scan_status s = NODATA) /\
  lo <= Scan.hoffset s <= hi /\
  match Scan.doffset s with
  | Some d => Scan.hoffset s < d <= hi
  | None => Scan.scan_status s = NODATA
  end.

(** A line that does not start a scan. *)
Definition no_scan_start (raw : string) : Prop :=
  matches SPEC_scan (Py.strip (Py.decode_ascii_ignore raw)) = false.

(** A file without any scan: the header of a file and some comments. *)
Definition log_no_scan : string :=
  text [ "#E 1577880000"; "#MOT th  tth  chi"; "#C no scan yet" ].

(** One round of the list loop on a file that exists: the cursor is set to
    the number and the file is parsed; the cursor stays on the number. *)
Definition parse_listed_step (dir : directory) (acc : result PalSpecFile)
    (n : Z) : result PalSpecFile :=
  self <- acc ;; parse_file dir n (set_curr_scan_nb n self).

(** The numbers of a list never go below the number before them, starting
    from the cursor [c]. *)
Fixpoint ascending_from (c : Z) (l : list Z) : Prop :=
  match l with
  | [] => True
  | n :: l' => c <= n /\ ascending_from n l'
  end.

(** The last number of a list, or the cursor when the list is empty. *)
Fixpoint last_number (c : Z) (l : list Z) : Z :=
  match l with
  | [] => c
  | n :: l' => last_number n l'
  end.

(** The number a string of decimal digits stands for, leading zeros
    allowed. *)
Definition digits_number (s : string) : option N :=
  option_map N.of_uint (NilEmpty.uint_of_string s).

(** The object a sequential discovery from scan 1 returns over [log_cut]. *)
Definition after_log_cut : PalSpecFile :=
  set_curr_scan_nb 2 (set_last_offset (Some 0) end_of_log_cut).

(** No line of [lines] matches the pattern [r] at its beginning. *)
Definition lacks (r : regex) (lines : list string) : Prop :=
  Forall (fun raw => matches r (Py.strip (Py.decode_ascii_ignore raw)) = false)
         lines.

(** The command and the date of a record are those the locals hold, and
    its column names those of the local list once the constructor has
    checked it for repeated names. *)
Definition header_of (fr : frame) (s : PalSpecScan) : Prop :=
  Some (Scan.command s) = scancmd fr /\ Some (Scan.date s) = date fr /\
  Some (Scan.colnames s) = option_map Scan.rename_repeated (col_names fr).




(** A scan without its command line. *)
Definition log_no_cmd : string :=
  text [ "#RUN 1"; "#TIM Mon Jan 01 12:00:00 2020"; "#COL th det"; "0.0 5" ].

(** The object once [Parse] has read [log1]: the offset is the data offset
    of the record. *)
Definition parsed_log1 : PalSpecFile :=
  set_last_offset (Some 87) (set_scan_list [scan1] at_scan1).

(** The header lines of [log1], as the file gives them. *)
Definition header_lines1 : list string :=
  map ln (header1 ++ [ "#VAL 1.0 abc 2.0" ]).

(** An object that holds the motor names of a file header read earlier,
    before it parses [log1]. *)
Definition at_scan1_with_motors : PalSpecFile :=
  set_init_motor_names_fh ["th"; "chi"] at_scan1.

(** The record [Parse] then appends for [log1]. *)
Definition scan1_with_motors : PalSpecScan :=
  Scan.init "scan_1" 1 "ascan th 0 1 10" "Mon Jan 01 2020" "12:00:00"
    Num.FNan ["th"; "det"] 0 (Some 87) "0000001_meta.log" ["th"; "chi"]
    [Num.FDec false 10 (-1)] OK.

Definition parsed_with_motors : PalSpecFile :=
  set_last_offset (Some 87)
    (set_scan_list [scan1_with_motors]
       (set_init_motor_names ["th"; "chi"] at_scan1_with_motors)).

(** The motor names of the file header are [N], and so are the current
    motor names while a scan header is open. *)
Definition names_inv (N : list string) (self : PalSpecFile) (fr : frame) : Prop :=
  init_motor_names_fh self = N /\
  (scan_started fr = true -> init_motor_names self = N).


(** A directory that holds the files of scans 1, 2 and 5. *)
Definition files_1_2_5 : directory :=
  fun name =>
    if existsb (String.eqb name) (map default_file_format [1; 2; 5])
    then Some log1 else None.

(** The record of [log1] without its data offset. *)
Definition scan1_no_data_offset : PalSpecScan :=
  Scan.init "scan_1" 1 "ascan th 0 1 10" "Mon Jan 01 2020" "12:00:00"
    Num.FNan ["th"; "det"] 0 None "0000001_meta.log" []
    [Num.FDec false 10 (-1)] OK.

(** The directory [five_files] with the file of scan 1 empty. *)
Definition five_files_first_empty : directory :=
  fun name =>
    if String.eqb name (default_file_format 1) then Some EmptyString
    else five_files name.

(** Two scans that share a column line in which a name is repeated. *)
Definition log_repeated_columns : string :=
  text [ "#RUN 1"; "#CMD ascan th 0 1 10"; "#TIM Mon Jan 01 12:00:00 2020";
         "#COL th th det th"; "0.0 5 1 2"; "#RUN 2"; "0.1 6 1 2" ].

(** ** Proofs *)

(** Case analysis on the steps of a computation that returned. *)

Ltac unbind H :=
  lazymatch type of H with
  | bind ?m _ = Ok _ =>
      let E := fresh "E" in
      destruct m eqn:E; simpl in H; [ try unbind E; unbind H | discriminate H ]
  | _ => idtac
  end.

Lemma kept_refl self : kept self self.
Proof. repeat split. Qed.

Lemma kept_trans a b c : kept a b -> kept b c -> kept a c.
Proof. unfold kept; intuition congruence. Qed.

Lemma new_scan_ok self fr doff st s :
  new_scan self fr doff st = Ok s ->
  header_offset_ok fr ->
  Scan.fname s = full_filename self /\ Scan.ischanged s = true /\
  Scan.data s = None /\ 0 <= Scan.hoffset s /\
  Scan.doffset s = doff /\ Scan.scan_status s = st.
Proof.
  unfold new_scan. intros H Hh. unbind H.
  injection H as <-. simpl. repeat split.
  apply Hh. destruct (scan_header_offset fr); simpl in *; congruence.
Qed.

Lemma SetMCAParams_fields f c a b s s' :
  Scan.SetMCAParams f c a b s = Ok s' ->
  Scan.fname s' = Scan.fname s /\ Scan.ischanged s' = Scan.ischanged s /\
  Scan.data s' = Scan.data s /\ Scan.hoffset s' = Scan.hoffset s /\
  Scan.doffset s' = Scan.doffset s /\ Scan.scan_status s' = Scan.scan_status s.
Proof.
  unfold Scan.SetMCAParams. destruct (f =? 0); [discriminate|].
  intros H; injection H as <-. simpl. repeat split.
Qed.

Ltac ok_inj :=
  repeat match goal with
         | E : Ok _ = Ok _ |- _ => injection E as E; try subst
         | E : (_, _) = (_, _) |- _ => injection E as E; try subst
         end.

Lemma Parse_branch_spec self fr line off self' fr' :
  Parse_branch self fr line off = Ok (self', fr') ->
  kept self self' /\
  last_offset self' = last_offset self /\
  exists new,
    scan_list self' = (scan_list self ++ new)%list /\
    (0 <= off -> header_offset_ok fr ->
     header_offset_ok fr' /\ Forall (appended_ok (full_filename self) off) new).
Proof.
  unfold Parse_branch, open_scan. intros H.
  destruct (branch_of (scan_started fr) line);
    simpl in H; unbind H; ok_inj.
  all: try (simpl; repeat split; try reflexivity;
            exists []; rewrite app_nil_r; split; [reflexivity|];
            intros; split; [assumption|constructor]).
  - (* a scan header *)
    simpl; repeat split; try reflexivity.
    exists []; rewrite app_nil_r; split; [reflexivity|].
    intros Hoff _; split; [|constructor].
    intros h Hh; simpl in Hh; injection Hh as <-; exact Hoff.
  - (* an abort notice *)
    simpl; repeat split; try reflexivity.
    exists [a]; split; [reflexivity|].
    intros Hoff Hfr; split; [exact Hfr|].
    destruct (new_scan_ok _ _ _ _ _ E Hfr) as (? & ? & ? & ? & ? & Hst).
    constructor; [|constructor]. repeat split; try assumption.
    rewrite Hst; intros Hn; contradiction Hn; reflexivity.
  - (* the first data line *)
    simpl; repeat split; try reflexivity.
    exists [a1]; split; [reflexivity|].
    intros Hoff Hfr; split; [exact Hfr|].
    destruct (new_scan_ok _ _ _ _ _ E0 Hfr) as (Hf & Hc & Hd & Hh & Hdo & Hst).
    assert (Hsame : Scan.fname a1 = Scan.fname a0 /\
                    Scan.ischanged a1 = Scan.ischanged a0 /\
                    Scan.data a1 = Scan.data a0 /\
                    Scan.hoffset a1 = Scan.hoffset a0 /\
                    Scan.doffset a1 = Scan.doffset a0 /\
                    Scan.scan_status a1 = Scan.scan_status a0).
    { destruct (scan_has_mca fr).
      - unbind E1. eapply SetMCAParams_fields; eassumption.
      - injection E1 as <-. repeat split. }
    destruct Hsame as (Hf' & Hc' & Hd' & Hh' & Hdo' & _).
    constructor; [|constructor]. unfold appended_ok.
    rewrite Hf', Hc', Hd', Hh', Hdo', Hdo.
    repeat split; try assumption.
    intros _. exists off. split; [reflexivity|lia].
  - (* a scan header while a scan is open *)
    simpl; repeat split; try reflexivity.
    exists [a]; split; [reflexivity|].
    intros Hoff Hfr; split.
    + intros h Hh; simpl in Hh; injection Hh as <-; exact Hoff.
    + destruct (new_scan_ok _ _ _ _ _ E Hfr) as (? & ? & ? & ? & ? & Hst).
      constructor; [|constructor]. repeat split; try assumption.
      rewrite Hst; intros Hn; contradiction Hn; reflexivity.
Qed.

Lemma Parse_line_spec self fr raw self' fr' off :
  Parse_line self fr raw = Ok (self', fr') ->
  last_offset self = Some off ->
  kept self self' /\
  last_offset self' = Some (off + Py.len raw) /\
  exists new,
    scan_list self' = (scan_list self ++ new)%list /\
    (0 <= off -> header_offset_ok fr ->
     header_offset_ok fr' /\ Forall (appended_ok (full_filename self) off) new).
Proof.
  unfold Parse_line. intros H Hoff. rewrite Hoff in H. simpl in H.
  destruct (Parse_branch self fr _ off) as [[self1 fr1]|] eqn:E; [|discriminate].
  simpl in H.
  destruct (Parse_branch_spec _ _ _ _ _ _ E) as (Hk & Hl & new & Hs & Hnew).
  rewrite Hl, Hoff in H. simpl in H. injection H as <- <-.
  split; [exact Hk|]. split; [reflexivity|].
  exists new. split; [exact Hs|exact Hnew].
Qed.

Lemma appended_ok_mono file b b' s :
  b <= b' -> appended_ok file b s -> appended_ok file b' s.
Proof.
  intros Hb (Hf & Hc & Hd & Hh & Hs). repeat split; try assumption.
  intros Hn. destruct (Hs Hn) as (d & Hd' & Hr). exists d. split; [assumption|lia].
Qed.

Lemma len_nonneg s : 0 <= Py.len s.
Proof. unfold Py.len. lia. Qed.

Lemma total_len_nonneg lines : 0 <= total_len lines.
Proof.
  induction lines as [|l ls IH]; simpl; [lia|]. pose proof (len_nonneg l). lia.
Qed.

Lemma Parse_lines_spec lines : forall self fr self' fr' off,
  Parse_lines self fr lines = Ok (self', fr') ->
  last_offset self = Some off ->
  kept self self' /\
  last_offset self' = Some (off + total_len lines) /\
  exists new,
    scan_list self' = (scan_list self ++ new)%list /\
    (0 <= off -> header_offset_ok fr ->
     header_offset_ok fr' /\
     Forall (appended_ok (full_filename self) (off + total_len lines)) new).
Proof.
  induction lines as [|raw rest IH]; intros self fr self' fr' off H Hoff.
  - simpl in H. injection H as <- <-. simpl. rewrite Z.add_0_r.
    split; [apply kept_refl|]. split; [assumption|].
    exists []. rewrite app_nil_r. split; [reflexivity|]. intros; split; [assumption|constructor].
  - simpl in H.
    destruct (Parse_line self fr raw) as [[self1 fr1]|] eqn:E; [|discriminate].
    simpl in H.
    destruct (Parse_line_spec _ _ _ _ _ _ E Hoff) as (Hk1 & Hl1 & new1 & Hs1 & Hn1).
    destruct (IH _ _ _ _ _ H Hl1) as (Hk2 & Hl2 & new2 & Hs2 & Hn2).
    pose proof (len_nonneg raw) as Hraw. pose proof (total_len_nonneg rest) as Hrest.
    split; [eapply kept_trans; eassumption|].
    split; [rewrite Hl2; simpl; f_equal; lia|].
    exists (new1 ++ new2)%list. split.
    + rewrite Hs2, Hs1, app_assoc. reflexivity.
    + intros H0 Hfr. destruct (Hn1 H0 Hfr) as (Hfr1 & Hf1).
      destruct Hn2 as (Hfr2 & Hf2); [lia|assumption|].
      split; [assumption|].
      apply Forall_app; split.
      * eapply Forall_impl; [|exact Hf1]. intros s. apply appended_ok_mono. simpl. lia.
      * destruct Hk1 as (_ & _ & Hfn & _). rewrite Hfn in Hf2.
        eapply Forall_impl; [|exact Hf2]. intros s. apply appended_ok_mono. simpl. lia.
Qed.

Lemma len_String a s : Py.len (String a s) = 1 + Py.len s.
Proof. unfold Py.len. cbn [String.length]. lia. Qed.

Lemma len_empty : Py.len "" = 0.
Proof. reflexivity. Qed.

Lemma total_len_iter_lines s : total_len (Py.iter_lines s) = Py.len s.
Proof.
  induction s as [|a s IH]; [reflexivity|].
  cbn [Py.iter_lines]. destruct (Ascii.eqb a Py.newline).
  - cbn [total_len fold_right]. fold (total_len (Py.iter_lines s)).
    rewrite IH, !len_String, len_empty. lia.
  - destruct (Py.iter_lines s) as [|l ls].
    + cbn [total_len fold_right] in *. rewrite !len_String, len_empty. lia.
    + cbn [total_len fold_right] in *. rewrite !len_String. lia.
Qed.

Lemma len_drop n : forall s,
  Py.len (Py.drop n s) = Py.len s - Z.of_nat n \/
  (Py.drop n s = "" /\ Py.len s <= Z.of_nat n).
Proof.
  induction n as [|n IH]; intros s.
  - left. cbn [Py.drop]. lia.
  - destruct s as [|a s].
    + right. split; [reflexivity|]. rewrite len_empty. lia.
    + cbn [Py.drop]. rewrite len_String. destruct (IH s) as [H|[H1 H2]].
      * left. lia.
      * right. split; [assumption|]. lia.
Qed.


Lemma readline_len s :
  Py.len (fst (Py.readline s)) + Py.len (snd (Py.readline s)) = Py.len s /\
  (s <> "" -> 1 <= Py.len (fst (Py.readline s))).
Proof.
  induction s as [|a s IH].
  - split; [reflexivity|]. intros H; contradiction H; reflexivity.
  - cbn [Py.readline]. destruct (Ascii.eqb a Py.newline).
    + cbn [fst snd]. rewrite !len_String, len_empty.
      pose proof (len_nonneg s). split; [lia|intros; lia].
    + destruct (Py.readline s) as [l r]. cbn [fst snd] in *.
      rewrite !len_String. pose proof (len_nonneg l). split; [lia|intros; lia].
Qed.


Lemma type_desc_NameError s : type_desc s = Raise NameError.
Proof. unfold type_desc. destruct (Scan.has_mca s); reflexivity. Qed.



(** C3, counterexample: two records whose status is OK on which [ReadData]
    ends otherwise than with [NameError]: the file of the first is not in
    the directory, and the call raises [FileNotFoundError] when it opens the
    file; the second has no data offset, and the call raises [TypeError] at
    the comparison of line 66. *)
Lemma ReadData_other_errors_counterexample :
  Scan.scan_status scan1 = OK /\
  ReadData accept_all 200 (fun _ => None) scan1
  = Some (scan1, Raise FileNotFoundError) /\
  Scan.scan_status scan1_no_data_offset = OK /\
  ReadData accept_all 200 (one_file "0000001_meta.log" log1) scan1_no_data_offset
  = Some (Scan.set_header [] scan1_no_data_offset, Raise TypeError).
Proof. repeat split; vm_compute; reflexivity. Qed.



Lemma branch_motor_values rest : branch_of true ("#VAL" ++ rest) = B_motor_values.
Proof. reflexivity. Qed.

Lemma branch_comment_idle rest : branch_of false ("#C" ++ rest) = B_none.
Proof. unfold branch_of. rewrite !andb_false_r. reflexivity. Qed.

Lemma append_motor_values_spec good : forall vals acc tail,
  Forall2 (fun tok v => Num.parse_float tok = Some v) good vals ->
  match tail with
  | [] => True
  | bad :: _ => Num.parse_float bad = None
  end ->
  append_motor_values acc (good ++ tail) = (acc ++ vals)%list.
Proof.
  induction good as [|tok good IH]; intros vals acc tail HF Ht.
  - inversion HF; subst. rewrite app_nil_r. simpl.
    destruct tail as [|bad tl]; [reflexivity|]. simpl. rewrite Ht. reflexivity.
  - inversion HF as [|? v ? vals' Hv HF']; subst. simpl. rewrite Hv.
    rewrite (IH vals' _ tail HF' Ht), <- app_assoc. reflexivity.
Qed.

Lemma Parse_lines_header1 :
  Parse_lines at_scan1 frame0 (Py.iter_lines (text header1))
  = Ok (in_header1, open_frame1).
Proof. vm_compute. reflexivity. Qed.

(** A line that takes no branch only moves the offset. *)
Lemma Parse_line_ignored self fr raw off :
  last_offset self = Some off ->
  branch_of (scan_started fr) (Py.strip (Py.decode_ascii_ignore raw)) = B_none ->
  Parse_line self fr raw = Ok (set_last_offset (Some (off + Py.len raw)) self, fr).
Proof.
  intros Hoff Hb. unfold Parse_line, Parse_branch. rewrite Hoff, Hb. simpl.
  rewrite Hoff. reflexivity.
Qed.

(** The abort branch of the loop (lines 526-544) when the locals of the
    header are all assigned. *)
Lemma Parse_line_abort_notice self fr raw off n cmd d t it cols hoff :
  last_offset self = Some off ->
  scan_started fr = true ->
  branch_of true (Py.strip (Py.decode_ascii_ignore raw)) = B_scanbroken ->
  scannr fr = Some n -> scancmd fr = Some cmd -> date fr = Some d ->
  time fr = Some t -> itime fr = Some it -> col_names fr = Some cols ->
  scan_header_offset fr = Some hoff ->
  Parse_line self fr raw
  = Ok (set_last_offset (Some (off + Py.len raw))
          (append_scan
             (Scan.init (Scan.scan_name n) n cmd d t it cols hoff (Some off)
                (full_filename self) (init_motor_names self)
                (init_motor_values fr) NODATA) self),
        close_scan fr).
Proof.
  intros Hoff Hst Hb Hn Hcmd Hd Ht Hit Hcols Hh.
  unfold Parse_line, Parse_branch, new_scan.
  rewrite Hoff, Hst, Hb, Hn, Hcmd, Hd, Ht, Hit, Hcols, Hh. simpl.
  rewrite Hoff. reflexivity.
Qed.

(** C4, counterexample: with the header of a scan open, the abort notice
    itself appends the record, with status NODATA and with the offset of the
    notice as data offset, and closes the scan. *)
Lemma abort_marker_counterexample :
  after_lines (Py.iter_lines (text header1)) = Ok ([], true, Some 70) /\
  after_lines (Py.iter_lines (text (header1 ++ [abort_notice])))
  = Ok ([(1, NODATA, 0, Some 70)], false, Some 129) /\
  NODATA <> ABORTED /\ Some 70 <> @None Z.
Proof. repeat split; try discriminate; vm_compute; reflexivity. Qed.

(** C4, amended: when the header of a scan is open and complete (command,
    date and column names seen), a line taken as an abort notice finalizes
    the record at once: it is appended with status NODATA and with the
    offset of the notice as data offset, the scan is closed, and the offset
    moves past the line. *)
Theorem abort_marker_finalizes_scan :
  forall self fr raw off n cmd d t it cols hoff,
    last_offset self = Some off ->
    scan_started fr = true ->
    branch_of true (Py.strip (Py.decode_ascii_ignore raw)) = B_scanbroken ->
    scannr fr = Some n -> scancmd fr = Some cmd -> date fr = Some d ->
    time fr = Some t -> itime fr = Some it -> col_names fr = Some cols ->
    scan_header_offset fr = Some hoff ->
    Parse_line self fr raw
    = Ok (set_last_offset (Some (off + Py.len raw))
            (append_scan
               (Scan.init (Scan.scan_name n) n cmd d t it cols hoff (Some off)
                  (full_filename self) (init_motor_names self)
                  (init_motor_values fr) NODATA) self),
          close_scan fr)
    /\ scan_started (close_scan fr) = false.
Proof.
  intros self fr raw off n cmd d t it cols hoff
         Hoff Hst Hb Hn Hcmd Hd Ht Hit Hcols Hh.
  split; [|reflexivity].
  apply Parse_line_abort_notice; assumption.
Qed.

Lemma abort_marker_finalizes_scan_witness :
  Parse_line in_header1 open_frame1 (ln abort_notice)
  = Ok (set_last_offset (Some (70 + Py.len (ln abort_notice)))
          (append_scan
             (Scan.init (Scan.scan_name 1) 1 "ascan th 0 1 10" "Mon Jan 01 2020"
                "12:00:00" Num.FNan ["th"; "det"] 0 (Some 70)
                (full_filename in_header1) (init_motor_names in_header1)
                (init_motor_values open_frame1) NODATA) in_header1),
        close_scan open_frame1)
  /\ scan_started (close_scan open_frame1) = false.
Proof.
  apply (abort_marker_finalizes_scan in_header1 open_frame1 (ln abort_notice) 70
           1 "ascan th 0 1 10" "Mon Jan 01 2020" "12:00:00" Num.FNan
           ["th"; "det"] 0); reflexivity.
Defined.

(** C5, counterexample: a scan header followed by two abort notices gives
    one record with status NODATA whose data offset is present: it is the
    offset of the first notice. *)
Lemma double_abort_counterexample :
  after_lines (Py.iter_lines (text (header1 ++ [abort_notice; abort_notice])))
  = Ok ([(1, NODATA, 0, Some 70)], false, Some 188) /\
  Some 70 <> @None Z.
Proof. split; [vm_compute; reflexivity|discriminate]. Qed.

(** C5, amended: with the header of a scan open and complete, two abort
    notices in a row (no resume notice, no data row) leave exactly one more
    record in the list, with status NODATA and with the offset of the first
    notice as data offset; the second notice is passed over. *)
Theorem double_abort_one_record :
  forall self fr raw1 raw2 off n cmd d t it cols hoff,
    last_offset self = Some off ->
    scan_started fr = true ->
    branch_of true (Py.strip (Py.decode_ascii_ignore raw1)) = B_scanbroken ->
    found SPEC_scanbroken (Py.strip (Py.decode_ascii_ignore raw2)) = true ->
    branch_of false (Py.strip (Py.decode_ascii_ignore raw2)) = B_none ->
    scannr fr = Some n -> scancmd fr = Some cmd -> date fr = Some d ->
    time fr = Some t -> itime fr = Some it -> col_names fr = Some cols ->
    scan_header_offset fr = Some hoff ->
    exists self' fr',
      Parse_lines self fr [raw1; raw2] = Ok (self', fr') /\
      scan_list self'
      = (scan_list self
         ++ [Scan.init (Scan.scan_name n) n cmd d t it cols hoff (Some off)
               (full_filename self) (init_motor_names self)
               (init_motor_values fr) NODATA])%list /\
      scan_started fr' = false /\
      last_offset self' = Some (off + Py.len raw1 + Py.len raw2).
Proof.
  intros self fr raw1 raw2 off n cmd d t it cols hoff
         Hoff Hst Hb1 _ Hb2 Hn Hcmd Hd Ht Hit Hcols Hh.
  assert (Hc : scan_started (close_scan fr) = false) by reflexivity.
  cbn [Parse_lines].
  rewrite (Parse_line_abort_notice self fr raw1 off n cmd d t it cols hoff
             Hoff Hst Hb1 Hn Hcmd Hd Ht Hit Hcols Hh).
  cbn [bind].
  rewrite (Parse_line_ignored _ (close_scan fr) raw2 (off + Py.len raw1)).
  - cbn [bind]. eexists; eexists. split; [reflexivity|].
    repeat split.
  - reflexivity.
  - rewrite Hc. exact Hb2.
Qed.

Lemma double_abort_one_record_witness :
  exists self' fr',
    Parse_lines in_header1 open_frame1 [ln abort_notice; ln abort_notice]
    = Ok (self', fr') /\
    scan_list self'
    = (scan_list in_header1
       ++ [Scan.init (Scan.scan_name 1) 1 "ascan th 0 1 10" "Mon Jan 01 2020"
             "12:00:00" Num.FNan ["th"; "det"] 0 (Some 70)
             (full_filename in_header1) (init_motor_names in_header1)
             (init_motor_values open_frame1) NODATA])%list /\
    scan_started fr' = false /\
    last_offset self'
    = Some (70 + Py.len (ln abort_notice) + Py.len (ln abort_notice)).
Proof.
  apply (double_abort_one_record in_header1 open_frame1 (ln abort_notice)
           (ln abort_notice) 70 1 "ascan th 0 1 10" "Mon Jan 01 2020"
           "12:00:00" Num.FNan ["th"; "det"] 0); reflexivity.
Defined.

(** C8, counterexample: on the motor positions [1.0 abc 2.0] only [1.0] is
    appended; [2.0], which [float] accepts, is lost with [abc]. *)
Lemma motor_values_counterexample :
  Num.parse_float "2.0" = Some (Num.FDec false 20 (-1)) /\
  (match Parse_line in_header1 open_frame1 (ln "#VAL 1.0 abc 2.0") with
   | Ok (_, fr) => Some (init_motor_values fr)
   | Raise _ => None
   end) = Some [Num.FDec false 10 (-1)].
Proof. split; vm_compute; reflexivity. Qed.

(** C8, amended: on a motor-position line read while a scan header is open,
    the tokens before the first one that [float] refuses are converted and
    appended in order; that token and all the tokens after it are dropped;
    nothing is raised and the pass goes on with the next line. *)
Theorem motor_values_up_to_first_malformed :
  forall self fr raw rest off good tail vals,
    last_offset self = Some off ->
    scan_started fr = true ->
    Py.strip (Py.decode_ascii_ignore raw) = "#VAL" ++ rest ->
    split SPEC_multi_blank (Py.strip (sub SPEC_initmopopos "" ("#VAL" ++ rest)))
    = (good ++ tail)%list ->
    Forall2 (fun tok v => Num.parse_float tok = Some v) good vals ->
    match tail with
    | [] => True
    | bad :: _ => Num.parse_float bad = None
    end ->
    Parse_line self fr raw
    = Ok (set_last_offset (Some (off + Py.len raw)) self,
          set_init_motor_values (init_motor_values fr ++ vals)%list fr).
Proof.
  intros self fr raw rest off good tail vals Hoff Hst Hline Htok Hgood Htail.
  unfold Parse_line, Parse_branch.
  rewrite Hoff, Hst, Hline, branch_motor_values. cbn [bind as_offset].
  rewrite Htok, (append_motor_values_spec good vals _ tail Hgood Htail).
  rewrite Hoff. reflexivity.
Qed.

Lemma motor_values_up_to_first_malformed_witness :
  Parse_line in_header1 open_frame1 (ln "#VAL 1.0 abc 2.0")
  = Ok (set_last_offset (Some (70 + Py.len (ln "#VAL 1.0 abc 2.0"))) in_header1,
        set_init_motor_values
          (init_motor_values open_frame1 ++ [Num.FDec false 10 (-1)])%list
          open_frame1).
Proof.
  apply (motor_values_up_to_first_malformed in_header1 open_frame1
           (ln "#VAL 1.0 abc 2.0") " 1.0 abc 2.0" 70
           ["1.0"] ["abc"; "2.0"] [Num.FDec false 10 (-1)]).
  - reflexivity.
  - reflexivity.
  - reflexivity.
  - reflexivity.
  - constructor; [reflexivity|constructor].
  - reflexivity.
Defined.

(** C6, counterexample: when the last record of the list has no data
    offset, [last_offset] ends absent; it is not set to the header offset
    of that record, which is 0 here. *)
Lemma last_offset_counterexample :
  after_pass (Parse (one_file "0000001_meta.log" log_two_headers) at_scan1)
  = Ok ([(1, NODATA, 0, None)], None) /\
  @None Z <> Some 0.
Proof. split; [vm_compute; reflexivity|discriminate]. Qed.

(** C6, amended: a parse pass whose loop reaches the end of the stream with
    a scan list that is not empty returns; [last_offset] is then the data
    offset of the last record of the list, absent when that record has none;
    the scan list is the one the loop left (a header still open is dropped). *)
Theorem last_offset_is_last_data_offset :
  forall dir self content rest self1 fr1 s,
    dir (full_filename self) = Some content ->
    seek (last_offset self) content = Ok rest ->
    Parse_lines self frame0 (Py.iter_lines rest) = Ok (self1, fr1) ->
    last_item (scan_list self1) = Ok s ->
    exists self',
      Parse dir self = Ok self' /\
      last_offset self' = Scan.doffset s /\
      scan_list self' = scan_list self1.
Proof.
  intros dir self content rest self1 fr1 s Hdir Hseek Hloop Hlast.
  exists (set_last_offset (Scan.doffset s) self1).
  unfold Parse. rewrite Hdir, Hseek. cbn [bind]. rewrite Hloop. cbn [bind].
  rewrite Hlast. repeat split.
Qed.

Lemma last_offset_is_last_data_offset_witness :
  exists self',
    Parse (one_file "0000001_meta.log" log1) at_scan1 = Ok self' /\
    last_offset self' = Scan.doffset scan1 /\
    scan_list self' = scan_list end_of_log1.
Proof.
  apply (last_offset_is_last_data_offset (one_file "0000001_meta.log" log1)
           at_scan1 log1 log1 end_of_log1 closed_frame1 scan1).
  - reflexivity.
  - reflexivity.
  - vm_compute. reflexivity.
  - reflexivity.
Defined.

Lemma Parse_kept dir self self' :
  Parse dir self = Ok self' ->
  kept self self' /\ exists new, scan_list self' = (scan_list self ++ new)%list.
Proof.
  unfold Parse. intros H.
  destruct (dir (full_filename self)) as [content|]; [|discriminate].
  destruct (last_offset self) as [off|] eqn:Hoff; [|discriminate].
  unfold seek in H. destruct (off <? 0); [discriminate|]. cbn [bind] in H.
  destruct (Parse_lines self frame0 _) as [[self1 fr1]|] eqn:E; [|discriminate].
  cbn [bind] in H.
  destruct (last_item (scan_list self1)) as [s|]; [|discriminate].
  cbn [bind] in H. injection H as <-.
  destruct (Parse_lines_spec _ _ _ _ _ _ E Hoff) as (Hk & _ & new & Hs & _).
  split; [exact Hk|]. exists new. exact Hs.
Qed.

Lemma parse_file_spec dir n self self1 :
  parse_file dir n self = Ok self1 ->
  curr_scan_nb self1 = curr_scan_nb self /\
  file_format self1 = file_format self /\
  scan_in_list self1 = scan_in_list self /\
  last_offset self1 = Some 0 /\
  exists new, scan_list self1 = (scan_list self ++ new)%list.
Proof.
  unfold parse_file. intros H.
  destruct (Parse dir _) as [self'|] eqn:E; [|discriminate].
  cbn [bind] in H. injection H as <-.
  destruct (Parse_kept _ _ _ E) as ((_ & _ & _ & Hl & Hc & Hf) & new & Hs).
  repeat split; try assumption. exists new. exact Hs.
Qed.

Lemma fold_advance_raise dir l e :
  fold_left (parse_and_advance dir) l (Raise e) = Raise e.
Proof. induction l as [|n l IH]; [reflexivity|exact IH]. Qed.

(** The sequential loop over [k] files that exist, the next one missing. *)
Lemma parse_sequential_run dir k : forall fuel self,
  Forall (fun n => dir (file_format self n) <> None)
         (scan_numbers (curr_scan_nb self) k) ->
  dir (file_format self (curr_scan_nb self + Z.of_nat k)) = None ->
  (k < fuel)%nat ->
  parse_sequential fuel dir self
  = Some (fold_left (parse_and_advance dir)
            (scan_numbers (curr_scan_nb self) k) (Ok self)).
Proof.
  induction k as [|k IH]; intros fuel self Hex Hmiss Hfuel.
  - destruct fuel as [|fuel]; [lia|]. cbn [parse_sequential scan_numbers fold_left].
    rewrite Z.add_0_r in Hmiss. rewrite Hmiss. reflexivity.
  - destruct fuel as [|fuel]; [lia|].
    cbn [scan_numbers] in Hex. inversion Hex as [|? ? Hhere Hrest]; subst.
    cbn [parse_sequential scan_numbers fold_left].
    destruct (dir (file_format self (curr_scan_nb self))) as [c|]; [|contradiction Hhere; reflexivity].
    unfold parse_and_advance at 2. cbn [bind].
    destruct (parse_file dir (curr_scan_nb self) self) as [self1|e] eqn:E.
    + cbn [bind].
      destruct (parse_file_spec _ _ _ _ E) as (Hc & Hf & _).
      rewrite Hc.
      rewrite (IH fuel (set_curr_scan_nb (curr_scan_nb self + 1) self1)).
      * reflexivity.
      * cbn [curr_scan_nb set_curr_scan_nb file_format].
        change (file_format (set_curr_scan_nb (curr_scan_nb self + 1) self1))
          with (file_format self1). rewrite Hf. exact Hrest.
      * change (file_format (set_curr_scan_nb (curr_scan_nb self + 1) self1))
          with (file_format self1).
        change (curr_scan_nb (set_curr_scan_nb (curr_scan_nb self + 1) self1))
          with (curr_scan_nb self + 1).
        rewrite Hf. replace (curr_scan_nb self + 1 + Z.of_nat k)
          with (curr_scan_nb self + Z.of_nat (S k)) by lia. exact Hmiss.
      * lia.
    + cbn [bind]. rewrite fold_advance_raise. reflexivity.
Qed.

Lemma parse_and_advance_cursor dir acc n self' :
  parse_and_advance dir acc n = Ok self' -> curr_scan_nb self' = n + 1.
Proof.
  unfold parse_and_advance. intros H. unbind H. injection H as <-. reflexivity.
Qed.

(** C10, counterexample: the files of scans 1 to 5 exist, the file of scan
    6 does not, and the file of scan 1 is empty: the parse of the first file
    appends no record and raises [IndexError] at line 614, so that the pass
    neither parses the other files nor leaves the cursor at 6. *)
Lemma sequential_discovery_counterexample :
  Forall (fun n => five_files_first_empty (default_file_format n) <> None)
         [1; 2; 3; 4; 5] /\
  five_files_first_empty (default_file_format 6) = None /\
  PalSpecFile_init 6 five_files_first_empty "pal" "data" default_file_format [] 1
  = Some (Raise IndexError).
Proof.
  split; [repeat constructor; discriminate|].
  split; vm_compute; reflexivity.
Qed.



(** The pass of the witness does return: five records, one per file, in the
    order of the scan numbers, and the cursor at 6. *)
Lemma sequential_discovery_five_files :
  after_discovery
    (parse_folders 6 five_files (new_file "pal" "data" default_file_format [] 1))
  = Some (Ok ([ ("0000001_meta.log", (1, OK, 0, Some 87));
                ("0000002_meta.log", (1, OK, 0, Some 87));
                ("0000003_meta.log", (1, OK, 0, Some 87));
                ("0000004_meta.log", (1, OK, 0, Some 87));
                ("0000005_meta.log", (1, OK, 0, Some 87)) ], 6)).
Proof. vm_compute. reflexivity. Qed.

(** C1, the failing input: discovery from the list [[1]] over a directory
    that holds the complete file of scan 1.  The first pass gives one
    record; [Update] over the same directory parses the same file again
    from offset 0 and appends the same record a second time (the cursor
    stays at 1, the last number of the list). *)
Theorem listed_discovery_duplicates_on_update :
  after_discovery
    (PalSpecFile_init 1 (one_file "0000001_meta.log" log1)
       "pal" "data" default_file_format [1] 1)
  = Some (Ok ([("0000001_meta.log", (1, OK, 0, Some 87))], 1)) /\
  after_discovery
    (then_update 1 (one_file "0000001_meta.log" log1)
       (PalSpecFile_init 1 (one_file "0000001_meta.log" log1)
          "pal" "data" default_file_format [1] 1))
  = Some (Ok ([("0000001_meta.log", (1, OK, 0, Some 87));
               ("0000001_meta.log", (1, OK, 0, Some 87))], 1)).
Proof. split; vm_compute; reflexivity. Qed.

Lemma Parse_log_short_row :
  Parse (one_file "0000001_meta.log" log_short_row) at_scan1
  = Ok (set_last_offset (Some 70) (set_scan_list [scan_short_row] at_scan1)).
Proof. vm_compute. reflexivity. Qed.

(** C7, the failing input: a scan of two columns whose data row has one
    field.  [ReadData] raises [NameError] before it reads a data line: the
    status stays OK, it is not demoted to NODATA, and no table is set. *)
Theorem short_row_is_not_demoted :
  after_read
    (ReadData accept_all 100 (one_file "0000001_meta.log" log_short_row)
       scan_short_row)
  = Some (OK, None, Raise NameError).
Proof. vm_compute. reflexivity. Qed.

Lemma Parse_lines_app l1 : forall l2 self fr,
  Parse_lines self fr (l1 ++ l2)
  = ('(self1, fr1) <- Parse_lines self fr l1 ;; Parse_lines self1 fr1 l2).
Proof.
  induction l1 as [|raw l1 IH]; intros l2 self fr; [reflexivity|].
  cbn [app Parse_lines]. destruct (Parse_line self fr raw) as [[s f]|e]; [|reflexivity].
  cbn [bind]. apply IH.
Qed.

Lemma Parse_lines_ignored T : forall self fr off,
  scan_started fr = false ->
  Forall ignored_when_idle T ->
  last_offset self = Some off ->
  Parse_lines self fr T = Ok (set_last_offset (Some (off + total_len T)) self, fr).
Proof.
  induction T as [|raw T IH]; intros self fr off Hidle HT Hoff.
  - cbn [Parse_lines total_len fold_right]. rewrite Z.add_0_r.
    destruct self; simpl in *; subst; reflexivity.
  - inversion HT as [|? ? Hraw HT']; subst.
    cbn [Parse_lines]. rewrite (Parse_line_ignored self fr raw off Hoff).
    2:{ rewrite Hidle. exact Hraw. }
    cbn [bind].
    rewrite (IH (set_last_offset (Some (off + Py.len raw)) self) fr
               (off + Py.len raw) Hidle HT' eq_refl).
    cbn [total_len fold_right]. fold (total_len T).
    rewrite Z.add_assoc. reflexivity.
Qed.

Lemma last_item_nonempty {A} (l : list A) : l <> [] -> exists a, last_item l = Ok a.
Proof.
  induction l as [|a l IH]; intros H; [contradiction H; reflexivity|].
  destruct l as [|b l]; [exists a; reflexivity|].
  apply IH. discriminate.
Qed.

Lemma mark_last_changed_id l :
  Forall (fun s => Scan.ischanged s = true) l -> mark_last_changed l = l.
Proof.
  induction l as [|s l IH]; intros H; [reflexivity|].
  inversion H as [|? ? Hs Hl]; subst.
  destruct l as [|b l].
  - simpl. destruct s; simpl in *; subst; reflexivity.
  - change (mark_last_changed (s :: b :: l)) with (s :: mark_last_changed (b :: l)).
    rewrite (IH Hl). reflexivity.
Qed.

(** A parse pass from offset 0 over a file that ends, after the lines [L]
    that close its last scan, with lines that the loop passes over. *)
Lemma Parse_closed_prefix dir self c L T sL frL :
  dir (full_filename self) = Some c ->
  last_offset self = Some 0 ->
  Py.iter_lines c = (L ++ T)%list ->
  Parse_lines self frame0 L = Ok (sL, frL) ->
  scan_started frL = false -> scan_list sL <> [] ->
  Forall ignored_when_idle T ->
  exists s, last_item (scan_list sL) = Ok s /\
            Parse dir self = Ok (set_last_offset (Scan.doffset s) sL).
Proof.
  intros Hdir H0 Hlines HL Hidle Hne HT.
  destruct (Parse_lines_spec _ _ _ _ _ _ HL H0) as (_ & Hoff & _).
  destruct (last_item_nonempty _ Hne) as (s & Hs).
  exists s. split; [exact Hs|].
  unfold Parse. rewrite Hdir, H0.
  cbn [seek Z.ltb Z.compare Z.to_nat Py.drop bind].
  rewrite Hlines, Parse_lines_app, HL. cbn [bind].
  rewrite (Parse_lines_ignored T sL frL _ Hidle HT Hoff). cbn [bind].
  change (scan_list (set_last_offset (Some (0 + total_len L + total_len T)) sL))
    with (scan_list sL).
  rewrite Hs. reflexivity.
Qed.

Lemma parse_sequential_one_file fuel dir self c L T sL frL :
  (2 <= fuel)%nat ->
  dir (file_format self (curr_scan_nb self)) = Some c ->
  dir (file_format self (curr_scan_nb self + 1)) = None ->
  last_offset self = Some 0 ->
  Py.iter_lines c = (L ++ T)%list ->
  Parse_lines (set_full_filename (file_format self (curr_scan_nb self)) self)
    frame0 L = Ok (sL, frL) ->
  scan_started frL = false -> scan_list sL <> [] ->
  Forall ignored_when_idle T ->
  parse_sequential fuel dir self
  = Some (Ok (set_curr_scan_nb (curr_scan_nb self + 1)
                (set_last_offset (Some 0) sL))).
Proof.
  intros Hfuel Hdir Hnext H0 Hlines HL Hidle Hne HT.
  destruct fuel as [|[|fuel]]; try lia.
  destruct (Parse_lines_spec _ _ _ _ _ _ HL H0)
    as ((_ & _ & _ & _ & Hc & Hf) & _).
  change (curr_scan_nb (set_full_filename _ self)) with (curr_scan_nb self) in Hc.
  change (file_format (set_full_filename _ self)) with (file_format self) in Hf.
  destruct (Parse_closed_prefix dir
              (set_full_filename (file_format self (curr_scan_nb self)) self)
              c L T sL frL Hdir H0 Hlines HL Hidle Hne HT) as (s & _ & HP).
  cbn [parse_sequential]. rewrite Hdir. unfold parse_file. rewrite HP. cbn [bind].
  change (curr_scan_nb (set_last_offset (Some 0)
            (set_last_offset (Scan.doffset s) sL))) with (curr_scan_nb sL).
  change (file_format (set_curr_scan_nb (curr_scan_nb sL + 1)
            (set_last_offset (Some 0) (set_last_offset (Scan.doffset s) sL))))
    with (file_format sL).
  change (curr_scan_nb (set_curr_scan_nb (curr_scan_nb sL + 1)
            (set_last_offset (Some 0) (set_last_offset (Scan.doffset s) sL))))
    with (curr_scan_nb sL + 1).
  rewrite Hc, Hf, Hnext. reflexivity.
Qed.

(** In sequential mode, with no file at the cursor, [Update] only marks the
    last record. *)
Lemma Update_nothing_new fuel dir self :
  (1 <= fuel)%nat ->
  scan_in_list self = [] ->
  dir (file_format self (curr_scan_nb self)) = None ->
  Update fuel dir self
  = Some (Ok (set_scan_list (mark_last_changed (scan_list self)) self)).
Proof.
  intros Hfuel Hseq Hnone. destruct fuel as [|fuel]; [lia|].
  unfold Update, parse_folders.
  change (scan_in_list (set_scan_list _ self)) with (scan_in_list self).
  rewrite Hseq. cbn [parse_sequential].
  change (file_format (set_scan_list _ self)) with (file_format self).
  change (curr_scan_nb (set_scan_list _ self)) with (curr_scan_nb self).
  rewrite Hnone. reflexivity.
Qed.

(** C2, counterexample: sequential discovery from scan 1.  The first pass
    sees the file of scan 1 cut after its first data row; the file then
    grows by a row and by a second scan.  [Update] does not parse the file
    again (the cursor is at 2 and there is no file for scan 2): the list
    keeps its single record, while one pass over the grown file gives two. *)
Lemma update_counterexample :
  after_discovery
    (then_update 2 (one_file "0000001_meta.log" log_grown)
       (PalSpecFile_init 2 (one_file "0000001_meta.log" log_cut)
          "pal" "data" default_file_format [] 1))
  = Some (Ok ([("0000001_meta.log", (1, OK, 0, Some 70))], 2)) /\
  after_discovery
    (PalSpecFile_init 2 (one_file "0000001_meta.log" log_grown)
       "pal" "data" default_file_format [] 1)
  = Some (Ok ([("0000001_meta.log", (1, OK, 0, Some 70));
               ("0000001_meta.log", (2, OK, 82, Some 152))], 2)).
Proof. split; vm_compute; reflexivity. Qed.

(** C2, amended: in sequential mode, let the file of the first scan number
    be seen cut inside the data block of its last scan (after the lines [L]
    the loop is idle and the list is not empty), and let the file later
    differ only by lines that the loop passes over when idle, such as data
    rows; no file exists for the next scan number.  Then the first pass
    returns, [Update] over the later directory returns and leaves every
    record of the list as it was (none is replaced, none is added), and
    this list is the one a single pass over the later file gives. *)
Theorem update_after_rows_appended :
  forall fuel dir1 dir2 filename path fmt start c1 c2 L T1 T2 sL frL,
    (2 <= fuel)%nat ->
    dir1 (fmt start) = Some c1 -> dir1 (fmt (start + 1)) = None ->
    dir2 (fmt start) = Some c2 -> dir2 (fmt (start + 1)) = None ->
    Py.iter_lines c1 = (L ++ T1)%list ->
    Py.iter_lines c2 = (L ++ T2)%list ->
    Parse_lines (set_full_filename (fmt start)
                   (new_file filename path fmt [] start)) frame0 L
    = Ok (sL, frL) ->
    scan_started frL = false -> scan_list sL <> [] ->
    Forall ignored_when_idle T1 -> Forall ignored_when_idle T2 ->
    exists self1 self2 self3,
      PalSpecFile_init fuel dir1 filename path fmt [] start = Some (Ok self1) /\
      Update fuel dir2 self1 = Some (Ok self2) /\
      PalSpecFile_init fuel dir2 filename path fmt [] start = Some (Ok self3) /\
      scan_list self2 = scan_list self1 /\
      scan_list self2 = scan_list self3.
Proof.
  intros fuel dir1 dir2 filename path fmt start c1 c2 L T1 T2 sL frL
         Hfuel Hd1 Hn1 Hd2 Hn2 Hl1 Hl2 HL Hidle Hne HT1 HT2.
  set (self0 := new_file filename path fmt [] start) in *.
  set (after := set_curr_scan_nb (start + 1) (set_last_offset (Some 0) sL)).
  assert (Hinit : forall dir c T,
             dir (fmt start) = Some c -> dir (fmt (start + 1)) = None ->
             Py.iter_lines c = (L ++ T)%list -> Forall ignored_when_idle T ->
             PalSpecFile_init fuel dir filename path fmt [] start
             = Some (Ok after)).
  { intros dir c T Hd Hn Hl HT. unfold PalSpecFile_init, parse_folders.
    fold self0. change (scan_in_list self0) with (@nil Z). cbv iota.
    apply (parse_sequential_one_file fuel dir self0 c L T sL frL);
      try assumption; reflexivity. }
  destruct (Parse_lines_spec _ _ _ _ _ _ HL eq_refl)
    as ((_ & _ & _ & Hsl & Hc & Hf) & _ & new & Hs & Hnew).
  destruct Hnew as (_ & Hall); [lia|intros h Hh; discriminate Hh|].
  assert (Hchanged : mark_last_changed (scan_list sL) = scan_list sL).
  { apply mark_last_changed_id. rewrite Hs. cbn [app].
    eapply Forall_impl; [|exact Hall]. intros s (_ & Hch & _). exact Hch. }
  exists after, (set_scan_list (mark_last_changed (scan_list after)) after), after.
  split; [exact (Hinit dir1 c1 T1 Hd1 Hn1 Hl1 HT1)|].
  split.
  - apply Update_nothing_new; [lia| |].
    + change (scan_in_list after) with (scan_in_list sL). exact Hsl.
    + change (file_format after) with (file_format sL).
      change (curr_scan_nb after) with (start + 1).
      rewrite Hf. exact Hn2.
  - split; [exact (Hinit dir2 c2 T2 Hd2 Hn2 Hl2 HT2)|].
    change (scan_list (set_scan_list (mark_last_changed (scan_list after)) after))
      with (mark_last_changed (scan_list sL)).
    change (scan_list after) with (scan_list sL).
    split; exact Hchanged.
Qed.

Lemma update_after_rows_appended_witness :
  exists self1 self2 self3,
    PalSpecFile_init 2 (one_file "0000001_meta.log" log_cut)
      "pal" "data" default_file_format [] 1 = Some (Ok self1) /\
    Update 2 (one_file "0000001_meta.log" log_more_rows) self1
    = Some (Ok self2) /\
    PalSpecFile_init 2 (one_file "0000001_meta.log" log_more_rows)
      "pal" "data" default_file_format [] 1 = Some (Ok self3) /\
    scan_list self2 = scan_list self1 /\
    scan_list self2 = scan_list self3.
Proof.
  apply (update_after_rows_appended 2
           (one_file "0000001_meta.log" log_cut)
           (one_file "0000001_meta.log" log_more_rows)
           "pal" "data" default_file_format 1 log_cut log_more_rows
           (Py.iter_lines log_cut) [] [ln "0.1 6"; ln "0.2 7"]
           end_of_log_cut closed_frame1).
  - lia.
  - reflexivity.
  - reflexivity.
  - reflexivity.
  - reflexivity.
  - vm_compute. reflexivity.
  - vm_compute. reflexivity.
  - vm_compute. reflexivity.
  - reflexivity.
  - discriminate.
  - constructor.
  - repeat constructor.
Defined.

Lemma parse_listed_appends dir l : forall self self',
  parse_listed dir l self = Ok self' ->
  exists new, scan_list self' = (scan_list self ++ new)%list.
Proof.
  induction l as [|n l IH]; intros self self' H.
  - injection H as <-. exists []. rewrite app_nil_r. reflexivity.
  - cbn [parse_listed] in H.
    destruct (n >=? curr_scan_nb self); [|apply IH; exact H].
    change (file_format (set_curr_scan_nb n self)) with (file_format self) in H.
    destruct (dir (file_format self n)).
    + destruct (parse_file dir n (set_curr_scan_nb n self)) as [self1|] eqn:E;
        [|discriminate].
      cbn [bind] in H.
      destruct (parse_file_spec _ _ _ _ E) as (_ & _ & _ & _ & new1 & H1).
      destruct (IH _ _ H) as (new2 & H2).
      exists (new1 ++ new2)%list. rewrite H2, H1, app_assoc. reflexivity.
    + injection H as <-. exists []. rewrite app_nil_r. reflexivity.
Qed.

Lemma parse_sequential_appends dir fuel : forall self self',
  parse_sequential fuel dir self = Some (Ok self') ->
  exists new, scan_list self' = (scan_list self ++ new)%list.
Proof.
  induction fuel as [|fuel IH]; intros self self' H; [discriminate|].
  cbn [parse_sequential] in H.
  destruct (dir (file_format self (curr_scan_nb self))).
  - destruct (parse_file dir (curr_scan_nb self) self) as [self1|] eqn:E;
      [|discriminate].
    destruct (parse_file_spec _ _ _ _ E) as (_ & _ & _ & _ & new1 & H1).
    destruct (IH _ _ H) as (new2 & H2).
    exists (new1 ++ new2)%list.
    change (scan_list (set_curr_scan_nb (curr_scan_nb self1 + 1) self1))
      with (scan_list self1) in H2.
    rewrite H2, H1, app_assoc. reflexivity.
  - injection H as <-. exists []. rewrite app_nil_r. reflexivity.
Qed.

(** In either mode [Update] keeps every record of the list in its place
    (the last one marked as changed) and only appends after them: it never
    replaces a record. *)
Lemma Update_only_appends fuel dir self self' :
  Update fuel dir self = Some (Ok self') ->
  exists new,
    scan_list self' = (mark_last_changed (scan_list self) ++ new)%list.
Proof.
  unfold Update, parse_folders.
  change (scan_in_list (set_scan_list _ self)) with (scan_in_list self).
  destruct (scan_in_list self) as [|n l]; intros H.
  - apply parse_sequential_appends in H. exact H.
  - apply (parse_listed_appends dir (n :: l)
             (set_scan_list (mark_last_changed (scan_list self)) self)).
    congruence.
Qed.

(** The patterns on some lines of a log. *)
Example num_value_tokens :
  findall SPEC_num_value "#T 1.5e-3 abc -inf nan 12..5 x7"
  = ["1.5e-3"; "-inf"; "nan"; "12..5"; "7"].
Proof. vm_compute. reflexivity. Qed.

Example blanks_split : split SPEC_multi_blank "1.0 abc  2.0" = ["1.0"; "abc"; "2.0"].
Proof. vm_compute. reflexivity. Qed.

Example empty_split : split SPEC_multi_blank "" = [""].
Proof. vm_compute. reflexivity. Qed.

Example abort_notice_branch : branch_of true abort_notice = B_scanbroken.
Proof. vm_compute. reflexivity. Qed.

Example data_row_branch : branch_of true "0.0 5" = B_dataline.
Proof. vm_compute. reflexivity. Qed.

Example float_tokens :
  map Num.parse_float ["1.0"; "abc"; ""; "-2.5e3"; "1_000"; "INF"]
  = [ Some (Num.FDec false 10 (-1)); None; None;
      Some (Num.FDec true 25 2); Some (Num.FDec false 1000 0);
      Some (Num.FInf false) ].
Proof. vm_compute. reflexivity. Qed.

(** A line that does not begin with the comment sign is passed over when
    no scan header is open: this is the case of every data row. *)
Lemma not_header_ignored_when_idle raw :
  matches SPEC_headerline (Py.strip (Py.decode_ascii_ignore raw)) = false ->
  ignored_when_idle raw.
Proof.
  unfold ignored_when_idle. intros H.
  destruct (Py.strip (Py.decode_ascii_ignore raw)) as [|a rest].
  - unfold branch_of. rewrite !andb_false_r. reflexivity.
  - unfold branch_of. rewrite !andb_false_r.
    unfold matches in *. cbn -[Ascii.eqb] in H |- *.
    destruct (Ascii.eqb "#" a); [discriminate H|reflexivity].
Qed.

Lemma branch_idle_cases line :
  branch_of false line = B_newheader \/ branch_of false line = B_motor_names_fh \/
  branch_of false line = B_scan \/ branch_of false line = B_none.
Proof.
  unfold branch_of. rewrite !andb_false_r, !andb_true_r.
  destruct (matches SPEC_newheader line); [auto|].
  destruct (matches SPEC_initmoponames line); [auto|].
  destruct (matches SPEC_scan line); auto.
Qed.

Lemma branch_empty started : branch_of started EmptyString = B_none.
Proof. destruct started; reflexivity. Qed.

(** A line that takes a branch holds at least one byte. *)
Lemma branch_line_not_empty started raw :
  branch_of started (Py.strip (Py.decode_ascii_ignore raw)) <> B_none ->
  1 <= Py.len raw.
Proof.
  destruct raw as [|a raw]; intros H.
  - contradiction H. apply branch_empty.
  - rewrite len_String. pose proof (len_nonneg raw). lia.
Qed.

Lemma record_ok_mono file lo hi hi' s :
  hi <= hi' -> record_ok file lo hi s -> record_ok file lo hi' s.
Proof.
  intros Hle (Hf & Hn & Hs & Hh & Hd). repeat split; try assumption; try lia.
  destruct (Scan.doffset s); [lia|assumption].
Qed.

Lemma new_scan_fields self fr doff st s :
  new_scan self fr doff st = Ok s ->
  Scan.fname s = full_filename self /\
  Scan.name s = Scan.scan_name (Scan.nr s) /\
  Some (Scan.hoffset s) = scan_header_offset fr /\
  Some (Scan.command s) = scancmd fr /\
  Some (Scan.date s) = date fr /\
  Some (Scan.colnames s) = option_map Scan.rename_repeated (col_names fr) /\
  Scan.doffset s = doff /\ Scan.scan_status s = st.
Proof.
  unfold new_scan, local. intros H.
  destruct (scannr fr); [|discriminate].
  destruct (scancmd fr); [|discriminate].
  destruct (date fr); [|discriminate].
  destruct (time fr); [|discriminate].
  destruct (itime fr); [|discriminate].
  destruct (col_names fr); [|discriminate].
  destruct (scan_header_offset fr); [|discriminate].
  cbn [bind] in H. injection H as <-. repeat split.
Qed.

Lemma SetMCAParams_keeps f c a b s s' :
  Scan.SetMCAParams f c a b s = Ok s' ->
  Scan.fname s' = Scan.fname s /\ Scan.name s' = Scan.name s /\
  Scan.nr s' = Scan.nr s /\ Scan.hoffset s' = Scan.hoffset s /\
  Scan.command s' = Scan.command s /\ Scan.date s' = Scan.date s /\
  Scan.colnames s' = Scan.colnames s /\
  Scan.doffset s' = Scan.doffset s /\ Scan.scan_status s' = Scan.scan_status s.
Proof.
  unfold Scan.SetMCAParams. destruct (f =? 0); [discriminate|].
  intros H; injection H as <-. repeat split.
Qed.

(** The record a data line appends (lines 546-573), in terms of the record
    built from the locals. *)
Lemma dataline_scan self fr off st s0 s :
  new_scan self fr (Some off) st = Ok s0 ->
  (if scan_has_mca fr then
     f <- local (mca_col_number fr) ;;
     c <- local (mca_channels fr) ;;
     a <- local (mca_start fr) ;;
     b <- local (mca_stop fr) ;;
     Scan.SetMCAParams f c a b s0
   else Ok s0) = Ok s ->
  Scan.fname s = Scan.fname s0 /\ Scan.name s = Scan.name s0 /\
  Scan.nr s = Scan.nr s0 /\ Scan.hoffset s = Scan.hoffset s0 /\
  Scan.command s = Scan.command s0 /\ Scan.date s = Scan.date s0 /\
  Scan.colnames s = Scan.colnames s0 /\
  Scan.doffset s = Scan.doffset s0 /\ Scan.scan_status s = Scan.scan_status s0.
Proof.
  intros _ H. destruct (scan_has_mca fr).
  - unbind H. eapply SetMCAParams_keeps; eassumption.
  - injection H as <-. repeat split.
Qed.

Lemma Parse_branch_records self fr line off lo self' fr' len_raw :
  Parse_branch self fr line off = Ok (self', fr') ->
  (branch_of (scan_started fr) line <> B_none -> 1 <= len_raw) ->
  0 <= len_raw -> lo <= off -> open_inv lo off fr ->
  open_inv lo (off + len_raw) fr' /\
  exists new,
    scan_list self' = (scan_list self ++ new)%list /\
    Forall (record_ok (full_filename self) lo off) new.
Proof.
  unfold Parse_branch. intros H Hlen Hlen0 Hlo Hinv.
  destruct (branch_of (scan_started fr) line) eqn:Hb.
  all: try assert (Hraw : 1 <= len_raw) by (apply Hlen; discriminate).
  all: try (destruct (scan_started fr) eqn:Hst;
            [|destruct (branch_idle_cases line) as [Hc|[Hc|[Hc|Hc]]];
              rewrite Hc in Hb; discriminate Hb]).
  all: try (destruct (Hinv Hst) as (Hstat & h & Hh & Hrange)).
  all: cbn [bind] in H; unbind H; ok_inj.
  all: try (split;
            [intros Hs; cbn in Hs; try discriminate Hs;
             try (destruct (Hinv Hs) as (? & h' & ? & ?); split; [assumption|];
                  exists h'; split; [assumption|lia])
            |exists []; rewrite app_nil_r; split; [reflexivity|constructor]]).
  - (* a scan header *)
    split; [reflexivity|]. exists off. split; [reflexivity|lia].
  - (* an abort notice *)
    split; [intros Hs; discriminate Hs|].
    exists [a]. split; [reflexivity|]. constructor; [|constructor].
    destruct (new_scan_fields _ _ _ _ _ E) as (Hf & Hn & Hho & _ & _ & _ & Hd & Hs).
    rewrite Hh in Hho. injection Hho as Hho.
    unfold record_ok. rewrite Hf, Hn, Hd, Hs, Hho.
    repeat split; auto; lia.
  - (* the first data line *)
    split; [intros Hs; discriminate Hs|].
    exists [a1]. split; [reflexivity|]. constructor; [|constructor].
    destruct (new_scan_fields _ _ _ _ _ E0) as (Hf & Hn & Hho & _ & _ & _ & Hd & Hs).
    destruct (dataline_scan _ _ _ _ _ _ E0 E1)
      as (Hf' & Hn' & Hnr' & Hh' & _ & _ & _ & Hd' & Hs').
    rewrite Hh in Hho. injection Hho as Hho.
    rewrite Hstat in E. injection E as <-.
    unfold record_ok. rewrite Hf', Hn', Hnr', Hh', Hd', Hs', Hf, Hn, Hd, Hs, Hho.
    repeat split; auto; lia.
  - (* a scan header while a scan is open *)
    split.
    + intros _. split; [reflexivity|]. exists off. split; [reflexivity|lia].
    + exists [a]. split; [reflexivity|]. constructor; [|constructor].
      destruct (new_scan_fields _ _ _ _ _ E) as (Hf & Hn & Hho & _ & _ & _ & Hd & Hs).
      rewrite Hh in Hho. injection Hho as Hho.
      unfold record_ok. rewrite Hf, Hn, Hd, Hs, Hho.
      repeat split; auto; lia.
Qed.

Lemma Parse_line_records self fr raw off lo self' fr' :
  Parse_line self fr raw = Ok (self', fr') ->
  last_offset self = Some off ->
  lo <= off -> open_inv lo off fr ->
  open_inv lo (off + Py.len raw) fr' /\
  exists new,
    scan_list self' = (scan_list self ++ new)%list /\
    Forall (record_ok (full_filename self) lo off) new.
Proof.
  unfold Parse_line. intros H Hoff Hlo Hinv. rewrite Hoff in H. cbn [bind as_offset] in H.
  destruct (Parse_branch self fr _ off) as [[self1 fr1]|] eqn:E; [|discriminate].
  cbn [bind] in H.
  destruct (Parse_branch_spec _ _ _ _ _ _ E) as (_ & Hl & _).
  rewrite Hl, Hoff in H. cbn [bind as_offset] in H. injection H as <- <-.
  apply (Parse_branch_records _ _ _ _ _ _ _ (Py.len raw) E); try assumption.
  - apply branch_line_not_empty.
  - apply len_nonneg.
Qed.

Lemma Parse_lines_records lines : forall self fr off lo self' fr',
  Parse_lines self fr lines = Ok (self', fr') ->
  last_offset self = Some off ->
  lo <= off -> open_inv lo off fr ->
  exists new,
    scan_list self' = (scan_list self ++ new)%list /\
    Forall (record_ok (full_filename self) lo (off + total_len lines)) new.
Proof.
  induction lines as [|raw rest IH]; intros self fr off lo self' fr' H Hoff Hlo Hinv.
  - injection H as <- <-. exists []. rewrite app_nil_r. split; [reflexivity|constructor].
  - cbn [Parse_lines] in H.
    destruct (Parse_line self fr raw) as [[self1 fr1]|] eqn:E; [|discriminate].
    cbn [bind] in H.
    destruct (Parse_line_spec _ _ _ _ _ _ E Hoff) as ((_ & _ & Hfn & _) & Hl1 & _).
    destruct (Parse_line_records _ _ _ _ _ _ _ E Hoff Hlo Hinv) as (Hinv1 & new1 & Hs1 & Hf1).
    pose proof (len_nonneg raw) as Hraw. pose proof (total_len_nonneg rest) as Hrest.
    destruct (IH _ _ _ lo _ _ H Hl1) as (new2 & Hs2 & Hf2); [lia|assumption|].
    exists (new1 ++ new2)%list. split.
    + rewrite Hs2, Hs1, app_assoc. reflexivity.
    + cbn [total_len fold_right]. fold (total_len rest).
      apply Forall_app; split.
      * eapply Forall_impl; [|exact Hf1]. intros s. apply record_ok_mono. lia.
      * rewrite Hfn in Hf2. eapply Forall_impl; [|exact Hf2].
        intros s. apply record_ok_mono. lia.
Qed.

Lemma open_inv_frame0 lo off : open_inv lo off frame0.
Proof. intros H. discriminate H. Qed.

(** X1: every record that a parse pass appends carries the name of the
    file parsed, is called [scan_<number>], has status OK or NODATA, has
    its header offset between the offset the pass started at and the end of
    the file, has its data offset, when there is one, strictly after the
    header offset and within the file, and has status NODATA when it has no
    data offset.  The records already in the list stay as they were. *)
Theorem Parse_appends_well_formed_records :
  forall dir self self' off content,
    Parse dir self = Ok self' ->
    last_offset self = Some off -> 0 <= off ->
    dir (full_filename self) = Some content ->
    exists new,
      scan_list self' = (scan_list self ++ new)%list /\
      Forall (record_ok (full_filename self) off (Py.len content)) new.
Proof.
  intros dir self self' off content H Hoff H0 Hdir.
  unfold Parse in H. rewrite Hdir, Hoff in H. unfold seek in H.
  destruct (off <? 0) eqn:Hneg; [lia|]. cbn [bind] in H.
  destruct (Parse_lines self frame0 _) as [[self1 fr1]|] eqn:E; [|discriminate].
  cbn [bind] in H.
  destruct (last_item (scan_list self1)) as [s|]; [|discriminate].
  cbn [bind] in H. injection H as <-.
  change (scan_list (set_last_offset (Scan.doffset s) self1)) with (scan_list self1).
  destruct (len_drop (Z.to_nat off) content) as [Hd|[Hd Hle]].
  - destruct (Parse_lines_records _ _ _ _ off _ _ E Hoff (Z.le_refl off)
                (open_inv_frame0 off off)) as (new & Hs & Hf).
    exists new. split; [exact Hs|].
    eapply Forall_impl; [|exact Hf]. intros x. apply record_ok_mono.
    rewrite total_len_iter_lines, Hd. lia.
  - rewrite Hd in E. injection E as <- _.
    exists []. rewrite app_nil_r. split; [reflexivity|constructor].
Qed.

Lemma Parse_appends_well_formed_records_witness :
  exists new,
    scan_list end_of_log1 = (scan_list at_scan1 ++ new)%list /\
    Forall (record_ok (full_filename at_scan1) 0 (Py.len log1)) new.
Proof.
  apply (Parse_appends_well_formed_records
           (one_file "0000001_meta.log" log1) at_scan1
           (set_last_offset (Some 87) end_of_log1) 0 log1).
  - vm_compute. reflexivity.
  - reflexivity.
  - lia.
  - reflexivity.
Defined.

(** X2: when the loop of a parse pass has read a file from an offset within
    it to the end, the running offset is the length of the file: every line
    moves it by its full length in bytes, whatever the line holds. *)
Theorem loop_offset_reaches_file_length :
  forall self self1 fr1 off content rest,
    last_offset self = Some off -> 0 <= off <= Py.len content ->
    seek (Some off) content = Ok rest ->
    Parse_lines self frame0 (Py.iter_lines rest) = Ok (self1, fr1) ->
    last_offset self1 = Some (Py.len content).
Proof.
  intros self self1 fr1 off content rest Hoff Hr Hseek HL.
  unfold seek in Hseek. destruct (off <? 0) eqn:Hneg; [lia|].
  injection Hseek as <-.
  destruct (Parse_lines_spec _ _ _ _ _ _ HL Hoff) as (_ & Hl & _).
  rewrite Hl, total_len_iter_lines. f_equal.
  destruct (len_drop (Z.to_nat off) content) as [Hd|[Hd Hle]].
  - rewrite Hd. lia.
  - rewrite Hd, len_empty. lia.
Qed.

Lemma loop_offset_reaches_file_length_witness :
  last_offset end_of_log1 = Some (Py.len log1).
Proof.
  apply (loop_offset_reaches_file_length at_scan1 end_of_log1 closed_frame1 0 log1 log1).
  - reflexivity.
  - vm_compute. split; discriminate.
  - reflexivity.
  - vm_compute. reflexivity.
Defined.

(** While no scan is open, a line that does not start one appends nothing,
    raises nothing and leaves the locals as they are. *)
Lemma Parse_line_idle_no_scan self fr raw off :
  scan_started fr = false -> no_scan_start raw ->
  last_offset self = Some off ->
  exists self',
    Parse_line self fr raw = Ok (self', fr) /\
    scan_list self' = scan_list self /\
    last_offset self' = Some (off + Py.len raw).
Proof.
  unfold no_scan_start. intros Hidle Hno Hoff.
  unfold Parse_line, Parse_branch. rewrite Hoff, Hidle. cbn [bind as_offset].
  unfold branch_of. rewrite !andb_false_r, !andb_true_r, Hno.
  destruct (matches SPEC_newheader _).
  - cbn [bind]. change (last_offset (set_init_motor_names_fh [] self))
      with (last_offset self). rewrite Hoff. cbn [bind as_offset].
    eexists. repeat split.
  - destruct (matches SPEC_initmoponames _).
    + cbn [bind].
      match goal with
      | |- context [as_offset (last_offset (set_init_motor_names_fh ?v self))] =>
          change (last_offset (set_init_motor_names_fh v self)) with (last_offset self)
      end.
      rewrite Hoff. cbn [bind as_offset]. eexists. repeat split.
    + cbn [bind]. rewrite Hoff. cbn [bind as_offset]. eexists. repeat split.
Qed.

Lemma Parse_lines_no_scan lines : forall self fr off,
  scan_started fr = false -> Forall no_scan_start lines ->
  last_offset self = Some off ->
  exists self',
    Parse_lines self fr lines = Ok (self', fr) /\
    scan_list self' = scan_list self.
Proof.
  induction lines as [|raw rest IH]; intros self fr off Hidle Hall Hoff.
  - exists self. split; reflexivity.
  - inversion Hall as [|? ? Hraw Hrest]; subst.
    destruct (Parse_line_idle_no_scan self fr raw off Hidle Hraw Hoff)
      as (self1 & H1 & Hs1 & Hl1).
    destruct (IH self1 fr _ Hidle Hrest Hl1) as (self' & H2 & Hs2).
    exists self'. cbn [Parse_lines]. rewrite H1. cbn [bind].
    split; [exact H2|]. rewrite Hs2. exact Hs1.
Qed.

Lemma parse_sequential_without_scan fuel dir self content :
  (1 <= fuel)%nat ->
  dir (file_format self (curr_scan_nb self)) = Some content ->
  last_offset self = Some 0 -> scan_list self = [] ->
  Forall no_scan_start (Py.iter_lines content) ->
  parse_sequential fuel dir self = Some (Raise IndexError).
Proof.
  intros Hfuel Hdir H0 Hempty Hall.
  destruct fuel as [|fuel]; [lia|].
  cbn [parse_sequential]. rewrite Hdir. unfold parse_file, Parse.
  change (full_filename (set_full_filename (file_format self (curr_scan_nb self)) self))
    with (file_format self (curr_scan_nb self)).
  rewrite Hdir.
  change (last_offset (set_full_filename (file_format self (curr_scan_nb self)) self))
    with (last_offset self).
  rewrite H0. cbn [seek Z.ltb Z.compare Z.to_nat Py.drop bind].
  destruct (Parse_lines_no_scan (Py.iter_lines content)
              (set_full_filename (file_format self (curr_scan_nb self)) self)
              frame0 0 eq_refl Hall H0) as (self' & HL & Hs).
  rewrite HL. cbn [bind]. rewrite Hs.
  change (scan_list (set_full_filename (file_format self (curr_scan_nb self)) self))
    with (scan_list self).
  rewrite Hempty. reflexivity.
Qed.

(** X3: a first discovery in sequential mode over a directory whose first
    file holds no line that starts a scan (an empty file, or a file with
    only its header and comments) does not return: the loop appends no
    record and line 614 raises [IndexError] on the empty list. *)
Theorem first_file_without_scan_raises :
  forall fuel dir filename path fmt start content,
    (1 <= fuel)%nat ->
    dir (fmt start) = Some content ->
    Forall no_scan_start (Py.iter_lines content) ->
    PalSpecFile_init fuel dir filename path fmt [] start
    = Some (Raise IndexError).
Proof.
  intros fuel dir filename path fmt start content Hfuel Hdir Hall.
  unfold PalSpecFile_init, parse_folders.
  change (scan_in_list (new_file filename path fmt [] start)) with (@nil Z).
  cbv iota.
  apply (parse_sequential_without_scan fuel dir _ content);
    try assumption; reflexivity.
Qed.

Lemma first_file_without_scan_raises_witness :
  PalSpecFile_init 1 (one_file "0000001_meta.log" log_no_scan)
    "pal" "data" default_file_format [] 1
  = Some (Raise IndexError).
Proof.
  apply (first_file_without_scan_raises 1
           (one_file "0000001_meta.log" log_no_scan)
           "pal" "data" default_file_format 1 log_no_scan).
  - lia.
  - reflexivity.
  - vm_compute. repeat constructor.
Defined.

Lemma fold_advance_cursor dir k : forall c acc self',
  (forall s, acc = Ok s -> curr_scan_nb s = c) ->
  fold_left (parse_and_advance dir) (scan_numbers c k) acc = Ok self' ->
  curr_scan_nb self' = c + Z.of_nat k.
Proof.
  induction k as [|k IH]; intros c acc self' Hacc H.
  - cbn [scan_numbers fold_left] in H. rewrite (Hacc _ H). lia.
  - cbn [scan_numbers fold_left] in H.
    assert (Hnext : forall s, parse_and_advance dir acc c = Ok s ->
                              curr_scan_nb s = c + 1).
    { intros s Hs. exact (parse_and_advance_cursor dir acc c s Hs). }
    rewrite (IH (c + 1) _ self' Hnext H). lia.
Qed.

(** X4: in sequential mode, when the files of [k] consecutive scan numbers
    from the cursor exist and the next one is missing, a discovery pass is
    the parse of these [k] files in increasing order, each followed by the
    move of the cursor to the next number; nothing else is parsed, and when
    the pass returns the cursor is on the missing number. *)
Theorem sequential_discovery_run :
  forall dir self fuel k,
    scan_in_list self = [] ->
    Forall (fun n => dir (file_format self n) <> None)
           (scan_numbers (curr_scan_nb self) k) ->
    dir (file_format self (curr_scan_nb self + Z.of_nat k)) = None ->
    (k < fuel)%nat ->
    parse_folders fuel dir self
    = Some (fold_left (parse_and_advance dir)
              (scan_numbers (curr_scan_nb self) k) (Ok self)) /\
    (forall self', parse_folders fuel dir self = Some (Ok self') ->
                   curr_scan_nb self' = curr_scan_nb self + Z.of_nat k).
Proof.
  intros dir self fuel k Hseq Hex Hmiss Hfuel.
  assert (Hrun : parse_folders fuel dir self
                 = Some (fold_left (parse_and_advance dir)
                           (scan_numbers (curr_scan_nb self) k) (Ok self))).
  { unfold parse_folders. rewrite Hseq.
    apply parse_sequential_run; assumption. }
  split; [exact Hrun|].
  intros self' H. rewrite Hrun in H. injection H as H.
  apply (fold_advance_cursor dir k _ (Ok self) self'); [|exact H].
  intros s Hs. injection Hs as <-. reflexivity.
Qed.

Lemma sequential_discovery_run_witness :
  parse_folders 4 five_files
    (set_curr_scan_nb 3 (new_file "pal" "data" default_file_format [] 1))
  = Some (fold_left (parse_and_advance five_files) (scan_numbers 3 3)
            (Ok (set_curr_scan_nb 3
                   (new_file "pal" "data" default_file_format [] 1)))) /\
  (forall self',
     parse_folders 4 five_files
       (set_curr_scan_nb 3 (new_file "pal" "data" default_file_format [] 1))
     = Some (Ok self') ->
     curr_scan_nb self' = 3 + Z.of_nat 3).
Proof.
  apply (sequential_discovery_run five_files
           (set_curr_scan_nb 3 (new_file "pal" "data" default_file_format [] 1))
           4 3).
  - reflexivity.
  - repeat constructor; discriminate.
  - reflexivity.
  - lia.
Defined.

Lemma parse_file_ext dir dir' n self :
  dir (file_format self n) = dir' (file_format self n) ->
  parse_file dir n self = parse_file dir' n self.
Proof.
  intros H. unfold parse_file, Parse.
  change (full_filename (set_full_filename (file_format self n) self))
    with (file_format self n).
  rewrite H. reflexivity.
Qed.

Lemma parse_sequential_ext fuel dir dir' : forall self,
  (forall n, curr_scan_nb self <= n ->
             dir (file_format self n) = dir' (file_format self n)) ->
  parse_sequential fuel dir self = parse_sequential fuel dir' self.
Proof.
  induction fuel as [|fuel IH]; intros self H; [reflexivity|].
  cbn [parse_sequential].
  rewrite <- (H (curr_scan_nb self) (Z.le_refl _)).
  destruct (dir (file_format self (curr_scan_nb self))); [|reflexivity].
  rewrite <- (parse_file_ext dir dir' _ self (H _ (Z.le_refl _))).
  destruct (parse_file dir (curr_scan_nb self) self) as [self1|] eqn:E; [|reflexivity].
  destruct (parse_file_spec _ _ _ _ E) as (Hc & Hf & _).
  apply IH. intros n Hn.
  change (file_format (set_curr_scan_nb (curr_scan_nb self1 + 1) self1))
    with (file_format self1).
  change (curr_scan_nb (set_curr_scan_nb (curr_scan_nb self1 + 1) self1))
    with (curr_scan_nb self1 + 1) in Hn.
  rewrite Hf. apply H. lia.
Qed.

(** X5: in sequential mode [Update] reads no file of a scan number below
    the cursor: two directories that agree on the files of the numbers from
    the cursor upwards give the same result, whatever the files of the
    earlier numbers have become. *)
Theorem Update_ignores_files_below_cursor :
  forall fuel dir dir' self,
    scan_in_list self = [] ->
    (forall n, curr_scan_nb self <= n ->
               dir (file_format self n) = dir' (file_format self n)) ->
    Update fuel dir self = Update fuel dir' self.
Proof.
  intros fuel dir dir' self Hseq H. unfold Update, parse_folders.
  change (scan_in_list (set_scan_list _ self)) with (scan_in_list self).
  rewrite Hseq. apply parse_sequential_ext. exact H.
Qed.

Lemma append_length a b :
  String.length (a ++ b) = (String.length a + String.length b)%nat.
Proof. induction a as [|c a IH]; cbn; [reflexivity|rewrite IH; reflexivity]. Qed.

Lemma append_cancel_r a : forall b s, a ++ s = b ++ s -> a = b.
Proof.
  induction a as [|c a IH]; intros [|d b] s H.
  - reflexivity.
  - apply (f_equal String.length) in H. cbn in H. rewrite append_length in H. lia.
  - apply (f_equal String.length) in H. cbn in H. rewrite append_length in H. lia.
  - cbn in H. injection H as -> H. f_equal. exact (IH _ _ H).
Qed.

Lemma digits_number_zero s : digits_number (String "0" s) = digits_number s.
Proof.
  unfold digits_number. cbn [NilEmpty.uint_of_string].
  destruct (NilEmpty.uint_of_string s); reflexivity.
Qed.

Lemma digits_number_zero_pad w s : digits_number (zero_pad w s) = digits_number s.
Proof.
  unfold zero_pad. induction (w - String.length s)%nat as [|k IH]; [reflexivity|].
  rewrite Nat.iter_succ, digits_number_zero. exact IH.
Qed.

Lemma digits_number_of_N n :
  digits_number (NilEmpty.string_of_uint (N.to_uint n)) = Some n.
Proof.
  unfold digits_number. rewrite NilEmpty.usu. cbn [option_map].
  rewrite DecimalN.Unsigned.of_to. reflexivity.
Qed.

Lemma digits_number_minus s : digits_number (String "-" s) = None.
Proof.
  unfold digits_number. cbn [NilEmpty.uint_of_string].
  destruct (NilEmpty.uint_of_string s); reflexivity.
Qed.

Lemma default_file_format_inj n m :
  default_file_format n = default_file_format m -> n = m.
Proof.
  intros H. unfold default_file_format in H.
  apply append_cancel_r in H.
  destruct (n <? 0) eqn:Hn; destruct (m <? 0) eqn:Hm.
  - injection H as H. apply (f_equal digits_number) in H.
    rewrite !digits_number_zero_pad, !digits_number_of_N in H.
    injection H as H. lia.
  - apply (f_equal digits_number) in H.
    rewrite digits_number_minus, digits_number_zero_pad, digits_number_of_N in H.
    discriminate H.
  - apply (f_equal digits_number) in H.
    rewrite digits_number_minus, digits_number_zero_pad, digits_number_of_N in H.
    discriminate H.
  - apply (f_equal digits_number) in H.
    rewrite !digits_number_zero_pad, !digits_number_of_N in H.
    injection H as H. lia.
Qed.

(** X6: the default template gives different file names to different scan
    numbers, so a discovery never takes the file of one scan for the file
    of another. *)
Theorem default_file_names_differ :
  forall n m, n <> m -> default_file_format n <> default_file_format m.
Proof. intros n m Hne H. apply Hne. exact (default_file_format_inj n m H). Qed.

Lemma default_file_names_differ_witness :
  default_file_format 1 <> default_file_format 2.
Proof. apply (default_file_names_differ 1 2). discriminate. Defined.

Lemma Update_ignores_files_below_cursor_witness :
  Update 2 (one_file "0000001_meta.log" log_cut) after_log_cut
  = Update 2 (one_file "0000001_meta.log" log_grown) after_log_cut.
Proof.
  apply (Update_ignores_files_below_cursor 2
           (one_file "0000001_meta.log" log_cut)
           (one_file "0000001_meta.log" log_grown) after_log_cut).
  - reflexivity.
  - intros n Hn. change (file_format after_log_cut) with default_file_format.
    change (curr_scan_nb after_log_cut) with 2 in Hn.
    unfold one_file.
    destruct (String.eqb_spec (default_file_format n) "0000001_meta.log") as [e|_];
      [|reflexivity].
    change "0000001_meta.log" with (default_file_format 1) in e.
    apply default_file_format_inj in e. lia.
Defined.

Lemma after_log_cut_is_discovery :
  PalSpecFile_init 2 (one_file "0000001_meta.log" log_cut)
    "pal" "data" default_file_format [] 1
  = Some (Ok after_log_cut).
Proof. vm_compute. reflexivity. Qed.

Lemma fold_listed_raise dir l e :
  fold_left (parse_listed_step dir) l (Raise e) = Raise e.
Proof. induction l as [|n l IH]; [reflexivity|exact IH]. Qed.

(** The list loop over numbers that never go below the cursor and whose
    files all exist. *)
Lemma parse_listed_run dir l : forall self,
  ascending_from (curr_scan_nb self) l ->
  Forall (fun n => dir (file_format self n) <> None) l ->
  parse_listed dir l self = fold_left (parse_listed_step dir) l (Ok self).
Proof.
  induction l as [|n l IH]; intros self Hasc Hex; [reflexivity|].
  destruct Hasc as (Hn & Hasc). inversion Hex as [|? ? Hhere Hrest]; subst.
  cbn [parse_listed fold_left].
  destruct (n >=? curr_scan_nb self) eqn:E; [|lia].
  change (file_format (set_curr_scan_nb n self)) with (file_format self).
  destruct (dir (file_format self n)); [|contradiction Hhere; reflexivity].
  unfold parse_listed_step at 2. cbn [bind].
  destruct (parse_file dir n (set_curr_scan_nb n self)) as [self1|e] eqn:Ep.
  - cbn [bind]. destruct (parse_file_spec _ _ _ _ Ep) as (Hc & Hf & _).
    apply IH.
    + rewrite Hc. exact Hasc.
    + rewrite Hf. exact Hrest.
  - cbn [bind]. rewrite fold_listed_raise. reflexivity.
Qed.

Lemma fold_listed_cursor dir l : forall c acc self',
  (forall s, acc = Ok s -> curr_scan_nb s = c) ->
  fold_left (parse_listed_step dir) l acc = Ok self' ->
  curr_scan_nb self' = last_number c l.
Proof.
  induction l as [|n l IH]; intros c acc self' Hacc H.
  - exact (Hacc _ H).
  - cbn [fold_left last_number] in *.
    apply (IH n (parse_listed_step dir acc n) self'); [|exact H].
    intros s Hs. unfold parse_listed_step in Hs.
    destruct acc as [s0|]; [|discriminate]. cbn [bind] in Hs.
    destruct (parse_file_spec _ _ _ _ Hs) as (Hc & _). exact Hc.
Qed.

(** X7: in list mode, when the listed numbers never go below the cursor
    nor below the number before them and their files all exist, a discovery
    pass parses the file of each listed number once, in the order of the
    list; when it returns the cursor is on the last listed number, not past
    it. *)
Theorem listed_discovery_run :
  forall fuel dir self n l,
    scan_in_list self = n :: l ->
    ascending_from (curr_scan_nb self) (n :: l) ->
    Forall (fun k => dir (file_format self k) <> None) (n :: l) ->
    parse_folders fuel dir self
    = Some (fold_left (parse_listed_step dir) (n :: l) (Ok self)) /\
    (forall self', parse_folders fuel dir self = Some (Ok self') ->
                   curr_scan_nb self' = last_number n l).
Proof.
  intros fuel dir self n l Hlist Hasc Hex.
  assert (Hrun : parse_folders fuel dir self
                 = Some (fold_left (parse_listed_step dir) (n :: l) (Ok self))).
  { unfold parse_folders. rewrite Hlist. f_equal.
    apply parse_listed_run; assumption. }
  split; [exact Hrun|].
  intros self' H. rewrite Hrun in H. injection H as H.
  apply (fold_listed_cursor dir (n :: l) (curr_scan_nb self) (Ok self) self');
    [|exact H].
  intros s Hs. injection Hs as <-. reflexivity.
Qed.

Lemma listed_discovery_run_witness :
  parse_folders 0 five_files (new_file "pal" "data" default_file_format [2; 4; 5] 1)
  = Some (fold_left (parse_listed_step five_files) [2; 4; 5]
            (Ok (new_file "pal" "data" default_file_format [2; 4; 5] 1))) /\
  (forall self',
     parse_folders 0 five_files
       (new_file "pal" "data" default_file_format [2; 4; 5] 1) = Some (Ok self') ->
     curr_scan_nb self' = last_number 2 [4; 5]).
Proof.
  apply (listed_discovery_run 0 five_files
           (new_file "pal" "data" default_file_format [2; 4; 5] 1) 2 [4; 5]).
  - reflexivity.
  - cbn. lia.
  - repeat constructor; discriminate.
Defined.

Lemma parse_listed_cursor dir l : forall self self',
  parse_listed dir l self = Ok self' -> curr_scan_nb self <= curr_scan_nb self'.
Proof.
  induction l as [|n l IH]; intros self self' H.
  - injection H as <-. lia.
  - cbn [parse_listed] in H.
    destruct (n >=? curr_scan_nb self) eqn:E; [|apply IH; exact H].
    change (file_format (set_curr_scan_nb n self)) with (file_format self) in H.
    destruct (dir (file_format self n)).
    + destruct (parse_file dir n (set_curr_scan_nb n self)) as [self1|] eqn:Ep;
        [|discriminate].
      cbn [bind] in H. destruct (parse_file_spec _ _ _ _ Ep) as (Hc & _).
      specialize (IH _ _ H). rewrite Hc in IH.
      change (curr_scan_nb (set_curr_scan_nb n self)) with n in IH. lia.
    + injection H as <-.
      change (curr_scan_nb (set_curr_scan_nb n self)) with n. lia.
Qed.

Lemma parse_sequential_cursor dir fuel : forall self self',
  parse_sequential fuel dir self = Some (Ok self') ->
  curr_scan_nb self <= curr_scan_nb self'.
Proof.
  induction fuel as [|fuel IH]; intros self self' H; [discriminate|].
  cbn [parse_sequential] in H.
  destruct (dir (file_format self (curr_scan_nb self))).
  - destruct (parse_file dir (curr_scan_nb self) self) as [self1|] eqn:E;
      [|discriminate].
    destruct (parse_file_spec _ _ _ _ E) as (Hc & _).
    specialize (IH _ _ H).
    change (curr_scan_nb (set_curr_scan_nb (curr_scan_nb self1 + 1) self1))
      with (curr_scan_nb self1 + 1) in IH. lia.
  - injection H as <-. lia.
Qed.

(** X8: a discovery pass that returns, in either mode and from [Update] as
    well, never moves the scan cursor backwards, and it keeps every record
    that was in the list, in place (the last one marked as changed by
    [Update]), adding records only after them. *)
Theorem Update_keeps_cursor_and_records :
  forall fuel dir self self',
    Update fuel dir self = Some (Ok self') ->
    curr_scan_nb self <= curr_scan_nb self' /\
    exists new,
      scan_list self' = (mark_last_changed (scan_list self) ++ new)%list.
Proof.
  intros fuel dir self self' H. split.
  - unfold Update, parse_folders in H.
    change (scan_in_list (set_scan_list _ self)) with (scan_in_list self) in H.
    destruct (scan_in_list self) as [|n l].
    + apply parse_sequential_cursor in H. exact H.
    + apply (parse_listed_cursor dir (n :: l)
               (set_scan_list (mark_last_changed (scan_list self)) self)).
      congruence.
  - exact (Update_only_appends fuel dir self self' H).
Qed.

Lemma Update_keeps_cursor_and_records_witness :
  curr_scan_nb after_log_cut
  <= curr_scan_nb
       (set_scan_list (mark_last_changed (scan_list after_log_cut)) after_log_cut) /\
  exists new,
    scan_list
      (set_scan_list (mark_last_changed (scan_list after_log_cut)) after_log_cut)
    = (mark_last_changed (scan_list after_log_cut) ++ new)%list.
Proof.
  apply (Update_keeps_cursor_and_records 2
           (one_file "0000001_meta.log" log_grown) after_log_cut).
  vm_compute. reflexivity.
Defined.

Lemma mark_last_changed_twice l :
  mark_last_changed (mark_last_changed l) = mark_last_changed l.
Proof.
  induction l as [|s l IH]; [reflexivity|].
  destruct l as [|b l]; [reflexivity|].
  change (mark_last_changed (s :: b :: l)) with (s :: mark_last_changed (b :: l)).
  destruct (mark_last_changed (b :: l)) as [|b' l'] eqn:E.
  - destruct l; discriminate E.
  - change (mark_last_changed (s :: b' :: l')) with (s :: mark_last_changed (b' :: l')).
    rewrite IH. reflexivity.
Qed.

(** X9: in sequential mode, while no file exists for the scan number at
    the cursor, [Update] returns the object with nothing changed but the
    changed flag of the last record, and a second [Update] returns that
    object again: repeated updates do not add or duplicate records. *)
Theorem Update_sequential_idempotent :
  forall fuel dir self,
    (1 <= fuel)%nat ->
    scan_in_list self = [] ->
    dir (file_format self (curr_scan_nb self)) = None ->
    exists self1,
      Update fuel dir self = Some (Ok self1) /\
      scan_list self1 = mark_last_changed (scan_list self) /\
      curr_scan_nb self1 = curr_scan_nb self /\
      Update fuel dir self1 = Some (Ok self1).
Proof.
  intros fuel dir self Hfuel Hseq Hnone.
  exists (set_scan_list (mark_last_changed (scan_list self)) self).
  split; [apply Update_nothing_new; assumption|].
  split; [reflexivity|]. split; [reflexivity|].
  rewrite Update_nothing_new; try assumption.
  change (scan_list (set_scan_list (mark_last_changed (scan_list self)) self))
    with (mark_last_changed (scan_list self)).
  rewrite mark_last_changed_twice. reflexivity.
Qed.

Lemma Update_sequential_idempotent_witness :
  exists self1,
    Update 1 (one_file "0000001_meta.log" log_grown) after_log_cut = Some (Ok self1) /\
    scan_list self1 = mark_last_changed (scan_list after_log_cut) /\
    curr_scan_nb self1 = curr_scan_nb after_log_cut /\
    Update 1 (one_file "0000001_meta.log" log_grown) self1 = Some (Ok self1).
Proof.
  apply (Update_sequential_idempotent 1
           (one_file "0000001_meta.log" log_grown) after_log_cut).
  - lia.
  - reflexivity.
  - reflexivity.
Defined.

(** The header loop never ends when the data offset lies beyond what is
    left of the file. *)
Lemma read_header_stuck fuel : forall pos doff rest hdr,
  pos + Py.len rest < doff ->
  read_header fuel pos doff rest hdr = None.
Proof.
  induction fuel as [|fuel IH]; intros pos doff rest hdr H;
    pose proof (len_nonneg rest) as Hrest;
    cbn [read_header]; destruct (pos <? doff) eqn:E; try lia; [reflexivity|].
  destruct (readline_len rest) as (Hsum & _).
  destruct (Py.readline rest) as [line rest'] eqn:Er. cbn [fst snd] in Hsum.
  apply IH. lia.
Qed.

(** X10: when the data offset of a scan that is not NODATA lies beyond the
    end of its file (the file has become shorter since it was parsed),
    [ReadData] never comes back: the header loop of lines 66-68 reads empty
    lines at the end of the file for ever, whatever the fuel. *)
Theorem ReadData_loops_on_short_file :
  forall fromrecords fuel dir s content d,
    Scan.scan_status s <> NODATA ->
    dir (Scan.fname s) = Some content ->
    0 <= Scan.hoffset s < d ->
    Scan.doffset s = Some d ->
    Py.len content < d ->
    ReadData fromrecords fuel dir s = None.
Proof.
  intros fromrecords fuel dir s content d Hst Hdir Hh Hd Hshort.
  unfold ReadData.
  destruct (status_eqb (Scan.scan_status s) NODATA) eqn:E.
  { destruct (Scan.scan_status s); try discriminate. contradiction Hst; reflexivity. }
  rewrite Hdir. unfold seek.
  destruct (Scan.hoffset s <? 0) eqn:E1; [lia|].
  change (Scan.doffset (Scan.set_header [] s)) with (Scan.doffset s).
  rewrite Hd.
  change (Scan.hoffset (Scan.set_header [] s)) with (Scan.hoffset s).
  rewrite read_header_stuck; [reflexivity|].
  destruct (len_drop (Z.to_nat (Scan.hoffset s)) content) as [Hl|[Hl Hle]].
  - rewrite Hl. lia.
  - rewrite Hl, len_empty. lia.
Qed.

Lemma ReadData_loops_on_short_file_witness :
  ReadData accept_all 1000 (one_file "0000001_meta.log" (text header1)) scan1
  = None.
Proof.
  apply (ReadData_loops_on_short_file accept_all 1000
           (one_file "0000001_meta.log" (text header1)) scan1 (text header1) 87).
  - discriminate.
  - reflexivity.
  - cbn. lia.
  - reflexivity.
  - vm_compute. reflexivity.
Defined.

Ltac branch_cases H :=
  unfold branch_of in H;
  repeat match type of H with
         | (if ?c then _ else _) = _ => destruct c eqn:?
         end;
  try discriminate H.

Lemma branch_cmd_matches st line :
  branch_of st line = B_cmd -> matches SPEC_cmd line = true.
Proof.
  intros H. branch_cases H.
  match goal with E : (matches SPEC_cmd line && _)%bool = true |- _ =>
    apply andb_prop in E; exact (proj1 E) end.
Qed.

Lemma branch_datetime_matches st line :
  branch_of st line = B_datetime -> matches SPEC_datetime line = true.
Proof.
  intros H. branch_cases H.
  match goal with E : (matches SPEC_datetime line && _)%bool = true |- _ =>
    apply andb_prop in E; exact (proj1 E) end.
Qed.

Lemma branch_colnames_matches st line :
  branch_of st line = B_colnames -> matches SPEC_colnames line = true.
Proof.
  intros H. branch_cases H.
  match goal with E : (matches SPEC_colnames line && _)%bool = true |- _ =>
    apply andb_prop in E; exact (proj1 E) end.
Qed.

(** The check for repeated names on a column line that repeats a name, and
    the records of two scans that share the line. *)
Example repeated_column_names_renamed :
  Scan.rename_repeated ["th"; "th"; "det"; "th"] = ["th"; "th_1"; "det"; "th_3"] /\
  (self <- Parse (one_file "0000001_meta.log" log_repeated_columns) at_scan1 ;;
   Ok (map Scan.colnames (scan_list self)))
  = Ok [ ["th"; "th_1"; "det"; "th_3"]; ["th"; "th_1"; "det"; "th_3"] ].
Proof. split; vm_compute; reflexivity. Qed.




(** Only the command line assigns the command, only the date line the
    date, only the column line the list of column names, which the
    constructor of a record may rename in place; a record takes the three
    from the locals. *)
Lemma Parse_branch_header self fr line off self' fr' :
  Parse_branch self fr line off = Ok (self', fr') ->
  (matches SPEC_cmd line = false -> scancmd fr' = scancmd fr) /\
  (matches SPEC_datetime line = false -> date fr' = date fr) /\
  (matches SPEC_colnames line = false ->
   col_names fr' = col_names fr \/
   col_names fr' = option_map Scan.rename_repeated (col_names fr)) /\
  exists new,
    scan_list self' = (scan_list self ++ new)%list /\
    Forall (header_of fr) new.
Proof.
  unfold Parse_branch. intros H.
  destruct (branch_of (scan_started fr) line) eqn:Hb;
    cbn [bind] in H; unbind H; ok_inj.
  all: try (split; [reflexivity|]; split; [reflexivity|];
            split; [intros _; left; reflexivity|];
            exists []; rewrite app_nil_r; split; [reflexivity|constructor];
            fail).
  - (* command *)
    apply branch_cmd_matches in Hb.
    split; [intros Hn; congruence|]. split; [reflexivity|].
    split; [intros _; left; reflexivity|].
    exists []; rewrite app_nil_r; split; [reflexivity|constructor].
  - (* date *)
    apply branch_datetime_matches in Hb.
    split; [reflexivity|]. split; [intros Hn; congruence|].
    split; [intros _; left; reflexivity|].
    exists []; rewrite app_nil_r; split; [reflexivity|constructor].
  - (* column names *)
    apply branch_colnames_matches in Hb.
    split; [reflexivity|]. split; [reflexivity|].
    split; [intros Hn; congruence|].
    exists []; rewrite app_nil_r; split; [reflexivity|constructor].
  - (* an abort notice *)
    split; [reflexivity|]. split; [reflexivity|].
    split; [intros _; right; reflexivity|].
    exists [a]. split; [reflexivity|]. constructor; [|constructor].
    destruct (new_scan_fields _ _ _ _ _ E) as (_ & _ & _ & Hc & Hd & Hcol & _).
    repeat split; assumption.
  - (* the first data line *)
    split; [reflexivity|]. split; [reflexivity|].
    split; [intros _; right; reflexivity|].
    exists [a1]. split; [reflexivity|]. constructor; [|constructor].
    destruct (new_scan_fields _ _ _ _ _ E0) as (_ & _ & _ & Hc & Hd & Hcol & _).
    destruct (dataline_scan _ _ _ _ _ _ E0 E1)
      as (_ & _ & _ & _ & Hc' & Hd' & Hcol' & _).
    unfold header_of. rewrite Hc', Hd', Hcol'. repeat split; assumption.
  - (* a scan header while a scan is open *)
    split; [reflexivity|]. split; [reflexivity|].
    split; [intros _; right; reflexivity|].
    exists [a]. split; [reflexivity|]. constructor; [|constructor].
    destruct (new_scan_fields _ _ _ _ _ E) as (_ & _ & _ & Hc & Hd & Hcol & _).
    repeat split; assumption.
Qed.

Lemma Parse_line_header self fr raw self' fr' :
  Parse_line self fr raw = Ok (self', fr') ->
  let line := Py.strip (Py.decode_ascii_ignore raw) in
  (matches SPEC_cmd line = false -> scancmd fr' = scancmd fr) /\
  (matches SPEC_datetime line = false -> date fr' = date fr) /\
  (matches SPEC_colnames line = false ->
   col_names fr' = col_names fr \/
   col_names fr' = option_map Scan.rename_repeated (col_names fr)) /\
  exists new,
    scan_list self' = (scan_list self ++ new)%list /\
    Forall (header_of fr) new.
Proof.
  unfold Parse_line. intros H.
  destruct (as_offset (last_offset self)) as [off|]; [|discriminate]. cbn [bind] in H.
  destruct (Parse_branch self fr _ off) as [[self1 fr1]|] eqn:E; [|discriminate].
  cbn [bind] in H.
  destruct (as_offset (last_offset self1)) as [off1|]; [|discriminate].
  cbn [bind] in H. injection H as <- <-.
  exact (Parse_branch_header _ _ _ _ _ _ E).
Qed.

Lemma renamed_again k (x y : option (list string)) :
  y = x \/ y = option_map Scan.rename_repeated x ->
  exists k', option_map (Nat.iter k Scan.rename_repeated) y
             = option_map (Nat.iter k' Scan.rename_repeated) x.
Proof.
  intros [H|H]; subst y; [exists k; reflexivity|].
  exists (S k). destruct x as [l|]; [|reflexivity].
  cbn [option_map]. rewrite Nat.iter_succ_r. reflexivity.
Qed.

(** Over lines without a command line the records appended carry the
    command the local held at the start, and likewise the date and the
    list of column names, the latter checked for repeated names once or
    more. *)
Lemma Parse_lines_header_each lines : forall self fr self' fr',
  Parse_lines self fr lines = Ok (self', fr') ->
  exists new,
    scan_list self' = (scan_list self ++ new)%list /\
    (lacks SPEC_cmd lines ->
     Forall (fun s => Some (Scan.command s) = scancmd fr) new) /\
    (lacks SPEC_datetime lines ->
     Forall (fun s => Some (Scan.date s) = date fr) new) /\
    (lacks SPEC_colnames lines ->
     Forall (fun s => exists k,
                 Some (Scan.colnames s)
                 = option_map (Nat.iter k Scan.rename_repeated) (col_names fr))
            new).
Proof.
  induction lines as [|raw rest IH]; intros self fr self' fr' H.
  - injection H as <- <-. exists []. rewrite app_nil_r.
    split; [reflexivity|]. repeat split; intros; constructor.
  - cbn [Parse_lines] in H.
    destruct (Parse_line self fr raw) as [[self1 fr1]|] eqn:E; [|discriminate].
    cbn [bind] in H.
    destruct (Parse_line_header _ _ _ _ _ E) as (Kc & Kd & Kcol & new1 & Hs1 & Hf1).
    destruct (IH _ _ _ _ H) as (new2 & Hs2 & Gc & Gd & Gcol).
    exists (new1 ++ new2)%list. split.
    + rewrite Hs2, Hs1, app_assoc. reflexivity.
    + split; [|split]; intros L; inversion L as [|? ? L1 L2]; subst;
        apply Forall_app; split.
      * eapply Forall_impl; [|exact Hf1]. intros s (K & _). exact K.
      * rewrite <- (Kc L1). exact (Gc L2).
      * eapply Forall_impl; [|exact Hf1]. intros s (_ & K & _). exact K.
      * rewrite <- (Kd L1). exact (Gd L2).
      * eapply Forall_impl; [|exact Hf1]. intros s (_ & _ & K). exists 1%nat. exact K.
      * eapply Forall_impl; [|exact (Gcol L2)]. intros s (k & K).
        destruct (renamed_again k _ _ (Kcol L1)) as (k' & Hk').
        exists k'. rewrite K. exact Hk'.
Qed.



Lemma Forall_none_nil {A B} (f : A -> B) (l : list A) :
  Forall (fun s => Some (f s) = None) l -> l = [].
Proof. destruct l as [|a l]; [reflexivity|]. intros H. inversion H. discriminate. Qed.

Lemma Forall_none_nil_ex {A B C} (f : A -> B) (g : C -> B -> B) (l : list A) :
  Forall (fun s => exists k, Some (f s) = option_map (g k) None) l -> l = [].
Proof.
  destruct l as [|a l]; [reflexivity|]. intros H. inversion H as [|? ? (k & K) ?].
  discriminate K.
Qed.

(** X12: the command line, the date line and the column line are all
    needed before a record can be built: a first parse pass (the scan list
    empty) over a file that has no command line, or no date line, or no
    column line, never returns; it raises where a scan would be closed, or
    at line 614 on the empty list. *)
Theorem Parse_needs_header_lines :
  forall dir self content off r,
    dir (full_filename self) = Some content ->
    last_offset self = Some off -> 0 <= off ->
    scan_list self = [] ->
    r = SPEC_cmd \/ r = SPEC_datetime \/ r = SPEC_colnames ->
    lacks r (Py.iter_lines (Py.drop (Z.to_nat off) content)) ->
    exists e, Parse dir self = Raise e.
Proof.
  intros dir self content off r Hdir Hoff H0 Hempty Hr Hlacks.
  unfold Parse. rewrite Hdir, Hoff. unfold seek.
  destruct (off <? 0) eqn:Hneg; [lia|]. cbn [bind].
  destruct (Parse_lines self frame0 _) as [[self1 fr1]|e] eqn:E;
    [|exists e; reflexivity].
  cbn [bind].
  destruct (Parse_lines_header_each _ _ _ _ _ E) as (new & Hs & Gc & Gd & Gcol).
  assert (new = []) as ->.
  { destruct Hr as [Hr|[Hr|Hr]]; subst r.
    - exact (Forall_none_nil _ _ (Gc Hlacks)).
    - exact (Forall_none_nil _ _ (Gd Hlacks)).
    - exact (Forall_none_nil_ex _ _ _ (Gcol Hlacks)). }
  rewrite Hs, Hempty. exists IndexError. reflexivity.
Qed.

Lemma Parse_needs_header_lines_witness :
  exists e, Parse (one_file "0000001_meta.log" log_no_cmd) at_scan1 = Raise e.
Proof.
  apply (Parse_needs_header_lines (one_file "0000001_meta.log" log_no_cmd)
           at_scan1 log_no_cmd 0 SPEC_cmd).
  - reflexivity.
  - reflexivity.
  - lia.
  - reflexivity.
  - left; reflexivity.
  - vm_compute. repeat constructor.
Defined.

Example Parse_log_no_cmd :
  after_pass (Parse (one_file "0000001_meta.log" log_no_cmd) at_scan1)
  = Raise UnboundLocalError.
Proof. vm_compute. reflexivity. Qed.

Lemma app_one_neq {A} (l : list A) (x : A) : (l ++ [x])%list <> l.
Proof.
  intros H. rewrite <- (app_nil_r l) in H at 2.
  apply app_inv_head in H. discriminate H.
Qed.

Lemma branch_dataline_matches st line :
  branch_of st line = B_dataline -> matches SPEC_dataline line = true.
Proof.
  intros H. branch_cases H.
  match goal with E : (matches SPEC_dataline line && _)%bool = true |- _ =>
    apply andb_prop in E; exact (proj1 E) end.
Qed.

Lemma dataline_not_header line :
  matches SPEC_dataline line = true -> matches SPEC_headerline line = false.
Proof.
  destruct line as [|a rest]; [reflexivity|].
  destruct (Ascii.eqb_spec "#" a) as [<-|Hne]; [discriminate|].
  intros _. unfold matches. cbn -[Ascii.eqb].
  destruct (Ascii.eqb_spec "#" a); [contradiction|reflexivity].
Qed.

(** A line appends one record at most; a record with status OK comes from
    a data line, takes the running offset as data offset and leaves no scan
    open. *)
Lemma Parse_branch_append self fr line off self' fr' :
  Parse_branch self fr line off = Ok (self', fr') ->
  scan_list self' = scan_list self \/
  exists s,
    scan_list self' = (scan_list self ++ [s])%list /\
    (Scan.scan_status s = OK ->
     matches SPEC_dataline line = true /\ Scan.doffset s = Some off /\
     scan_started fr' = false).
Proof.
  unfold Parse_branch. intros H.
  destruct (branch_of (scan_started fr) line) eqn:Hb;
    cbn [bind] in H; unbind H; ok_inj.
  all: try (left; reflexivity).
  - right. exists a. split; [reflexivity|]. intros Hs.
    destruct (new_scan_fields _ _ _ _ _ E) as (_ & _ & _ & _ & _ & _ & _ & Hst).
    rewrite Hst in Hs. discriminate Hs.
  - right. exists a1. split; [reflexivity|]. intros _.
    destruct (new_scan_fields _ _ _ _ _ E0) as (_ & _ & _ & _ & _ & _ & Hd & _).
    destruct (dataline_scan _ _ _ _ _ _ E0 E1)
      as (_ & _ & _ & _ & _ & _ & _ & Hd' & _).
    split; [exact (branch_dataline_matches _ _ Hb)|].
    split; [rewrite Hd'; exact Hd|reflexivity].
  - right. exists a. split; [reflexivity|]. intros Hs.
    destruct (new_scan_fields _ _ _ _ _ E) as (_ & _ & _ & _ & _ & _ & _ & Hst).
    rewrite Hst in Hs. discriminate Hs.
Qed.

Lemma Parse_line_append self fr raw off self' fr' :
  Parse_line self fr raw = Ok (self', fr') ->
  last_offset self = Some off ->
  scan_list self' = scan_list self \/
  exists s,
    scan_list self' = (scan_list self ++ [s])%list /\
    (Scan.scan_status s = OK ->
     ignored_when_idle raw /\ Scan.doffset s = Some off /\
     scan_started fr' = false).
Proof.
  unfold Parse_line. intros H Hoff. rewrite Hoff in H. cbn [bind as_offset] in H.
  destruct (Parse_branch self fr _ off) as [[self1 fr1]|] eqn:E; [|discriminate].
  cbn [bind] in H.
  destruct (as_offset (last_offset self1)) as [off1|]; [|discriminate].
  cbn [bind] in H. injection H as <- <-.
  change (scan_list (set_last_offset (Some (off1 + Py.len raw)) self1))
    with (scan_list self1).
  destruct (Parse_branch_append _ _ _ _ _ _ E) as [Hno|(s & Hs & Hok)];
    [left; exact Hno|].
  right. exists s. split; [exact Hs|]. intros Hst.
  destruct (Hok Hst) as (Hm & Hd & Hidle).
  split; [|split; assumption].
  apply not_header_ignored_when_idle. apply dataline_not_header. exact Hm.
Qed.

(** Two runs of the chain on the same line, with a scan open in both or in
    neither: when the first returns and appends nothing, so does the
    second, and they agree on whether a scan is open afterwards. *)
Lemma Parse_branch_sim selfA frA selfB frB line offA offB selfA' frA' :
  scan_started frA = scan_started frB ->
  Parse_branch selfA frA line offA = Ok (selfA', frA') ->
  scan_list selfA' = scan_list selfA ->
  exists selfB' frB',
    Parse_branch selfB frB line offB = Ok (selfB', frB') /\
    scan_list selfB' = scan_list selfB /\
    last_offset selfB' = last_offset selfB /\
    full_filename selfB' = full_filename selfB /\
    scan_started frB' = scan_started frA'.
Proof.
  unfold Parse_branch. intros Hst H Hno. rewrite <- Hst.
  destruct (branch_of (scan_started frA) line) eqn:Hb;
    cbn [bind] in H; unbind H; ok_inj.
  all: try (exfalso; revert Hno; apply app_one_neq).
  all: eexists; eexists; split;
    [ repeat first [ rewrite E | rewrite E0 | rewrite E1 | rewrite E2
                   | rewrite E3 | rewrite E4 | progress cbn [bind] ];
      reflexivity
    | repeat split; try reflexivity; symmetry; exact Hst ].
Qed.

Lemma Parse_line_sim selfA frA selfB frB raw offA offB selfA' frA' :
  scan_started frA = scan_started frB ->
  last_offset selfA = Some offA -> last_offset selfB = Some offB ->
  Parse_line selfA frA raw = Ok (selfA', frA') ->
  scan_list selfA' = scan_list selfA ->
  exists selfB' frB',
    Parse_line selfB frB raw = Ok (selfB', frB') /\
    scan_list selfB' = scan_list selfB /\
    last_offset selfB' = Some (offB + Py.len raw) /\
    full_filename selfB' = full_filename selfB /\
    scan_started frA' = scan_started frB'.
Proof.
  unfold Parse_line. intros Hst HoA HoB H Hno.
  rewrite HoA in H. rewrite HoB. cbn [bind as_offset] in *.
  destruct (Parse_branch selfA frA _ offA) as [[selfA1 frA1]|] eqn:E; [|discriminate].
  cbn [bind] in H.
  destruct (as_offset (last_offset selfA1)) as [off1|]; [|discriminate].
  cbn [bind] in H. injection H as <- <-.
  change (scan_list (set_last_offset (Some (off1 + Py.len raw)) selfA1))
    with (scan_list selfA1) in Hno.
  destruct (Parse_branch_sim selfA frA selfB frB _ offA offB _ _ Hst E Hno)
    as (selfB1 & frB1 & HB & Hs & Hl & Hf & Hst').
  rewrite HB. cbn [bind]. rewrite Hl, HoB. cbn [bind as_offset].
  eexists; eexists. split; [reflexivity|].
  repeat split; try assumption. symmetry. exact Hst'.
Qed.

(** Two runs of the loop over the same lines, with a scan open in both or
    in neither: when the first returns and appends nothing, so does the
    second. *)
Lemma Parse_lines_sim lines : forall selfA frA selfB frB offA offB selfA' frA',
  scan_started frA = scan_started frB ->
  last_offset selfA = Some offA -> last_offset selfB = Some offB ->
  Parse_lines selfA frA lines = Ok (selfA', frA') ->
  scan_list selfA' = scan_list selfA ->
  exists selfB' frB',
    Parse_lines selfB frB lines = Ok (selfB', frB') /\
    scan_list selfB' = scan_list selfB /\
    full_filename selfB' = full_filename selfB.
Proof.
  induction lines as [|raw rest IH];
    intros selfA frA selfB frB offA offB selfA' frA' Hst HoA HoB H Hno.
  - exists selfB, frB. repeat split.
  - cbn [Parse_lines] in H.
    destruct (Parse_line selfA frA raw) as [[selfA1 frA1]|] eqn:E; [|discriminate].
    cbn [bind] in H.
    destruct (Parse_line_spec _ _ _ _ _ _ E HoA) as (_ & Hl1 & new1 & Hs1 & _).
    destruct (Parse_lines_spec _ _ _ _ _ _ H Hl1) as (_ & _ & new2 & Hs2 & _).
    assert (new1 = [] /\ new2 = []) as (-> & ->).
    { rewrite Hs1, <- app_assoc in Hs2. rewrite Hs2 in Hno.
      rewrite <- (app_nil_r (scan_list selfA)) in Hno at 2.
      apply app_inv_head in Hno. apply app_eq_nil in Hno. exact Hno. }
    rewrite app_nil_r in Hs1, Hs2.
    destruct (Parse_line_sim selfA frA selfB frB raw offA offB _ _ Hst HoA HoB E Hs1)
      as (selfB1 & frB1 & HB & HsB & HlB & HfB & Hst1).
    destruct (IH _ _ selfB1 frB1 _ _ _ _ Hst1 Hl1 HlB H Hs2)
      as (selfB' & frB' & HB' & HsB' & HfB').
    exists selfB', frB'. cbn [Parse_lines]. rewrite HB. cbn [bind].
    split; [exact HB'|]. split; congruence.
Qed.

(** The line that appended the last record of a run of the loop. *)
Lemma last_append lines : forall self fr off selfE frE pre s,
  Parse_lines self fr lines = Ok (selfE, frE) ->
  last_offset self = Some off ->
  scan_list selfE = (pre ++ [s])%list ->
  scan_list selfE <> scan_list self ->
  exists A c R selfA frA selfC frC,
    lines = (A ++ c :: R)%list /\
    Parse_lines self fr A = Ok (selfA, frA) /\
    Parse_line selfA frA c = Ok (selfC, frC) /\
    scan_list selfC = (scan_list selfA ++ [s])%list /\
    (Scan.scan_status s = OK ->
     ignored_when_idle c /\ Scan.doffset s = Some (off + total_len A) /\
     scan_started frC = false) /\
    Parse_lines selfC frC R = Ok (selfE, frE) /\
    scan_list selfE = scan_list selfC.
Proof.
  induction lines as [|raw rest IH]; intros self fr off selfE frE pre s H Hoff Hpre Hne.
  - injection H as <- <-. contradiction Hne. reflexivity.
  - cbn [Parse_lines] in H.
    destruct (Parse_line self fr raw) as [[self1 fr1]|] eqn:E; [|discriminate].
    cbn [bind] in H.
    destruct (Parse_line_spec _ _ _ _ _ _ E Hoff) as (_ & Hl1 & _).
    destruct (Parse_lines_spec _ _ _ _ _ _ H Hl1) as (_ & _ & new2 & Hs2 & _).
    destruct new2 as [|x new2].
    + (* nothing after this line: this line appended the record *)
      rewrite app_nil_r in Hs2.
      destruct (Parse_line_append _ _ _ _ _ _ E Hoff) as [Hno|(s1 & Hs1 & Hok)].
      * contradiction Hne. congruence.
      * assert (s1 = s) as ->.
        { rewrite Hs2, Hs1 in Hpre. apply app_inj_tail in Hpre. exact (proj2 Hpre). }
        exists [], raw, rest, self, fr, self1, fr1.
        cbn [app total_len fold_right]. rewrite Z.add_0_r.
        split; [reflexivity|]. split; [reflexivity|]. split; [exact E|].
        split; [exact Hs1|]. split; [exact Hok|]. split; [exact H|exact Hs2].
    + (* the record was appended later *)
      destruct (IH self1 fr1 _ selfE frE pre s H Hl1 Hpre)
        as (A & c & R & selfA & frA & selfC & frC & HA & HPA & HPc & HsC & Hok & HR & HsE).
      { rewrite Hs2. intros Heq. rewrite <- (app_nil_r (scan_list self1)) in Heq at 2.
        apply app_inv_head in Heq. discriminate Heq. }
      exists (raw :: A), c, R, selfA, frA, selfC, frC.
      cbn [app Parse_lines]. rewrite E. cbn [bind].
      split; [rewrite HA; reflexivity|]. split; [exact HPA|].
      split; [exact HPc|]. split; [exact HsC|]. split; [|split; assumption].
      intros Hst. destruct (Hok Hst) as (Hi & Hd & Hc).
      split; [exact Hi|]. split; [|exact Hc]. rewrite Hd.
      cbn [total_len fold_right]. fold (total_len A). f_equal. lia.
Qed.

Lemma iter_lines_nil X : Py.iter_lines X = [] -> X = EmptyString.
Proof.
  destruct X as [|a X]; [reflexivity|].
  cbn [Py.iter_lines]. destruct (Ascii.eqb a Py.newline); [discriminate|].
  destruct (Py.iter_lines X); discriminate.
Qed.

(** The first line of a file is what [readline] returns, and the other
    lines are those of what [readline] leaves. *)
Lemma readline_iter_lines X : forall l rest,
  Py.iter_lines X = l :: rest ->
  Py.readline X = (l, Py.drop (String.length l) X) /\
  Py.iter_lines (Py.drop (String.length l) X) = rest.
Proof.
  induction X as [|a X IH]; intros l rest H; [discriminate H|].
  cbn [Py.iter_lines Py.readline] in *. destruct (Ascii.eqb a Py.newline).
  - injection H as <- <-. split; reflexivity.
  - destruct (Py.iter_lines X) as [|l' ls] eqn:E.
    + injection H as <- <-. apply iter_lines_nil in E. subst X.
      split; reflexivity.
    + injection H as <- <-. cbn [String.length Py.drop].
      destruct (IH l' ls eq_refl) as (Hr & Hi). rewrite Hr.
      split; [reflexivity|exact Hi].
Qed.

Lemma drop_add n : forall m s, Py.drop (n + m) s = Py.drop m (Py.drop n s).
Proof.
  induction n as [|n IH]; intros m s; [reflexivity|].
  destruct s as [|a s]; cbn [Nat.add Py.drop].
  - destruct m; reflexivity.
  - apply IH.
Qed.

(** Seeking past the first lines of a file gives the lines that follow. *)
Lemma iter_lines_drop A : forall X B,
  Py.iter_lines X = (A ++ B)%list ->
  Py.iter_lines (Py.drop (Z.to_nat (total_len A)) X) = B.
Proof.
  induction A as [|l A IH]; intros X B H; [exact H|].
  cbn [total_len fold_right]. fold (total_len A).
  pose proof (len_nonneg l). pose proof (total_len_nonneg A).
  rewrite Z2Nat.inj_add by assumption. unfold Py.len at 1. rewrite Nat2Z.id.
  rewrite drop_add. apply IH.
  exact (proj2 (readline_iter_lines X l (A ++ B)%list H)).
Qed.

Lemma last_item_last {A} (l : list A) (x : A) : last_item (l ++ [x]) = Ok x.
Proof.
  induction l as [|a l IH]; [reflexivity|].
  cbn [app]. destruct (l ++ [x])%list eqn:E; [destruct l; discriminate E|].
  exact IH.
Qed.

(** X13: when a pass of [Parse] has appended records and the last one has
    status OK, a second pass over the same file, resumed from the offset the
    first one left, returns, appends nothing and leaves the same offset. *)
Theorem Parse_resumed_appends_nothing dir self self1 off content new s :
  dir (full_filename self) = Some content ->
  last_offset self = Some off -> 0 <= off ->
  Parse dir self = Ok self1 ->
  scan_list self1 = (scan_list self ++ new ++ [s])%list ->
  Scan.scan_status s = OK ->
  exists self2,
    Parse dir self1 = Ok self2 /\
    scan_list self2 = scan_list self1 /\
    last_offset self2 = last_offset self1.
Proof.
  intros Hdir Hoff H0 H Hlist Hst.
  unfold Parse in H. rewrite Hdir, Hoff in H. unfold seek in H.
  destruct (off <? 0) eqn:Hneg; [lia|]. cbn [bind] in H.
  destruct (Parse_lines self frame0 _) as [[selfE frE]|] eqn:E; [|discriminate].
  cbn [bind] in H.
  destruct (last_item (scan_list selfE)) as [s'|] eqn:Hlast; [|discriminate].
  cbn [bind] in H. injection H as <-.
  change (scan_list (set_last_offset (Scan.doffset s') selfE))
    with (scan_list selfE) in Hlist.
  rewrite app_assoc in Hlist.
  rewrite Hlist, last_item_last in Hlast. injection Hlast as <-.
  destruct (Parse_lines_spec _ _ _ _ _ _ E Hoff) as (Hk & _).
  destruct Hk as (_ & _ & Hfile & _).
  destruct (last_append _ _ _ _ _ _ _ _ E Hoff Hlist)
    as (A & c & R & selfA & frA & selfC & frC & HA & HPA & HPc & HsC & Hok & HR & HsE).
  { rewrite Hlist, <- app_assoc. intros Heq.
    rewrite <- (app_nil_r (scan_list self)) in Heq at 2.
    apply app_inv_head in Heq. destruct new; discriminate Heq. }
  destruct (Hok Hst) as (Hc & Hd & Hidle).
  destruct (Parse_lines_spec _ _ _ _ _ _ HPA Hoff) as (_ & HlA & _).
  destruct (Parse_line_spec _ _ _ _ _ _ HPc HlA) as (_ & HlC & _).
  pose proof (total_len_nonneg A) as HA0.
  set (self1 := set_last_offset (Scan.doffset s) selfE).
  set (selfB := set_last_offset (Some (off + total_len A + Py.len c)) self1).
  destruct (Parse_lines_sim R selfC frC selfB frame0 _ (off + total_len A + Py.len c)
              _ _ Hidle HlC eq_refl HR HsE)
    as (selfB' & frB' & HB & HsB & _).
  exists (set_last_offset (Scan.doffset s) selfB').
  split; [|split; [exact HsB|reflexivity]].
  unfold Parse.
  change (full_filename self1) with (full_filename selfE).
  rewrite Hfile, Hdir.
  change (last_offset self1) with (Scan.doffset s). rewrite Hd.
  unfold seek. destruct (off + total_len A <? 0) eqn:Hneg'; [lia|]. cbn [bind].
  rewrite Z2Nat.inj_add, drop_add by assumption.
  rewrite (iter_lines_drop A _ (c :: R)); [|rewrite <- HA; reflexivity].
  cbn [Parse_lines].
  rewrite (Parse_line_ignored self1 frame0 c (off + total_len A)); [|exact Hd|exact Hc].
  cbn [bind]. fold selfB. rewrite HB. cbn [bind].
  rewrite HsB. change (scan_list selfB) with (scan_list selfE).
  rewrite Hlist, last_item_last. cbn [bind]. rewrite Hd. reflexivity.
Qed.

Lemma Parse_resumed_appends_nothing_witness :
  exists self2,
    Parse (one_file "0000001_meta.log" log1) parsed_log1 = Ok self2 /\
    scan_list self2 = scan_list parsed_log1 /\
    last_offset self2 = last_offset parsed_log1.
Proof.
  apply (Parse_resumed_appends_nothing
           (one_file "0000001_meta.log" log1) at_scan1 parsed_log1 0 log1 [] scan1).
  - reflexivity.
  - reflexivity.
  - lia.
  - vm_compute. reflexivity.
  - reflexivity.
  - reflexivity.
Defined.

Lemma iter_lines_head_nonempty X l rest :
  Py.iter_lines X = l :: rest -> 0 < Py.len l.
Proof.
  destruct X as [|a X]; [discriminate|].
  cbn [Py.iter_lines]. destruct (Ascii.eqb a Py.newline).
  - intros H; injection H as <- _. rewrite len_String, len_empty. lia.
  - destruct (Py.iter_lines X) as [|l' ls]; intros H; injection H as <- _;
      rewrite len_String; [rewrite len_empty|pose proof (len_nonneg l')]; lia.
Qed.

(** The header loop over whole lines: from the beginning of a line to the
    beginning of a later one it collects the lines between, stripped, and
    stops there. *)
Lemma read_header_lines H : forall X T pos hdr fuel,
  Py.iter_lines X = (H ++ T)%list ->
  (List.length H <= fuel)%nat ->
  read_header fuel pos (pos + total_len H) X hdr
  = Some ((hdr ++ map (fun raw => Py.strip (Py.decode_ascii_ignore raw)) H)%list,
          Py.drop (Z.to_nat (total_len H)) X).
Proof.
  induction H as [|l H IH]; intros X T pos hdr fuel HX Hfuel.
  - cbn [total_len fold_right map]. rewrite Z.add_0_r, app_nil_r.
    destruct fuel; cbn [read_header]; rewrite Z.ltb_irrefl; reflexivity.
  - cbn [app] in HX. pose proof (iter_lines_head_nonempty _ _ _ HX) as Hl.
    destruct (readline_iter_lines _ _ _ HX) as (Hr & Hrest).
    pose proof (total_len_nonneg H) as HH.
    cbn [total_len fold_right]. fold (total_len H).
    destruct fuel as [|fuel]; [cbn [List.length] in Hfuel; lia|].
    cbn [read_header].
    destruct (pos <? pos + (Py.len l + total_len H)) eqn:E;
      [|apply Z.ltb_ge in E; lia].
    rewrite Hr.
    replace (pos + (Py.len l + total_len H))
      with (pos + Py.len l + total_len H) by lia.
    rewrite (IH _ T _ _ fuel Hrest) by (cbn [List.length] in Hfuel; lia).
    cbn [map]. rewrite <- app_assoc. cbn [app].
    rewrite Z2Nat.inj_add by lia. unfold Py.len at 1. rewrite Nat2Z.id.
    rewrite drop_add. reflexivity.
Qed.

(** X14: when the header offset and the data offset of a scan that is not
    NODATA are the beginnings of two lines of its file, [ReadData] stores as
    header the lines between the two, each decoded and stripped, and then
    raises [NameError] (no data line has been read). *)
Theorem ReadData_header_is_lines_between_offsets :
  forall fromrecords fuel dir s content A H T,
    Scan.scan_status s <> NODATA ->
    dir (Scan.fname s) = Some content ->
    Py.iter_lines content = (A ++ H ++ T)%list ->
    Scan.hoffset s = total_len A ->
    Scan.doffset s = Some (total_len A + total_len H) ->
    (List.length H <= fuel)%nat ->
    ReadData fromrecords fuel dir s
    = Some (Scan.set_header
              (map (fun raw => Py.strip (Py.decode_ascii_ignore raw)) H) s,
            Raise NameError).
Proof.
  intros fromrecords fuel dir s content A H T Hst Hdir Hlines Hh Hd Hfuel.
  pose proof (total_len_nonneg A) as HA. pose proof (total_len_nonneg H) as HH.
  unfold ReadData.
  destruct (status_eqb (Scan.scan_status s) NODATA) eqn:E.
  { destruct (Scan.scan_status s); try discriminate. contradiction Hst; reflexivity. }
  rewrite Hdir. unfold seek.
  destruct (Scan.hoffset s <? 0) eqn:E1; [lia|].
  change (Scan.doffset (Scan.set_header [] s)) with (Scan.doffset s).
  change (Scan.hoffset (Scan.set_header [] s)) with (Scan.hoffset s).
  rewrite Hd, Hh.
  rewrite (read_header_lines H _ T _ [] fuel (iter_lines_drop A _ _ Hlines) Hfuel).
  destruct (total_len A + total_len H <? 0) eqn:E2; [lia|].
  rewrite type_desc_NameError. reflexivity.
Qed.

Lemma ReadData_header_is_lines_between_offsets_witness :
  ReadData accept_all 5 (one_file "0000001_meta.log" log1) scan1
  = Some (Scan.set_header
            [ "#RUN 1"; "#CMD ascan th 0 1 10"; "#TIM Mon Jan 01 12:00:00 2020";
              "#COL th det"; "#VAL 1.0 abc 2.0" ] scan1,
          Raise NameError).
Proof.
  apply (ReadData_header_is_lines_between_offsets accept_all 5
           (one_file "0000001_meta.log" log1) scan1 log1
           [] header_lines1 [ ln "0.0 5"; ln "0.1 6" ]).
  - discriminate.
  - reflexivity.
  - vm_compute. reflexivity.
  - reflexivity.
  - reflexivity.
  - vm_compute. lia.
Defined.

Lemma branch_newheader_matches st line :
  branch_of st line = B_newheader -> matches SPEC_newheader line = true.
Proof.
  intros H. branch_cases H. reflexivity.
Qed.

Lemma branch_motor_names_matches st line :
  branch_of st line = B_motor_names_fh \/ branch_of st line = B_motor_names_sh ->
  matches SPEC_initmoponames line = true.
Proof.
  intros [H|H]; branch_cases H;
    match goal with E : (matches SPEC_initmoponames line && _)%bool = true |- _ =>
      apply andb_prop in E; exact (proj1 E) end.
Qed.

Lemma branch_needs_scan st line :
  branch_of st line = B_scanbroken \/ branch_of st line = B_dataline \/
  branch_of st line = B_scan_again ->
  st = true.
Proof.
  destruct st; [reflexivity|]. intros H.
  destruct (branch_idle_cases line) as [K|[K|[K|K]]]; rewrite K in H;
    destruct H as [H|[H|H]]; discriminate H.
Qed.

Lemma new_scan_imopnames self fr doff st s :
  new_scan self fr doff st = Ok s -> Scan.imopnames s = init_motor_names self.
Proof.
  unfold new_scan, local. intros H.
  destruct (scannr fr); [|discriminate].
  destruct (scancmd fr); [|discriminate].
  destruct (date fr); [|discriminate].
  destruct (time fr); [|discriminate].
  destruct (itime fr); [|discriminate].
  destruct (col_names fr); [|discriminate].
  destruct (scan_header_offset fr); [|discriminate].
  cbn [bind] in H. injection H as <-. reflexivity.
Qed.

Lemma dataline_imopnames fr s0 s :
  (if scan_has_mca fr then
     f <- local (mca_col_number fr) ;;
     c <- local (mca_channels fr) ;;
     a <- local (mca_start fr) ;;
     b <- local (mca_stop fr) ;;
     Scan.SetMCAParams f c a b s0
   else Ok s0) = Ok s ->
  Scan.imopnames s = Scan.imopnames s0.
Proof.
  intros H. destruct (scan_has_mca fr).
  - unbind H. unfold Scan.SetMCAParams in H. destruct (_ =? 0); [discriminate|].
    injection H as <-. reflexivity.
  - injection H as <-. reflexivity.
Qed.

(** A line that is neither a file header start nor a line of motor names
    keeps the motor names of the file header, and a record it appends
    carries them. *)
Lemma Parse_branch_names N self fr line off self' fr' :
  Parse_branch self fr line off = Ok (self', fr') ->
  matches SPEC_newheader line = false ->
  matches SPEC_initmoponames line = false ->
  names_inv N self fr ->
  names_inv N self' fr' /\
  exists new,
    scan_list self' = (scan_list self ++ new)%list /\
    Forall (fun s => Scan.imopnames s = N) new.
Proof.
  unfold Parse_branch. intros H Hnh Hmot Hinv.
  destruct (branch_of (scan_started fr) line) eqn:Hb.
  - apply branch_newheader_matches in Hb. congruence.
  - pose proof (branch_motor_names_matches _ _ (or_introl Hb)). congruence.
  - (* a scan starts *)
    cbn [bind] in H; unbind H; ok_inj; destruct Hinv as (Hfh & Hcur).
    split; [split; [exact Hfh|intros _; exact Hfh]|].
    exists []. rewrite app_nil_r. split; [reflexivity|constructor].
  - cbn [bind] in H; unbind H; ok_inj; destruct Hinv as (Hfh & Hcur).
    split; [split; [exact Hfh|exact Hcur]|].
    exists []. rewrite app_nil_r. split; [reflexivity|constructor].
  - cbn [bind] in H; unbind H; ok_inj; destruct Hinv as (Hfh & Hcur).
    split; [split; [exact Hfh|exact Hcur]|].
    exists []. rewrite app_nil_r. split; [reflexivity|constructor].
  - cbn [bind] in H; unbind H; ok_inj; destruct Hinv as (Hfh & Hcur).
    split; [split; [exact Hfh|exact Hcur]|].
    exists []. rewrite app_nil_r. split; [reflexivity|constructor].
  - pose proof (branch_motor_names_matches _ _ (or_intror Hb)). congruence.
  - cbn [bind] in H; unbind H; ok_inj; destruct Hinv as (Hfh & Hcur).
    split; [split; [exact Hfh|exact Hcur]|].
    exists []. rewrite app_nil_r. split; [reflexivity|constructor].
  - cbn [bind] in H; unbind H; ok_inj; destruct Hinv as (Hfh & Hcur).
    split; [split; [exact Hfh|exact Hcur]|].
    exists []. rewrite app_nil_r. split; [reflexivity|constructor].
  - cbn [bind] in H; unbind H; ok_inj; destruct Hinv as (Hfh & Hcur).
    split; [split; [exact Hfh|exact Hcur]|].
    exists []. rewrite app_nil_r. split; [reflexivity|constructor].
  - cbn [bind] in H; unbind H; ok_inj; destruct Hinv as (Hfh & Hcur).
    split; [split; [exact Hfh|exact Hcur]|].
    exists []. rewrite app_nil_r. split; [reflexivity|constructor].
  - (* an abort notice *)
    pose proof (branch_needs_scan _ _ (or_introl Hb)) as Hst.
    cbn [bind] in H; unbind H; ok_inj; destruct Hinv as (Hfh & Hcur).
    split; [split; [exact Hfh|intros K; discriminate K]|].
    exists [a]. split; [reflexivity|]. constructor; [|constructor].
    rewrite (new_scan_imopnames _ _ _ _ _ E). exact (Hcur Hst).
  - (* a data line *)
    pose proof (branch_needs_scan _ _ (or_intror (or_introl Hb))) as Hst.
    cbn [bind] in H; unbind H; ok_inj; destruct Hinv as (Hfh & Hcur).
    split; [split; [exact Hfh|intros K; discriminate K]|].
    exists [a1]. split; [reflexivity|]. constructor; [|constructor].
    rewrite (dataline_imopnames _ _ _ E1), (new_scan_imopnames _ _ _ _ _ E0).
    exact (Hcur Hst).
  - (* a scan start while a scan is open *)
    pose proof (branch_needs_scan _ _ (or_intror (or_intror Hb))) as Hst.
    cbn [bind] in H; unbind H; ok_inj; destruct Hinv as (Hfh & Hcur).
    split; [split; [exact Hfh|intros _; exact Hfh]|].
    exists [a]. split; [reflexivity|]. constructor; [|constructor].
    rewrite (new_scan_imopnames _ _ _ _ _ E). exact (Hcur Hst).
  - injection H as <- <-. destruct Hinv as (Hfh & Hcur).
    split; [split; [exact Hfh|exact Hcur]|].
    exists []. rewrite app_nil_r. split; [reflexivity|constructor].
Qed.

Lemma Parse_line_names N self fr raw self' fr' :
  Parse_line self fr raw = Ok (self', fr') ->
  matches SPEC_newheader (Py.strip (Py.decode_ascii_ignore raw)) = false ->
  matches SPEC_initmoponames (Py.strip (Py.decode_ascii_ignore raw)) = false ->
  names_inv N self fr ->
  names_inv N self' fr' /\
  exists new,
    scan_list self' = (scan_list self ++ new)%list /\
    Forall (fun s => Scan.imopnames s = N) new.
Proof.
  unfold Parse_line. intros H Hnh Hmot Hinv.
  destruct (as_offset (last_offset self)) as [off|]; [|discriminate]. cbn [bind] in H.
  destruct (Parse_branch self fr _ off) as [[self1 fr1]|] eqn:E; [|discriminate].
  cbn [bind] in H.
  destruct (as_offset (last_offset self1)) as [off1|]; [|discriminate].
  cbn [bind] in H. injection H as <- <-.
  exact (Parse_branch_names N _ _ _ _ _ _ E Hnh Hmot Hinv).
Qed.

Lemma Parse_lines_names N lines : forall self fr self' fr',
  Parse_lines self fr lines = Ok (self', fr') ->
  lacks SPEC_newheader lines -> lacks SPEC_initmoponames lines ->
  names_inv N self fr ->
  names_inv N self' fr' /\
  exists new,
    scan_list self' = (scan_list self ++ new)%list /\
    Forall (fun s => Scan.imopnames s = N) new.
Proof.
  induction lines as [|raw rest IH]; intros self fr self' fr' H Hnh Hmot Hinv.
  - injection H as <- <-. split; [exact Hinv|].
    exists []. rewrite app_nil_r. split; [reflexivity|constructor].
  - cbn [Parse_lines] in H.
    destruct (Parse_line self fr raw) as [[self1 fr1]|] eqn:E; [|discriminate].
    cbn [bind] in H.
    inversion Hnh as [|? ? Hnh1 Hnh2]; inversion Hmot as [|? ? Hmot1 Hmot2]; subst.
    destruct (Parse_line_names N _ _ _ _ _ E Hnh1 Hmot1 Hinv) as (Hinv1 & new1 & Hs1 & Hf1).
    destruct (IH _ _ _ _ H Hnh2 Hmot2 Hinv1) as (Hinv2 & new2 & Hs2 & Hf2).
    split; [exact Hinv2|].
    exists (new1 ++ new2)%list. split.
    + rewrite Hs2, Hs1, app_assoc. reflexivity.
    + apply Forall_app; split; assumption.
Qed.

(** X15: a pass of [Parse] over a part of a file that holds no [#E] line
    and no [#MOT] line leaves the motor names of the file header as they
    were before the pass, and every record it appends carries them: those
    of a file parsed earlier, when there is one. *)
Theorem motor_names_carried_into_records :
  forall dir self self' off content,
    Parse dir self = Ok self' ->
    dir (full_filename self) = Some content ->
    last_offset self = Some off ->
    lacks SPEC_newheader (Py.iter_lines (Py.drop (Z.to_nat off) content)) ->
    lacks SPEC_initmoponames (Py.iter_lines (Py.drop (Z.to_nat off) content)) ->
    init_motor_names_fh self' = init_motor_names_fh self /\
    exists new,
      scan_list self' = (scan_list self ++ new)%list /\
      Forall (fun s => Scan.imopnames s = init_motor_names_fh self) new.
Proof.
  intros dir self self' off content H Hdir Hoff Hnh Hmot.
  unfold Parse in H. rewrite Hdir, Hoff in H. unfold seek in H.
  destruct (off <? 0); [discriminate|]. cbn [bind] in H.
  destruct (Parse_lines self frame0 _) as [[self1 fr1]|] eqn:E; [|discriminate].
  cbn [bind] in H.
  destruct (last_item (scan_list self1)) as [s|]; [|discriminate].
  cbn [bind] in H. injection H as <-.
  destruct (Parse_lines_names (init_motor_names_fh self) _ _ _ _ _ E Hnh Hmot)
    as ((Hfh & _) & new & Hs & Hf).
  { split; [reflexivity|]. intros K. discriminate K. }
  split; [exact Hfh|]. exists new. split; [exact Hs|exact Hf].
Qed.

Lemma motor_names_carried_into_records_witness :
  init_motor_names_fh parsed_with_motors = ["th"; "chi"] /\
  exists new,
    scan_list parsed_with_motors = (scan_list at_scan1_with_motors ++ new)%list /\
    Forall (fun s => Scan.imopnames s = ["th"; "chi"]) new.
Proof.
  apply (motor_names_carried_into_records (one_file "0000001_meta.log" log1)
           at_scan1_with_motors parsed_with_motors 0 log1).
  - vm_compute. reflexivity.
  - reflexivity.
  - reflexivity.
  - unfold lacks. vm_compute. repeat constructor.
  - unfold lacks. vm_compute. repeat constructor.
Defined.







(** The pass of the witness: the file of scan 2 is parsed, the file of scan
    1 is not looked for, the file of scan 3 is missing and the file of scan
    5, which exists, is not parsed. *)
Example listed_discovery_1_2_5 :
  after_discovery
    (parse_folders 0 files_1_2_5
       (new_file "pal" "data" default_file_format [2; 1; 3; 5] 1))
  = Some (Ok ([("0000002_meta.log", (1, OK, 0, Some 87))], 3)).
Proof. vm_compute. reflexivity. Qed.
